(* ===== verification/_CoqProject ===== *)
-Q . S2P
Prelude.v
PyFloat.v
Merger.v
HttpUpload.v
Emitter.v
AudioBuffer.v
ResourceGuard.v
Recognizers.v
Handler.v
Session.v
Unified.v
Server.v
Bootstrap.v
Tests.v
