(* ===== verification/Prelude.v ===== *)
(** * A verification development of the meeting transcription server

    The repository (cheatofrom/meeting) is a real-time speech transcription
    service written in Python.  Its streaming core is the WebSocket handler
    [ws_serve] of src/websocket/funasr_wss_server.py: per connection it keeps
    recognition caches, an audio buffer, three frame lists and a few flags,
    and for every inbound frame it
      - updates the session configuration from a JSON control frame, or
      - appends a binary audio frame to the buffer and the frame lists, runs
        the online (streaming) recogniser every [chunk_interval] frames,
        runs the voice-activity detector (VAD) to find speech boundaries,
      - and at the end of a speech segment runs the offline recogniser and
        the punctuation model on the segment.
    Online text is sent incrementally (only the unsent suffix, tracked by
    [sent_text_length]); offline text is sent whole.  A second server,
    src/websocket/funasr_unified_server.py, is a rewrite of the same handler
    with a different buffer eviction policy and memory guard and without
    VAD.  It also serves an HTTP upload endpoint, as
    src/websocket/funasr_api_server.py does; both fold the speaker-tagged
    sentences of one offline call into speaker turns with the same
    [process_recognition_result].

    The recognition models (FunASR [AutoModel] instances) are external
    collaborators: they are modelled as functions that receive the opaque
    cache the session threads through them and return a result or raise.

    ** Files, in dependency order
    - [Prelude]: this header; Python text ([pystr], a list of code points),
      exceptions ([raises]), Python slicing with negative indices, floor and
      true division, [str.strip], the tactics and hint database [meeting].
    - [PyFloat]: Python floats as exact binary64 values: correctly
      rounded [int / int] and float sums, [x // k], [x % k], [<=], and
      the fixed-point formats [:0w.pf] and [:0wd]; the rounding error
      bounds, stated in [Q] for [lra].
    - [Merger]: [process_recognition_result] (funasr_api_server.py 53-107,
      identical in funasr_unified_server.py 530-584), on millisecond
      integers turned into floats as the source does; its reference
      specification as runs of sentences, its invariants, when it joins
      and when it splits, and the [time_range] string of the dicts it returns.
    - [HttpUpload]: the [/api/recognize] handler of both HTTP servers
      (funasr_api_server.py 109-161, funasr_unified_server.py 587-639):
      a temporary file around one model call and the merger, with the
      files on disk as a [gset]; and the API server's [/api/health].
    - [Emitter]: the incremental text emission of [async_asr_online]
      (funasr_wss_server.py 662-686): the [sent_text_length] cursor and the
      suffix it sends.
    - [AudioBuffer]: both [AudioBuffer] classes (wss 180-229, unified
      247-277) as instances of one typeclass interface [AudioBufferOps]
      with its laws [AudioBufferLaws], and the lossless contract
      [StreamSpec] that the wss buffer refines; the unused
      [is_likely_active] with numpy's [int16] decoding and wrap-around.
    - [ResourceGuard]: [get_gpu_memory_info], [clear_gpu_memory] and both
      [check_memory_before_processing] functions (wss 130-177, unified
      200-245) over an explicit GPU state, with [torch.cuda.empty_cache]
      a section variable.
    - [Recognizers]: the model calls of the wss server: [async_vad]
      (486-505), [split_audio_chunks] (508-530) with its loop checked
      against a well-founded (Equations) reference, the offline pass
      [async_asr] (532-650) and the online pass [async_asr_online]
      (652-687).  The five FunASR models are fields of a record [models]
      over an opaque cache type: functions that return a result and the
      new cache, or raise.  The mode sets of spec sections 4 and 6.
    - [Handler]: the state-and-exception monad of a websocket handler
      ([handler S]), generic in the connection state, and its program
      logic: the weakest precondition [wp], its rules, the invariant
      combinators [keeps], [keeps_ok], [keeps_w] and the tactics
      [wp_exec], [keeps_w_exec].
    - [Session]: [ws_serve] (wss 293-484) as a per-frame step [ws_step] on
      an explicit [session] record, written in [Handler]'s monad over the
      session, the GPU state and the messages sent.  [ws_reset],
      [merge_stream_results], [send_final_result] and the
      [ConnectionClosed] handler are modelled there too.
    - [Unified]: [ws_serve] of funasr_unified_server.py (279-528) with its
      own [async_asr], [async_asr_online], [split_audio_chunks],
      [ws_reset] and the uncalled [async_vad], by explicit state passing on a world record; it reuses
      the [control] and [frame] types of [Session], the
      [UnifiedAudioBuffer] and [unified_check_memory], and [u_run] runs a
      connection over a list of frames.
    - [Server]: both servers as sets of concurrently served connections:
      the module-level [websocket_users] registry, a [gmap] of the
      sessions of the running handlers, the shared GPU, stepped by
      connect, frame and close events in any interleaving ([wss_event]
      calls [Session.ws_step] and [ws_close], [uni_event] calls
      [Unified.u_step] and [u_close]); the unified [/api/health] and
      [/api/status], which read the registry; [clear_websocket] of both
      servers (never called).  A generic section [View] states what one
      connection sees of an interleaved run: [wss_local] and [uni_local]
      are the handlers of one connection served alone.
    - [Bootstrap]: the [argparse] options and defaults of the wss and
      unified servers, the model loading of the three servers
      ([AutoModel] as a section variable that may raise), the TLS choice
      of the server start, and the [__main__] blocks of the unified and
      API servers.
    - [Tests]: the scripts under src/test: the websocket client of
      test.py (its frames, its [f.read(3200)] loop, its receive loop and
      warning), run against [Session.ws_step] and [Unified.u_run]; the
      copy of the merging loop in test02.py and the lines it prints; the
      float formatting of test4.py and test3.py.

    ** What the theorems show (see each file)
    - [Merger]: the fold refines a reference definition by maximal runs
      (C1), keeps the text (C3), separates turns by at least one second
      (C4, through the rounding error of the float test, for times below
      [2 ^ 40] ms), joins a chain of one speaker's sentences with gaps of
      at most 999 ms into one turn (C5) and splits at every speaker
      change or pause of 1001 ms or more (C8: adjacent turns of one
      speaker and overlapping turns, against spec.md); [time_range]
      prints 60 seconds for a start in the last 50 ms of a minute (C6).
    - [HttpUpload]: the temporary file is removed on every path once the
      upload is saved (C25), and leaks when saving it raises (C7).
    - [Emitter]: growing results are sent losslessly (C10); after the text
      shrinks, the first characters of the new text up to the old cursor
      are never sent (C14).
    - [AudioBuffer]: the wss buffer refines the lossless contract (C15)
      but is unbounded (C16); the unified buffer keeps a window (C17) and
      loses data through its watermark update (C18); the [int16]
      [np.abs] of [is_likely_active] wraps at [-32768] (C29).
    - [ResourceGuard]: exact admission conditions (C19, C21).
    - [Recognizers]: [split_audio_chunks] returns the slices of
      [range(0, len, S)] with [S] exactly the chunk size, its fuelled loop
      equal to the well-founded reference (C23); the substring test behind
      ["2pass" in mode] is the substring relation.
    - [Session]: every reachable session keeps the buffer watermark
      within the buffer (C22, by induction on the frames served); the
      messages sent have the modes of spec section 6 (C11); while the
      client speaks without a segment boundary, any [chunk_interval]
      audio frames are served and the streaming model is called once,
      on all of them, at the last one (C13, over the frame loop
      [ws_steps]); the configuration a session needs (C27, C28), the
      look-back (C30), the offline pass repeated after every segment
      end (C31), scenario D (C32) and why it is unreachable on an upload
      connection that sends no audio before upload mode (C33), duplicated upload frames (C34), the [ZeroDivisionError] on
      short frames (C35) and the segment-end cache policy (C36).
    - [Unified]: lossless small uploads (C37), the flush that clears
      nothing (C38), the silent memory refusal (C39) and the online mode
      that sends every cumulative text whole (C40).
    - [Server]: each connection sees an interleaved run as a run of its
      own handler alone, up to the GPU states (C2, from a simulation
      lemma proved once for any server step); the
      unified registry is exactly the set of running handlers, so the
      status endpoints count them (C20, by induction over event
      sequences); the wss registry leaks every connection whose handler
      ends on an exception (C12).
    - [Bootstrap]: the unified process serves exactly when all its
      models load, and then reports them loaded (C24).
    - [Tests]: the client of test.py never receives a result it
      recognises from either server (C9, composing [Session], [Unified]
      and the client's loops); test02.py prints one line per turn of
      [process_recognition_result], with the servers' [time_range]:
      re-reading its own formatted start with [int()] and [float()] is a
      round trip (C26, through [PyFloat]'s [str_int]/[py_int_of_str] and
      [format_fixed]/[py_float] lemmas).
    Every theorem with hypotheses has a witness that applies it to a
    concrete input computed by [vm_compute].

    ** Modelling choices
    - Python [str] is a list of Unicode code points ([pystr] = [list Z]),
      so that [len] counts code points as Python does.  [bytes] is a list
      of [Byte.byte].
    - Python [int] is [Z].  The memory figures in GiB of [ResourceGuard]
      are modelled on bytes: dividing by [2 ^ 30] and multiplying by 2,
      1.5 or 4 is exact in binary64 for byte counts below [2 ^ 51].  The
      times of [process_recognition_result] and of the test scripts are
      floats with their rounding ([PyFloat]); the exponent range is not
      bounded, since no value comes near overflow or underflow.
    - An exception is a value [Exc msg] of [raises A].
    - The [ws_serve] loop is modelled one frame at a time: [ws_step] maps a
      session, a GPU state and an inbound frame to the session (still
      served, or ended by an exception), the GPU state and the messages
      sent.  The tasks of several connections interleave at frame
      boundaries (asyncio runs one frame of a connection to completion,
      model calls included), which is what [Server]'s event sequences
      express.
    - Fuel: no loop needs fuel except the chunking loop, whose fuel is the
      audio length; since every chunk is non-empty that is enough: the
      loop computes the well-founded reference, and C23 states the whole
      function.
    - Numpy [int16] arrays are lists of [Z], with the two's-complement
      wrap [swrap] written out where numpy wraps.
    - Not modelled: imports, logging, the FastAPI app, routing and CORS
      middleware, the event loops, threads and port binding (library
      configuration and I/O); the pyannote and modelscope pipelines that
      test3.py and test4.py call (libraries); the wall-clock timeout of
      test.py; the lines test02.py printed before an exception (the
      model keeps the exception only). *)

From Stdlib Require Import ZArith Lia String Ascii.
From stdpp Require Import base list.

Declare Scope py_scope.
Delimit Scope py_scope with py.
Local Open Scope Z_scope.

(** ** Python values *)

(** A Python [str]: its code points. *)
Abbreviation pystr := (list Z).

(** An ASCII Rocq literal as a Python [str]. *)
Definition lit (s : string) : pystr :=
  map (fun a => Z.of_nat (nat_of_ascii a)) (list_ascii_of_string s).

Notation "'u' s" := (lit s%string) (at level 1, s at level 0) : py_scope.

(** Python [bytes]. *)
Abbreviation bytes := (list Byte.byte).

(** A computation that returns [a] or raises an exception whose [str] is
    [msg]. *)
Inductive raises (A : Type) : Type :=
| Ret (a : A)
| Exc (msg : pystr).
Arguments Ret {A} a.
Arguments Exc {A} msg.

Definition raises_bind {A B} (r : raises A) (k : A -> raises B) : raises B :=
  match r with
  | Ret a => k a
  | Exc m => Exc m
  end.

Notation "x <- r ;; k" := (raises_bind r (fun x => k))
  (at level 60, r at next level, right associativity) : py_scope.

(** ** Python integer operations *)

(** [a // b]: floor division, raising [ZeroDivisionError] on zero. *)
Definition py_floordiv (a b : Z) : raises Z :=
  if b =? 0 then Exc (u"integer division or modulo by zero")%py else Ret (a / b).

(** [a % b]: the remainder with the sign of [b], raising on zero. *)
Definition py_mod (a b : Z) : raises Z :=
  if b =? 0 then Exc (u"integer modulo by zero")%py else Ret (a mod b).

(** [int(a / b)] for integers [a] and [b]: true division then truncation
    toward zero (exact when the quotient is representable). *)
Definition py_int_truediv (a b : Z) : raises Z :=
  if b =? 0 then Exc (u"division by zero")%py else Ret (Z.quot a b).

(** ** Machine integers *)

(** Two's-complement wrap-around to [w] bits, the arithmetic of numpy's
    fixed-width integer arrays. *)
Definition swrap (w x : Z) : Z := (x + 2 ^ (w - 1)) mod 2 ^ w - 2 ^ (w - 1).

(** A little-endian [int16] from its two bytes. *)
Definition int16_of_le (lo hi : Byte.byte) : Z :=
  swrap 16 (Z.lor (Z.of_N (Byte.to_N lo)) (Z.shiftl (Z.of_N (Byte.to_N hi)) 8)).

(** ** Python slicing *)

(** The start index of [l[i:]] for a list of length [n]. *)
Definition py_start (n : nat) (i : Z) : nat :=
  if 0 <=? i then Z.to_nat i else Z.to_nat (Z.max 0 (Z.of_nat n + i)).

(** [l[i:]], with Python's negative indices: [l[-k:]] keeps the last [k]
    elements, and [l[-0:]] is the whole list. *)
Definition py_slice_from {A} (l : list A) (i : Z) : list A :=
  drop (py_start (length l) i) l.

(** ** [str.strip()] *)

(** The code points for which Python's [str.isspace] holds. *)
Definition py_isspace (c : Z) : bool :=
  ((9 <=? c) && (c <=? 13)) || ((28 <=? c) && (c <=? 32)) || (c =? 133)
  || (c =? 160) || (c =? 5760) || ((8192 <=? c) && (c <=? 8202))
  || (c =? 8232) || (c =? 8233) || (c =? 8239) || (c =? 8287) || (c =? 12288).

Fixpoint lstrip (s : pystr) : pystr :=
  match s with
  | [] => []
  | c :: s' => if py_isspace c then lstrip s' else s
  end.

Definition py_strip (s : pystr) : pystr := reverse (lstrip (reverse (lstrip s))).

(** [sep.join(l)]. *)
Fixpoint py_join (sep : pystr) (l : list pystr) : pystr :=
  match l with
  | [] => []
  | [x] => x
  | x :: rest => x ++ sep ++ py_join sep rest
  end.

(** ** [str.split(sep)] and [int(str)] *)

(** [s.split(sep)] for a one-character separator: ["a,,b"] gives
    ["a", "", "b"] and [""] gives [[""]]. *)
Fixpoint py_split (sep : Z) (s : pystr) : list pystr :=
  match s with
  | [] => [[]]
  | c :: s' =>
      if c =? sep then [] :: py_split sep s'
      else match py_split sep s' with
           | [] => [[c]]
           | w :: ws => (c :: w) :: ws
           end
  end.

(** [l[i]] for [0 <= i]: [IndexError] past the end. *)
Definition py_getitem {A} (l : list A) (i : nat) : raises A :=
  match l !! i with
  | Some x => Ret x
  | None => Exc (lit "IndexError: list index out of range")
  end.

Definition py_isdigit (c : Z) : bool := (48 <=? c) && (c <=? 57).

(** The value of ASCII decimal digits with single underscores between
    digits, read after [acc]. *)
Fixpoint digits_value (acc : Z) (after_underscore : bool) (s : pystr) : option Z :=
  match s with
  | [] => if after_underscore then None else Some acc
  | c :: s' =>
      if c =? 95 then (if after_underscore then None else digits_value acc true s')
      else if py_isdigit c then digits_value (acc * 10 + (c - 48)) false s'
      else None
  end.

(** [int(s)] for a [str]: surrounding whitespace, an optional sign, then
    digits (Unicode digits other than ASCII are not modelled); anything
    else raises [ValueError]. *)
Definition py_sign (t : pystr) : Z * pystr :=
  match t with
  | 45 :: r => (-1, r)
  | 43 :: r => (1, r)
  | _ => (1, t)
  end.

Definition py_int_of_str (s : pystr) : raises Z :=
  let t := py_strip s in
  let '(sign, body) := py_sign t in
  let err := Exc (lit "invalid literal for int() with base 10: " ++ s) in
  match body with
  | c :: _ => if py_isdigit c
              then match digits_value 0 false body with
                   | Some v => Ret (sign * v)
                   | None => err
                   end
              else err
  | [] => err
  end.

(** [[f(x) for x in l]] where [f] may raise: the first exception wins. *)
Fixpoint py_map_raises {A B} (f : A -> raises B) (l : list A) : raises (list B) :=
  match l with
  | [] => Ret []
  | x :: l' => raises_bind (f x) (fun y => raises_bind (py_map_raises f l') (fun ys => Ret (y :: ys)))
  end.

(** ** Tactics and hints *)

Create HintDb meeting.
Create Rewrite HintDb meeting_rw.

Ltac invc H := inversion H; subst; clear H.

(** Case on the first [if] of the goal, keeping the equation. *)
Ltac case_if :=
  match goal with
  | |- context [if ?c then _ else _] => let E := fresh "E" in destruct c eqn:E
  end.

(** Close a decidable goal about closed values, such as [x ∈ l] on
    literal strings, by evaluating its decision procedure. *)
Ltac decide_closed := match goal with |- ?P => apply (bool_decide_unpack P); vm_compute; reflexivity end.

(** Turn boolean comparisons on [Z] in the hypotheses into propositions. *)
Ltac zbool :=
  repeat match goal with
  | H : (_ =? _)%Z = true |- _ => apply Z.eqb_eq in H
  | H : (_ =? _)%Z = false |- _ => apply Z.eqb_neq in H
  | H : (_ <=? _)%Z = true |- _ => apply Z.leb_le in H
  | H : (_ <=? _)%Z = false |- _ => apply Z.leb_gt in H
  | H : (_ <? _)%Z = true |- _ => apply Z.ltb_lt in H
  | H : (_ <? _)%Z = false |- _ => apply Z.ltb_ge in H
  end.

(** ** Shared lemmas *)

Lemma py_start_neg n k : 0 <= k -> py_start n (- k) = if k =? 0 then 0%nat else (n - Z.to_nat k)%nat.
Proof.
  intros Hk. unfold py_start. destruct (Z.eqb_spec k 0) as [->|Hk0]; [reflexivity|].
  destruct (Z.leb_spec 0 (- k)); [lia|]. lia.
Qed.

(** [l[-k:]] for [k > 0] is the suffix of length [min k (len l)]. *)
Lemma py_slice_from_neg_length {A} (l : list A) k :
  0 < k -> length (py_slice_from l (- k)) = Nat.min (Z.to_nat k) (length l).
Proof.
  intros Hk. unfold py_slice_from. rewrite py_start_neg by lia.
  destruct (Z.eqb_spec k 0); [lia|]. rewrite length_drop. lia.
Qed.

Lemma py_slice_from_nonneg {A} (l : list A) i :
  0 <= i -> py_slice_from l i = drop (Z.to_nat i) l.
Proof. intros Hi. unfold py_slice_from, py_start. destruct (Z.leb_spec 0 i); [done | lia]. Qed.

Lemma py_slice_from_suffix {A} (l : list A) i : py_slice_from l i `suffix_of` l.
Proof. apply suffix_drop. Qed.

Lemma lit_length s : length (lit s) = String.length s.
Proof.
  unfold lit. rewrite length_map.
  induction s as [|a s IH]; simpl; [done | by rewrite IH].
Qed.


Lemma swrap_small w x : 0 < w -> - 2 ^ (w - 1) <= x < 2 ^ (w - 1) -> swrap w x = x.
Proof.
  intros Hw Hx. unfold swrap.
  assert (2 ^ w = 2 * 2 ^ (w - 1)) by (rewrite <- Z.pow_succ_r by lia; f_equal; lia).
  rewrite Z.mod_small; lia.
Qed.

Lemma swrap_bounds w x : 0 < w -> - 2 ^ (w - 1) <= swrap w x < 2 ^ (w - 1).
Proof.
  intros Hw. unfold swrap.
  assert (2 ^ w = 2 * 2 ^ (w - 1)) by (rewrite <- Z.pow_succ_r by lia; f_equal; lia).
  pose proof (Z.mod_pos_bound (x + 2 ^ (w - 1)) (2 ^ w) ltac:(lia)). lia.
Qed.

(** The characters of a formatted number: digits and the point. *)
Definition num_char (c : Z) : bool := py_isdigit c || (c =? 46).

Lemma num_char_cases c : num_char c = true -> c = 46 \/ 48 <= c <= 57.
Proof.
  unfold num_char, py_isdigit. intros H. apply orb_true_iff in H as [H|H].
  - right. apply andb_true_iff in H as [H1 H2]. zbool. lia.
  - left. by apply Z.eqb_eq.
Qed.

Lemma num_char_not_space c : num_char c = true -> py_isspace c = false.
Proof.
  intros [->|Hc]%num_char_cases; [reflexivity|].
  assert (c = 48 \/ c = 49 \/ c = 50 \/ c = 51 \/ c = 52 \/ c = 53 \/ c = 54 \/ c = 55 \/ c = 56 \/ c = 57)
    as Hs by lia.
  repeat destruct Hs as [->|Hs]; [reflexivity..|]. by subst.
Qed.

Lemma py_sign_digit c r : py_isdigit c = true -> py_sign (c :: r) = (1, c :: r).
Proof.
  unfold py_isdigit. intros H. apply andb_true_iff in H as [H1 H2]. zbool.
  assert (c = 48 \/ c = 49 \/ c = 50 \/ c = 51 \/ c = 52 \/ c = 53 \/ c = 54 \/ c = 55 \/ c = 56 \/ c = 57)
    as Hs by lia.
  repeat destruct Hs as [->|Hs]; [reflexivity..|]. by subst.
Qed.

Lemma lstrip_nospace s : Forall (fun c => py_isspace c = false) s -> lstrip s = s.
Proof. intros [|c s' Hc _]; [done|]. simpl. by rewrite Hc. Qed.

Lemma py_strip_nospace s : Forall (fun c => py_isspace c = false) s -> py_strip s = s.
Proof.
  intros H. unfold py_strip. rewrite (lstrip_nospace s H), lstrip_nospace.
  - apply reverse_involutive.
  - by apply Forall_reverse.
Qed.

Lemma py_split_nosep sep s : Forall (fun c => c <> sep) s -> py_split sep s = [s].
Proof.
  induction 1 as [|c s Hc _ IH]; [done|]. simpl. rewrite IH.
  by rewrite (proj2 (Z.eqb_neq c sep) Hc).
Qed.

Lemma py_split_app sep a b :
  Forall (fun c => c <> sep) a -> py_split sep (a ++ sep :: b) = a :: py_split sep b.
Proof.
  induction 1 as [|c a Hc _ IH]; simpl; [by rewrite Z.eqb_refl|].
  by rewrite IH, (proj2 (Z.eqb_neq c sep) Hc).
Qed.

(** The value of plain digits, read after [acc]. *)
Definition digits_fold (acc : Z) (ds : pystr) : Z := fold_left (fun a c => a * 10 + (c - 48)) ds acc.

Lemma digits_value_digits acc ds :
  Forall (fun c => py_isdigit c = true) ds -> digits_value acc false ds = Some (digits_fold acc ds).
Proof.
  revert acc. induction ds as [|c ds IH]; intros acc H; [done|].
  inversion H as [|? ? Hc Hds]; subst. simpl. rewrite Hc.
  unfold py_isdigit in Hc. apply andb_true_iff in Hc as [H1 H2]. zbool.
  rewrite (proj2 (Z.eqb_neq c 95)) by lia. by apply IH.
Qed.

#[export] Hint Resolve py_slice_from_suffix : meeting.
#[export] Hint Rewrite @length_app @length_drop @length_take @length_reverse : meeting_rw.
