(* ===== verification/PyFloat.v ===== *)
(** * PyFloat: Python floats and their fixed-point formatting

    Times are integers of milliseconds in the model ([Merger]); the
    sources turn them into Python floats ([start / 1000]), split them into
    minutes and seconds ([x // 60], [x % 60]) and print the seconds with a
    format such as [:04.1f].  This file gives those operations their
    Python meaning on exact values:
    - a float is the exact value [mant * 2 ^ expo] ([float]), seen as the
      fraction [num x / den x];
    - [of_ratio n d] is the float nearest to [n / d], ties to even, with a
      53-bit mantissa: Python's true division of two [int]s is correctly
      rounded, and so is a float sum; the exponent range is not bounded,
      since no value of the sources comes near overflow or underflow;
    - [floor_div x k] is [int(x // k)] for an integer [k > 0]: CPython
      computes [(x - fmod(x, k)) / k] and its floor, all exact for
      [|x| < 2 ^ 53];
    - [fmod_int x k] is [x % k]: [fmod] is exact, and the [+ k] CPython
      adds when [x < 0] is rounded, so the result is the rounded exact
      remainder [x - k * floor(x / k)];
    - [format_fixed w p x] is [format(x, "0w.pf")]: the exact value of [x]
      rounded to [p] decimals, ties to even (CPython's correctly rounded
      [dtoa]), zero-padded after the sign to width [w]; [format_int w n]
      is [format(n, "0wd")].
    - [str_int n] is [str(n)] and [py_float s] is [float(s)] on decimal
      strings with an optional fraction, correctly rounded.
    The lemmas at the end show that [x % 60] of a non-negative float
    prints as [0w.1f] digits that [float()] reads back to a float that
    prints the same, and [int()] reads back [str(n)]: the round trip of
    test02.py's [merged_time].
    Negative zero is not represented: none of the values formatted here
    is a negative zero. *)

From Stdlib Require Import ZArith Lia String DecimalString QArith Lqa.
From stdpp Require Import base list.
From S2P Require Import Prelude.

Local Open Scope Z_scope.

Module PyFloat.

(** A finite float: the value [mant * 2 ^ expo]. *)
Record float := mkfloat { mant : Z; expo : Z }.

(** The value of a float as the fraction [num x / den x], [den x > 0]. *)
Definition num (x : float) : Z := mant x * 2 ^ Z.max 0 (expo x).
Definition den (x : float) : Z := 2 ^ Z.max 0 (- expo x).

(** [n / d] rounded to the nearest integer, ties to even ([d > 0]). *)
Definition round_div (n d : Z) : Z :=
  let q := n / d in
  let r := n mod d in
  if 2 * r <? d then q
  else if d <? 2 * r then q + 1
  else if Z.even q then q else q + 1.

(** [a / (d * 2 ^ e)] as the fraction [scaled_num a e / scaled_den d e]. *)
Definition scaled_num (a e : Z) : Z := a * 2 ^ Z.max 0 (- e).
Definition scaled_den (d e : Z) : Z := d * 2 ^ Z.max 0 e.

(** The float nearest to [n / d] ([d > 0]), ties to even.  The exponent
    [e] puts [|n| / (d * 2 ^ e)] in [[2 ^ 52, 2 ^ 53)]: [e0] puts it in
    [(2 ^ 51, 2 ^ 53)], and one more bit is taken when it is below
    [2 ^ 52]. *)
Definition of_ratio (n d : Z) : float :=
  if n =? 0 then mkfloat 0 0 else
  let a := Z.abs n in
  let e0 := Z.log2 a - Z.log2 d - 52 in
  let e := if scaled_num a e0 / scaled_den d e0 <? 2 ^ 52 then e0 - 1 else e0 in
  mkfloat (Z.sgn n * round_div (scaled_num a e) (scaled_den d e)) e.

(** [a / b] for Python [int]s [a] and [b <> 0]. *)
Definition truediv (a b : Z) : float :=
  if 0 <? b then of_ratio a b else of_ratio (- a) (- b).

(** [int(x // k)] for an integer [k > 0]. *)
Definition floor_div (x : float) (k : Z) : Z := num x / (k * den x).

(** [x % k] for an integer [k > 0]. *)
Definition fmod_int (x : float) (k : Z) : float :=
  of_ratio (num x - k * floor_div x k * den x) (den x).

(** [x <= y] on floats. *)
Definition le (x y : float) : bool := num x * den y <=? num y * den x.

(** [x + k] for an integer [k]: the exact sum, rounded. *)
Definition add_int (x : float) (k : Z) : float := of_ratio (num x + k * den x) (den x).

(** The decimal digits of [n >= 0], most significant first, with at most
    [fuel] of them. *)
Fixpoint dec_digits (fuel : nat) (n : Z) : pystr :=
  match fuel with
  | O => []
  | S f => if n <? 10 then [48 + n] else dec_digits f (n / 10) ++ [48 + n mod 10]
  end.

(** [str(n)] for a Python [int]: a minus sign, then the digits, whose
    number is at most [log2 n + 1]. *)
Definition str_int (n : Z) : pystr :=
  if n <? 0 then 45 :: dec_digits (S (Z.to_nat (Z.log2 (- n)))) (- n)
  else dec_digits (S (Z.to_nat (Z.log2 n))) n.

(** ** Parsing *)

(** [float(s)]: surrounding whitespace, an optional sign, then digits
    with an optional point, as [int] reads them (underscores between
    digits allowed); the value is the float nearest to the decimal.
    Exponents, [inf] and [nan], which the strings parsed here never have,
    raise in the model. *)
Definition py_float (s : pystr) : raises float :=
  let t := py_strip s in
  let '(sign, body) := py_sign t in
  let err := Exc (lit "could not convert string to float: " ++ s) in
  let part (ds : pystr) : option Z :=
    match ds with
    | [] => Some 0
    | c :: _ => if py_isdigit c then digits_value 0 false ds else None
    end in
  match py_split 46 body with
  | [ip] =>
      match ip, part ip with
      | _ :: _, Some v => Ret (of_ratio (sign * v) 1)
      | _, _ => err
      end
  | [ip; fp] =>
      let k := Z.of_nat (length (List.filter py_isdigit fp)) in
      if bool_decide (ip ++ fp = []) then err
      else match part ip, part fp with
           | Some a, Some b => Ret (of_ratio (sign * (a * 10 ^ k + b)) (10 ^ k))
           | _, _ => err
           end
  | _ => err
  end.

(** The sign, then zeros up to the width [w], then [body]. *)
Definition zero_pad (w : nat) (neg : bool) (body : pystr) : pystr :=
  let sign := if neg then [45] else [] in
  sign ++ replicate (w - (length sign + length body)) 48 ++ body.

(** The digits of [n >= 0] with at least [p + 1] of them, and a point
    before the last [p]. *)
Definition fixed_body (p : nat) (n : Z) : pystr :=
  let ds := str_int n in
  let ds := replicate (S p - length ds) 48 ++ ds in
  if Nat.eqb p 0 then ds
  else take (length ds - p) ds ++ [46] ++ drop (length ds - p) ds.

(** [format(x, "0w.pf")]. *)
Definition format_fixed (w p : nat) (x : float) : pystr :=
  zero_pad w (mant x <? 0) (fixed_body p (Z.abs (round_div (num x * 10 ^ Z.of_nat p) (den x)))).

(** [format(n, "0wd")]. *)
Definition format_int (w : nat) (n : Z) : pystr := zero_pad w (n <? 0) (str_int (Z.abs n)).

(** ** Rounding *)

Lemma round_div_error n d : 0 < d -> 2 * Z.abs (round_div n d * d - n) <= d.
Proof.
  intros Hd. unfold round_div.
  pose proof (Z.div_mod n d ltac:(lia)) as Hn. pose proof (Z.mod_pos_bound n d Hd).
  remember (n / d) as q. remember (n mod d) as r. rewrite Hn.
  destruct (Z.ltb_spec (2 * r) d); [lia|].
  destruct (Z.ltb_spec d (2 * r)); [lia|]. destruct (Z.even q); lia.
Qed.

Lemma pow2_pos e : 0 < 2 ^ Z.max 0 e.
Proof. apply Z.pow_pos_nonneg; lia. Qed.

(** The first exponent leaves more than 51 bits in the quotient. *)
Lemma of_ratio_e0 n d : 0 < d -> 0 < n ->
  2 ^ 51 * scaled_den d (Z.log2 n - Z.log2 d - 52) < scaled_num n (Z.log2 n - Z.log2 d - 52).
Proof.
  intros Hd Hn. unfold scaled_num, scaled_den. set (e0 := Z.log2 n - Z.log2 d - 52).
  destruct (Z.log2_spec n Hn) as [Hn1 _]. destruct (Z.log2_spec d Hd) as [_ Hd2].
  pose proof (Z.log2_nonneg n). pose proof (Z.log2_nonneg d).
  pose proof (pow2_pos e0). pose proof (pow2_pos (- e0)).
  assert (E : 2 ^ Z.log2 n * 2 ^ Z.max 0 (- e0) = 2 ^ Z.succ (Z.log2 d) * 2 ^ 51 * 2 ^ Z.max 0 e0).
  { rewrite <- !Z.pow_add_r by lia. f_equal. lia. }
  nia.
Qed.

(** The chosen exponent leaves at least 52 bits in the quotient. *)
Lemma of_ratio_spec n d : 0 < d -> 0 < n ->
  exists e, of_ratio n d = mkfloat (round_div (scaled_num n e) (scaled_den d e)) e /\
            2 ^ 52 * scaled_den d e <= scaled_num n e.
Proof.
  intros Hd Hn. unfold of_ratio. rewrite (proj2 (Z.eqb_neq n 0)) by lia.
  rewrite Z.abs_eq, Z.sgn_pos, Z.mul_1_l by lia.
  pose proof (of_ratio_e0 n d Hd Hn) as H0. set (e0 := Z.log2 n - Z.log2 d - 52) in *.
  destruct (Z.ltb_spec (scaled_num n e0 / scaled_den d e0) (2 ^ 52)) as [Hq|Hq];
    eexists; (split; [reflexivity|]); unfold scaled_num, scaled_den in *.
  - destruct (Z.le_gt_cases 1 e0).
    + rewrite !Z.max_r, Z.max_l in * by lia.
      replace (2 ^ e0) with (2 * 2 ^ (e0 - 1)) in H0 by (rewrite <- Z.pow_succ_r by lia; f_equal; lia).
      lia.
    + rewrite Z.max_l, Z.max_r in * by lia.
      replace (2 ^ (- (e0 - 1))) with (2 * 2 ^ (- e0)) by (rewrite <- Z.pow_succ_r by lia; f_equal; lia).
      lia.
  - pose proof (pow2_pos e0). pose proof (Z.mul_div_le (n * 2 ^ Z.max 0 (- e0)) (d * 2 ^ Z.max 0 e0)).
    nia.
Qed.

(** The relative error of [of_ratio] is at most [2 ^ -53]. *)
Lemma of_ratio_error n d : 0 < d -> 0 < n ->
  2 ^ 53 * Z.abs (num (of_ratio n d) * d - n * den (of_ratio n d)) <= n * den (of_ratio n d).
Proof.
  intros Hd Hn. destruct (of_ratio_spec n d Hd Hn) as (e & -> & Hb). unfold num, den. simpl.
  pose proof (round_div_error (scaled_num n e) (scaled_den d e)) as Hr.
  unfold scaled_num, scaled_den in *. pose proof (pow2_pos e). pose proof (pow2_pos (- e)).
  replace (round_div _ _ * 2 ^ Z.max 0 e * d - n * 2 ^ Z.max 0 (- e))
    with (round_div (n * 2 ^ Z.max 0 (- e)) (d * 2 ^ Z.max 0 e) * (d * 2 ^ Z.max 0 e)
          - n * 2 ^ Z.max 0 (- e)) by ring.
  specialize (Hr ltac:(nia)). lia.
Qed.

Lemma of_ratio_mant_pos n d : 0 < d -> 0 < n -> 0 < mant (of_ratio n d).
Proof.
  intros Hd Hn. destruct (of_ratio_spec n d Hd Hn) as (e & -> & Hb). simpl.
  pose proof (round_div_error (scaled_num n e) (scaled_den d e)) as Hr.
  unfold scaled_den in *. pose proof (pow2_pos e). specialize (Hr ltac:(nia)). nia.
Qed.

Lemma den_pos x : 0 < den x.
Proof. apply pow2_pos. Qed.

(** [round_div n d] is [q] when [n / d] is less than half away from [q]. *)
Lemma round_div_near n d q : 0 < d -> 2 * Z.abs (n - q * d) < d -> round_div n d = q.
Proof. intros Hd Hq. pose proof (round_div_error n d Hd). nia. Qed.

(** ** Times in seconds

    A time of [st] milliseconds, [0 <= st < 2 ^ 52], whose seconds within
    the minute exceed 59.95: [st / 1000] is within half a unit of [den x]
    of the exact value, [x // 60] is the exact minute, and [x % 60] is
    above 59.9505. *)
Lemma truediv_1000_minute st :
  0 <= st < 2 ^ 52 -> 59950 < st mod 60000 ->
  let x := truediv st 1000 in
  floor_div x 60 = st / 60000 /\
  119901 * den x <= 2000 * (num x - 60 * (st / 60000) * den x) /\
  (num x - 60 * (st / 60000) * den x) * 1000 < 60000 * den x.
Proof.
  intros Hst Hm x. pose proof (Z.mod_pos_bound st 60000 ltac:(lia)).
  pose proof (Z.div_mod st 60000 ltac:(lia)) as Hsd.
  assert (Hpos : 0 < st) by lia.
  pose proof (of_ratio_error st 1000 ltac:(lia) Hpos) as He.
  unfold x, truediv in *. simpl in *. set (y := of_ratio st 1000) in *.
  pose proof (den_pos y). remember (st / 60000) as k. remember (st mod 60000) as m.
  assert (Hk : 0 <= k) by (subst k; apply Z.div_pos; lia).
  assert (Hb : 2 * Z.abs (num y * 1000 - st * den y) < den y) by nia.
  assert (Hr : 119901 * den y <= 2000 * (num y - 60 * k * den y) /\
               (num y - 60 * k * den y) * 1000 < 60000 * den y) by nia.
  split; [|done]. unfold floor_div. symmetry.
  apply (Z.div_unique_pos _ _ _ (num y - 60 * k * den y)); nia.
Qed.

(** A float within [2 ^ -53] of a fraction [r / d] in [(59.9505, 60)]
    prints as ["60.0"] with [:04.1f]. *)
Lemma format_sixty r d : 0 < d ->
  119901 * d <= 2000 * r -> r * 1000 < 60000 * d ->
  format_fixed 4 1 (of_ratio r d) = lit "60.0".
Proof.
  intros Hd Hlo Hhi. assert (Hr : 0 < r) by lia.
  pose proof (of_ratio_error r d Hd Hr) as He. pose proof (of_ratio_mant_pos r d Hd Hr) as Hm.
  set (s := of_ratio r d) in *. pose proof (den_pos s).
  unfold format_fixed. rewrite (proj2 (Z.ltb_ge _ _)) by lia.
  rewrite (round_div_near _ _ 600); [reflexivity | done |].
  simpl. nia.
Qed.

(** ** Rational bounds

    The value of a float as a rational, and the rounding error of
    [of_ratio] as two linear bounds, so that [lra] can combine them. *)

Definition qval (x : float) : Q := Qmake (num x) (Z.to_pos (den x)).

Lemma le_qval x y : le x y = true <-> (qval x <= qval y)%Q.
Proof.
  unfold le, qval, Qle. simpl. rewrite !Z2Pos.id by apply den_pos. apply Z.leb_le.
Qed.

Lemma of_ratio_qbounds n d : 0 < d -> 0 <= n ->
  (9007199254740991 * (n # Z.to_pos d) <= 9007199254740992 * qval (of_ratio n d))%Q /\
  (9007199254740992 * qval (of_ratio n d) <= 9007199254740993 * (n # Z.to_pos d))%Q.
Proof.
  intros Hd Hn. destruct (Z.eq_dec n 0) as [->|Hn0].
  { unfold of_ratio, qval, Qle, num. simpl. lia. }
  pose proof (of_ratio_error n d Hd ltac:(lia)) as He.
  pose proof (den_pos (of_ratio n d)). set (x := of_ratio n d) in *.
  unfold qval, Qle, Qmult. simpl. rewrite !Pos2Z.inj_mul, !Z2Pos.id by lia.
  change (2 ^ 53) with 9007199254740992 in He. split; nia.
Qed.

Lemma truediv_1000_qbounds st : 0 <= st ->
  (9007199254740991 * (st # 1000) <= 9007199254740992 * qval (truediv st 1000))%Q /\
  (9007199254740992 * qval (truediv st 1000) <= 9007199254740993 * (st # 1000))%Q.
Proof. intros Hst. apply (of_ratio_qbounds st 1000); lia. Qed.

Lemma add_int_1_qbounds y : 0 <= num y ->
  (9007199254740991 * (qval y + 1) <= 9007199254740992 * qval (add_int y 1))%Q /\
  (9007199254740992 * qval (add_int y 1) <= 9007199254740993 * (qval y + 1))%Q.
Proof.
  intros Hy. pose proof (den_pos y).
  assert (E : ((num y + 1 * den y) # Z.to_pos (den y) == qval y + 1)%Q).
  { unfold qval, Qeq, Qplus. simpl. rewrite !Pos2Z.inj_mul, !Z2Pos.id by lia. ring. }
  rewrite <- E. apply of_ratio_qbounds; lia.
Qed.

Lemma truediv_num_nonneg st : 0 <= st -> 0 <= num (truediv st 1000).
Proof.
  intros Hst. unfold truediv. simpl. destruct (Z.eq_dec st 0) as [->|].
  - done.
  - unfold num. pose proof (of_ratio_mant_pos st 1000 ltac:(lia) ltac:(lia)). pose proof (pow2_pos (expo (of_ratio st 1000))). nia.
Qed.

(** [st / 1000 <= en / 1000 + 1] on floats, for times [st] and [en] in
    milliseconds below [2 ^ 40] (35 years): true when [st <= en + 999]
    and false when [st >= en + 1001], as on the integers; at
    [st = en + 1000] it depends on the rounding of [en / 1000]. *)
Lemma gap_test_spec st en : 0 <= st <= 2 ^ 40 -> 0 <= en <= 2 ^ 40 ->
  (st <= en + 999 -> le (truediv st 1000) (add_int (truediv en 1000) 1) = true) /\
  (en + 1001 <= st -> le (truediv st 1000) (add_int (truediv en 1000) 1) = false).
Proof.
  intros Hs He.
  destruct (truediv_1000_qbounds st ltac:(lia)) as [X1 X2].
  destruct (truediv_1000_qbounds en ltac:(lia)) as [Y1 Y2].
  destruct (add_int_1_qbounds (truediv en 1000) (truediv_num_nonneg en ltac:(lia))) as [Z1 Z2].
  set (x := qval (truediv st 1000)) in *. set (y := qval (truediv en 1000)) in *.
  set (y' := qval (add_int (truediv en 1000) 1)) in *.
  assert (Hq : forall a b c : Z, a <= b + c -> (a # 1000 <= (b # 1000) + (c # 1000))%Q).
  { intros a b c H. unfold Qle, Qplus. simpl. nia. }
  assert (Hq' : forall a b c : Z, b + c <= a -> ((b # 1000) + (c # 1000) <= a # 1000)%Q).
  { intros a b c H. unfold Qle, Qplus. simpl. nia. }
  assert (Hb : forall a : Z, 0 <= a <= 2 ^ 40 -> (0 <= a # 1000 <= 1099511628)%Q).
  { intros a H. unfold Qle. simpl. lia. }
  destruct (Hb st Hs), (Hb en He). set (s := st # 1000) in *. set (e := en # 1000) in *.
  split; intros Hc.
  - apply Hq in Hc. fold s e in Hc. apply le_qval. fold x y'. lra.
  - apply Hq' in Hc. fold s e in Hc. apply not_true_iff_false. rewrite le_qval. fold x y'. lra.
Qed.

(** ** Printing and parsing back *)

Lemma digits_fold_app acc xs c : digits_fold acc (xs ++ [c]) = digits_fold acc xs * 10 + (c - 48).
Proof. unfold digits_fold. by rewrite fold_left_app. Qed.

Lemma digits_fold_zeros k xs : digits_fold 0 (replicate k 48 ++ xs) = digits_fold 0 xs.
Proof. induction k as [|k IH]; [done|]. unfold digits_fold in *. simpl. exact IH. Qed.

Definition all_digits (ds : pystr) : Prop := Forall (fun c => py_isdigit c = true) ds.

Lemma digit_char d : 0 <= d < 10 -> all_digits [48 + d].
Proof.
  intros Hd. apply List.Forall_cons; [|apply List.Forall_nil].
  unfold py_isdigit. apply andb_true_iff. split; apply Z.leb_le; lia.
Qed.

Lemma dec_digits_S f n :
  dec_digits (S f) n = if n <? 10 then [48 + n] else dec_digits f (n / 10) ++ [48 + n mod 10].
Proof. reflexivity. Qed.

Lemma dec_digits_spec f n : 0 <= n < 10 ^ Z.of_nat (S f) ->
  dec_digits (S f) n <> [] /\ all_digits (dec_digits (S f) n) /\ digits_fold 0 (dec_digits (S f) n) = n.
Proof.
  revert n. induction f as [|f IH]; intros n Hn; rewrite dec_digits_S.
  - rewrite (proj2 (Z.ltb_lt n 10)) by (simpl in Hn; lia).
    split_and!; [done | apply digit_char; simpl in Hn; lia | simpl; lia].
  - destruct (Z.ltb_spec n 10) as [Hl|Hl].
    + split_and!; [done | apply digit_char; lia | simpl; lia].
    + destruct (IH (n / 10)) as (Hne & Hd & Hv).
      { split; [apply Z.div_pos; lia|]. apply Z.div_lt_upper_bound; [lia|].
        rewrite Nat2Z.inj_succ, Z.pow_succ_r in Hn by lia. lia. }
      pose proof (Z.mod_pos_bound n 10 ltac:(lia)).
      split_and!.
      * intros Hc. by apply app_eq_nil in Hc as [_ ?].
      * apply Forall_app. split; [done|]. apply digit_char. lia.
      * rewrite digits_fold_app, Hv. pose proof (Z.div_mod n 10). lia.
Qed.

Lemma str_int_spec n : 0 <= n -> str_int n <> [] /\ all_digits (str_int n) /\ digits_fold 0 (str_int n) = n.
Proof.
  intros Hn. unfold str_int. rewrite (proj2 (Z.ltb_ge n 0)) by lia. apply dec_digits_spec.
  split; [done|]. rewrite Nat2Z.inj_succ, Z2Nat.id by apply Z.log2_nonneg.
  destruct (Z.eq_dec n 0) as [->|Hn0]; [simpl; lia|].
  destruct (Z.log2_spec n ltac:(lia)) as [_ H2].
  eapply Z.lt_le_trans; [exact H2|]. apply Z.pow_le_mono_l. lia.
Qed.

Lemma all_digits_num_char ds : all_digits ds -> Forall (fun c => num_char c = true) ds.
Proof. intros H. eapply Forall_impl; [exact H|]. intros c Hc. unfold num_char. by rewrite Hc. Qed.

Lemma num_chars_nospace s : Forall (fun c => num_char c = true) s -> Forall (fun c => py_isspace c = false) s.
Proof. intros H. eapply Forall_impl; [exact H|]. intros c. apply num_char_not_space. Qed.

Lemma digits_value_head ds : ds <> [] -> all_digits ds ->
  match ds with c :: _ => if py_isdigit c then digits_value 0 false ds else None | [] => Some 0 end
  = Some (digits_fold 0 ds).
Proof.
  intros Hne Hd. destruct ds as [|c r]; [done|]. inversion Hd; subst.
  rewrite H1. by apply digits_value_digits.
Qed.

(** [int(str(n)) = n]. *)
Lemma py_int_of_str_int n : 0 <= n -> py_int_of_str (str_int n) = Ret n.
Proof.
  intros Hn. destruct (str_int_spec n Hn) as (Hne & Hd & Hv).
  unfold py_int_of_str. rewrite py_strip_nospace by (by apply num_chars_nospace, all_digits_num_char).
  destruct (str_int n) as [|c r] eqn:E; [done|]. inversion Hd as [|? ? Hc Hr].
  rewrite py_sign_digit by done. cbn iota. rewrite Hc, digits_value_digits, Hv by done. f_equal. lia.
Qed.

Lemma digit_range c : py_isdigit c = true -> 48 <= c <= 57.
Proof. unfold py_isdigit. intros H. apply andb_true_iff in H as [H1 H2]. zbool. lia. Qed.

Lemma all_digits_not ds k : (k < 48 \/ 57 < k) -> all_digits ds -> Forall (fun c => c <> k) ds.
Proof. intros Hk H. eapply Forall_impl; [exact H|]. intros c Hc%digit_range. lia. Qed.

(** A string [0w.1f] of a non-negative value: digits, a point, one
    digit. *)
Definition fixed1 (a : pystr) (d : Z) (N : Z) : Prop :=
  a <> [] /\ all_digits a /\ all_digits [d] /\ digits_fold 0 (a ++ [d]) = N.

Lemma zero_pad_fixed_body_1 w N : 0 <= N ->
  exists a d, zero_pad w false (fixed_body 1 N) = a ++ 46 :: [d] /\ fixed1 a d N.
Proof.
  intros HN. destruct (str_int_spec N HN) as (Hne & Hd & Hv).
  set (ds := replicate (S 1 - length (str_int N)) 48 ++ str_int N).
  assert (Hds : all_digits ds) by (apply Forall_app; split; [apply Forall_replicate; reflexivity | done]).
  assert (Hlen : (2 <= length ds)%nat).
  { unfold ds. rewrite length_app, length_replicate. destruct (str_int N); [done|]. simpl. lia. }
  assert (Hval : digits_fold 0 ds = N) by (unfold ds; by rewrite digits_fold_zeros).
  destruct (drop (length ds - 1) ds) as [|d [|d' r]] eqn:Edrop.
  { apply (f_equal length) in Edrop. rewrite length_drop in Edrop. simpl in Edrop. lia. }
  2: { apply (f_equal length) in Edrop. rewrite length_drop in Edrop. simpl in Edrop. lia. }
  exists (replicate (w - (0 + length (fixed_body 1 N))) 48 ++ take (length ds - 1) ds), d.
  assert (Hsplit : take (length ds - 1) ds ++ [d] = ds) by (rewrite <- Edrop; apply take_drop).
  split.
  - unfold zero_pad, fixed_body. fold ds. simpl. rewrite Edrop, <- app_assoc. done.
  - assert (Hdd : all_digits (take (length ds - 1) ds ++ [d])) by (by rewrite Hsplit).
    apply Forall_app in Hdd as [Ht Hd1]. split_and!.
    + intros Hc. apply app_eq_nil in Hc as [_ Hc]. apply (f_equal length) in Hc.
      rewrite length_take in Hc. simpl in Hc. lia.
    + apply Forall_app. split; [apply Forall_replicate; reflexivity | done].
    + done.
    + by rewrite <- app_assoc, digits_fold_zeros, Hsplit.
Qed.

(** [float(s)] of such a string is the float nearest to [N / 10]. *)
Lemma py_float_fixed1 a d N : fixed1 a d N -> py_float (a ++ 46 :: [d]) = Ret (of_ratio N 10).
Proof.
  intros (Hne & Ha & Hd & Hv).
  assert (Hs : py_strip (a ++ 46 :: [d]) = a ++ 46 :: [d]).
  { apply py_strip_nospace, num_chars_nospace, Forall_app.
    split; [by apply all_digits_num_char|]. constructor; [done | by apply all_digits_num_char]. }
  assert (Hg : py_sign (a ++ 46 :: [d]) = (1, a ++ 46 :: [d])).
  { destruct a as [|c a']; [done|]. inversion Ha as [|? ? Hc _]. by apply py_sign_digit. }
  assert (Hp : py_split 46 (a ++ 46 :: [d]) = [a; [d]]).
  { rewrite py_split_app by (apply all_digits_not; [lia | done]).
    rewrite py_split_nosep by (apply all_digits_not; [lia | done]). done. }
  unfold py_float. rewrite Hs, Hg. cbn iota beta zeta. rewrite Hp. cbn iota beta zeta.
  rewrite bool_decide_false by (intros Hc; apply app_eq_nil in Hc as [_ Hc]; discriminate).
  rewrite (digits_value_head a), (digits_value_head [d]) by done.
  inversion Hd as [|? ? Hd1 _]. simpl. rewrite Hd1. simpl.
  rewrite digits_fold_app in Hv. f_equal. rewrite <- Hv. f_equal; simpl; lia.
Qed.

(** Formatting the float nearest to [N / 10] with one decimal prints
    [N] back. *)
Lemma format_fixed_of_ratio_10 w N : 0 <= N < 2 ^ 52 ->
  format_fixed w 1 (of_ratio N 10) = zero_pad w false (fixed_body 1 N).
Proof.
  intros HN. destruct (Z.eq_dec N 0) as [->|HN0]; [reflexivity|].
  pose proof (of_ratio_error N 10 ltac:(lia) ltac:(lia)) as He.
  pose proof (of_ratio_mant_pos N 10 ltac:(lia) ltac:(lia)) as Hm.
  pose proof (den_pos (of_ratio N 10)).
  unfold format_fixed. rewrite (proj2 (Z.ltb_ge _ _)) by lia.
  rewrite (round_div_near _ _ N); [by rewrite Z.abs_eq by lia | done |].
  change (2 ^ 53) with (2 * 2 ^ 52) in He. simpl. nia.
Qed.

(** [x % 60] of a non-negative float prints as [0w.1f] of some [N] below
    [2 ^ 52]. *)
Lemma fmod_60_fixed w x : 0 <= num x ->
  exists N, 0 <= N < 2 ^ 52 /\ format_fixed w 1 (fmod_int x 60) = zero_pad w false (fixed_body 1 N).
Proof.
  intros Hx. pose proof (den_pos x). unfold fmod_int, floor_div.
  pose proof (Z.div_mod (num x) (60 * den x) ltac:(lia)).
  pose proof (Z.mod_pos_bound (num x) (60 * den x) ltac:(lia)).
  set (r := num x - 60 * (num x / (60 * den x)) * den x).
  assert (Hr : 0 <= r < 60 * den x) by (unfold r; lia).
  destruct (Z.eq_dec r 0) as [E|Hr0].
  { rewrite E. exists 0. split; [lia | reflexivity]. }
  pose proof (of_ratio_error r (den x) ltac:(lia) ltac:(lia)) as He.
  pose proof (of_ratio_mant_pos r (den x) ltac:(lia) ltac:(lia)) as Hm.
  set (v := of_ratio r (den x)) in *. pose proof (den_pos v).
  pose proof (round_div_error (num v * 10 ^ Z.of_nat 1) (den v) ltac:(lia)) as Hrd.
  exists (Z.abs (round_div (num v * 10 ^ Z.of_nat 1) (den v))). split.
  - assert (num v < 61 * den v).
    { assert (num v * den x - r * den v <= Z.abs (num v * den x - r * den v)) by lia.
      assert (2 ^ 53 * num v * den x < 61 * 2 ^ 53 * den v * den x) by nia. nia. }
    change (10 ^ Z.of_nat 1) with 10 in *. set (q := round_div (num v * 10) (den v)) in *.
    assert (Hq : q * den v < 612 * den v) by lia.
    assert (0 <= num v) by (unfold num; pose proof (pow2_pos (Z.max 0 (expo v))); nia).
    assert (Hq' : -1 * den v < q * den v) by lia.
    apply Z.mul_lt_mono_pos_r in Hq, Hq'; lia.
  - unfold format_fixed. by rewrite (proj2 (Z.ltb_ge _ _)) by lia.
Qed.

Lemma floor_div_nonneg x k : 0 < k -> 0 <= num x -> 0 <= floor_div x k.
Proof. intros Hk Hx. pose proof (den_pos x). apply Z.div_pos; lia. Qed.

End PyFloat.
