(* ===== verification/Merger.v ===== *)
(** * ResultMerger: [process_recognition_result]

    src/websocket/funasr_api_server.py lines 53-107 (the same function is
    copied at funasr_unified_server.py lines 530-584).  The HTTP endpoint
    [/api/recognize] passes it the result of the file model; it walks the
    [sentence_info] list once and folds consecutive sentences of the same
    speaker whose start is at most one second after the running end into
    one speaker turn.

    Times are kept in milliseconds, as the model returns them: the source's
    test [start / 1000 <= last_end / 1000 + 1] is computed on floats
    ([within_one_second], with [PyFloat]): it is the test
    [start <= last_end + 1000] on milliseconds except at a gap of exactly
    one second, where the rounding of [last_end / 1000] decides.  A turn keeps its speaker
    id; the label [说话人<id>] is [speaker_label].  The dict returned for a
    turn is [to_dict]: its times are the floats [ms / 1000] and its
    [time_range] string formats them with [PyFloat].

    [Module ResultMerger] holds the code; [merge_ref] is a reference definition by
    runs of sentences, and [merge_sentences_ref] proves the fold computes
    it.  The theorems then show what the fold guarantees (text preserved,
    adjacent turns separable, close sentences of one speaker joined into
    one turn, order preserved) and what it does not (two adjacent turns
    of one speaker, overlapping turns: the merger splits at every
    speaker change and long pause). *)

From Stdlib Require Import ZArith Lia String DecimalString.
From stdpp Require Import base list sorting.
From S2P Require Import Prelude PyFloat.

Open Scope Z_scope.

Module ResultMerger.

(** One entry of [sentence_info]: a dict whose keys may be missing. *)
Record sentence := {
  s_start : option Z;   (** ['start'], milliseconds *)
  s_end : option Z;     (** ['end'], milliseconds *)
  s_spk : option Z;     (** ['spk'] *)
  s_text : option pystr (** ['text'] *)
}.

(** [sentence.get(key, default)] for the four keys. *)
Definition start_of (s : sentence) : Z := default 0 (s_start s).
Definition end_of (s : sentence) : Z := default 0 (s_end s).
Definition spk_of (s : sentence) : Z := default 0 (s_spk s).
Definition text_of (s : sentence) : pystr := default [] (s_text s).

(** One element of the model result [res]: a dict that may lack
    ['sentence_info']. *)
Record rec_result := { sentence_info : option (list sentence) }.

(** A merged speaker turn ([speaker], [start_time], [end_time], [text]). *)
Record turn := {
  speaker : Z;
  start_time : Z;
  end_time : Z;
  text : pystr
}.

(** [f'说话人{last_spk}'] *)
Definition speaker_label (spk : Z) : pystr :=
  [35828; 35805; 20154] ++ lit (NilZero.string_of_int (Z.to_int spk)).

(** The loop variables [last_spk], [last_end_time], [merged_text],
    [merged_start_time], [results]. *)
Record acc := {
  last_spk : option Z;
  last_end_time : Z;
  merged_text : pystr;
  merged_start_time : Z;
  results : list turn
}.

Definition acc0 : acc :=
  {| last_spk := None; last_end_time := 0; merged_text := [];
     merged_start_time := 0; results := [] |}.

(** [if last_spk is not None: results.append({...})] *)
Definition flush (a : acc) : list turn :=
  match last_spk a with
  | Some spk =>
      results a ++ [{| speaker := spk; start_time := merged_start_time a;
                       end_time := last_end_time a; text := merged_text a |}]
  | None => results a
  end.

(** [start_sec <= last_end_time + 1] (line 77): [start_sec] is the float
    [start / 1000], [last_end_time] the float [end / 1000] of the running
    turn, and the sum is a float too. *)
Definition within_one_second (st en : Z) : bool :=
  PyFloat.le (PyFloat.truediv st 1000) (PyFloat.add_int (PyFloat.truediv en 1000) 1).

(** [spk == last_spk and start_sec <= last_end_time + 1] *)
Definition continues (a : acc) (spk st : Z) : bool :=
  match last_spk a with
  | Some l => (spk =? l) && within_one_second st (last_end_time a)
  | None => false
  end.

(** The body of the [for sentence in result_dict['sentence_info']] loop. *)
Definition merge_step (a : acc) (s : sentence) : acc :=
  let st := start_of s in
  let en := end_of s in
  let spk := spk_of s in
  let t := text_of s in
  if continues a spk st then
    {| last_spk := last_spk a; last_end_time := en;
       merged_text := merged_text a ++ t;
       merged_start_time := merged_start_time a; results := results a |}
  else
    {| last_spk := Some spk; last_end_time := en; merged_text := t;
       merged_start_time := st; results := flush a |}.

(** The loop and the final flush. *)
Definition merge_sentences (l : list sentence) : list turn :=
  flush (fold_left merge_step l acc0).

(** [process_recognition_result(res)]: the two early returns, then the
    merge of [res[0]['sentence_info']]. *)
Definition process_recognition_result (res : list rec_result) : list turn :=
  match res with
  | [] => []
  | r :: _ =>
      match sentence_info r with
      | None => []
      | Some l => merge_sentences l
      end
  end.

(** ** The dicts returned *)

(** [f"{int(t // 60)}:{t % 60:04.1f}"] for the time [t = ms / 1000] in
    seconds, the float the loop keeps. *)
Definition clock (ms : Z) : pystr :=
  let t := PyFloat.truediv ms 1000 in
  PyFloat.str_int (PyFloat.floor_div t 60) ++ [58] ++ PyFloat.format_fixed 4 1 (PyFloat.fmod_int t 60).

(** The ['time_range'] of a turn (lines 88 and 104). *)
Definition time_range (t : turn) : pystr := clock (start_time t) ++ [45] ++ clock (end_time t).

(** The dict appended to [results] (lines 83-89 and 99-105): the times are
    the floats [start / 1000] and [end / 1000]. *)
Record turn_dict := {
  d_speaker : pystr;
  d_start_time : PyFloat.float;
  d_end_time : PyFloat.float;
  d_text : pystr;
  d_time_range : pystr
}.

Definition to_dict (t : turn) : turn_dict :=
  {| d_speaker := speaker_label (speaker t); d_start_time := PyFloat.truediv (start_time t) 1000;
     d_end_time := PyFloat.truediv (end_time t) 1000; d_text := text t; d_time_range := time_range t |}.

(** ** Reference definition: maximal runs *)

(** A sentence opens a turn of its own. *)
Definition open_turn (s : sentence) : turn :=
  {| speaker := spk_of s; start_time := start_of s; end_time := end_of s;
     text := text_of s |}.

(** A sentence continues turn [t]: same speaker, gap at most one second. *)
Definition joins (t : turn) (s : sentence) : bool :=
  (spk_of s =? speaker t) && within_one_second (start_of s) (end_time t).

Definition extend (t : turn) (s : sentence) : turn :=
  {| speaker := speaker t; start_time := start_time t; end_time := end_of s;
     text := text t ++ text_of s |}.

(** The turns of [l] when the turn [t] is open. *)
Fixpoint runs (t : turn) (l : list sentence) : list turn :=
  match l with
  | [] => [t]
  | s :: l' => if joins t s then runs (extend t s) l' else t :: runs (open_turn s) l'
  end.

Definition merge_ref (l : list sentence) : list turn :=
  match l with
  | [] => []
  | s :: l' => runs (open_turn s) l'
  end.

(** Two consecutive turns the merger could not have joined. *)
Definition separated (t1 t2 : turn) : Prop :=
  speaker t2 <> speaker t1 \/ within_one_second (start_time t2) (end_time t1) = false.

(** ** The fold computes the reference *)

(** The turn open in an accumulator. *)
Definition current (a : acc) : option turn :=
  match last_spk a with
  | Some spk => Some {| speaker := spk; start_time := merged_start_time a;
                        end_time := last_end_time a; text := merged_text a |}
  | None => None
  end.

Lemma fold_runs l : forall a t, current a = Some t ->
  flush (fold_left merge_step l a) = results a ++ runs t l.
Proof.
  induction l as [|s l IH]; intros a t Ha; simpl.
  - unfold flush, current in *. destruct (last_spk a); congruence.
  - unfold current in Ha. destruct (last_spk a) as [spk|] eqn:Hl; [|done]. invc Ha.
    unfold merge_step, continues, joins. rewrite Hl. simpl.
    destruct (_ && _) eqn:Hj.
    + erewrite IH; [reflexivity|]. done.
    + erewrite IH; [|reflexivity]. unfold flush. rewrite Hl.
      simpl. by rewrite <- app_assoc.
Qed.

(** Refinement: the accumulator loop of the source computes [merge_ref]. *)
Lemma merge_sentences_ref l : merge_sentences l = merge_ref l.
Proof.
  destruct l as [|s l]; [done|]. unfold merge_sentences. simpl.
  by rewrite (fold_runs l _ (open_turn s)).
Qed.

Lemma runs_head t l : exists t' rest, runs t l = t' :: rest /\
  speaker t' = speaker t /\ start_time t' = start_time t.
Proof.
  revert t. induction l as [|s l IH]; intros t; simpl; [by eauto|].
  destruct (joins t s); [|by eauto].
  destruct (IH (extend t s)) as (t' & rest & -> & ? & ?). by eauto.
Qed.

Lemma joins_false_separated t s :
  joins t s = false -> separated t (open_turn s).
Proof.
  unfold joins, separated. simpl. intros H.
  apply andb_false_iff in H as [H|H]; [left; zbool; lia | by right].
Qed.

Lemma runs_separated t l : Sorted separated (runs t l).
Proof.
  revert t. induction l as [|s l IH]; intros t; simpl; [by repeat constructor|].
  destruct (joins t s) eqn:Hj; [apply IH|].
  constructor; [apply IH|].
  destruct (runs_head (open_turn s) l) as (t' & rest & -> & Hs & Ht).
  constructor. apply joins_false_separated in Hj.
  unfold separated in *. rewrite Hs, Ht. exact Hj.
Qed.

Lemma runs_text t l :
  concat (map text (runs t l)) = text t ++ concat (map text_of l).
Proof.
  revert t. induction l as [|s l IH]; intros t; cbn [runs map concat]; [done|].
  destruct (joins t s); cbn [map concat]; rewrite IH; simpl; by rewrite <-?app_assoc.
Qed.

Lemma runs_length t l : (1 <= length (runs t l) <= S (length l))%nat.
Proof.
  revert t. induction l as [|s l IH]; intros t; simpl; [lia|].
  destruct (joins t s); simpl; [specialize (IH (extend t s)) | specialize (IH (open_turn s))]; lia.
Qed.

Lemma runs_starts_sorted t l :
  Sorted Z.le (start_time t :: map start_of l) -> Sorted Z.le (map start_time (runs t l)).
Proof.
  revert t. induction l as [|s l IH]; intros t Hs; cbn [runs]; [by repeat constructor|].
  rewrite map_cons in Hs. apply Sorted_inv in Hs as [Hs Hh]. apply HdRel_inv in Hh.
  destruct (joins t s).
  - apply IH. apply Sorted_inv in Hs as [Hs Hh2]. constructor; [done|].
    destruct l as [|s' l]; constructor. rewrite map_cons in Hh2.
    apply HdRel_inv in Hh2. simpl. lia.
  - rewrite map_cons. constructor; [by apply IH|].
    destruct (runs_head (open_turn s) l) as (t' & rest & -> & _ & Ht).
    constructor. simpl in Ht. lia.
Qed.

(** A time in milliseconds the float test handles like the integers
    (below [2 ^ 40] ms, 35 years). *)
Definition time_ok (ms : Z) : Prop := 0 <= ms <= 2 ^ 40.

Definition sentence_ok (s : sentence) : Prop := time_ok (start_of s) /\ time_ok (end_of s).
Definition turn_ok (t : turn) : Prop := time_ok (start_time t) /\ time_ok (end_time t).

(** Two consecutive sentences the merger joins: the same speaker, and
    the second starts at most 999 ms after the first ends. *)
Definition close_to (s1 s2 : sentence) : Prop :=
  spk_of s2 = spk_of s1 /\ start_of s2 <= end_of s1 + 999.

Lemma last_cons_default {A} (x d : A) l : List.last (x :: l) d = List.last l x.
Proof.
  revert x d. induction l as [|y l IH]; intros x d; [done|].
  transitivity (List.last (y :: l) d); [done|]. by rewrite !IH.
Qed.

(** A chain of close sentences extends the open turn to the end of the
    last one. *)
Lemma runs_close t s0 l :
  speaker t = spk_of s0 -> end_time t = end_of s0 -> sentence_ok s0 -> Forall sentence_ok l ->
  Sorted close_to (s0 :: l) ->
  runs t l = [{| speaker := speaker t; start_time := start_time t; end_time := end_of (List.last l s0);
                 text := text t ++ concat (map text_of l) |}].
Proof.
  revert t s0. induction l as [|s l IH]; intros t s0 Hsp Hen Hs0 Hl Hc.
  - destruct t; simpl in *. by rewrite app_nil_r, Hen.
  - apply Sorted_inv in Hc as [Hc Hh]. apply HdRel_inv in Hh as [Hspk Hgap].
    inversion Hl as [|? ? Hs Hl']; subst.
    assert (Hj : joins t s = true).
    { unfold joins, within_one_second. rewrite Hspk, Hsp, Z.eqb_refl, Hen. simpl.
      destruct Hs0, Hs. apply (PyFloat.gap_test_spec (start_of s) (end_of s0)); done. }
    cbn [runs]. rewrite Hj, (IH (extend t s) s); [| simpl; congruence | done..].
    cbn [extend speaker start_time text map concat]. by rewrite last_cons_default, app_assoc.
Qed.

(** The turn open before [s2] ends with [s1]: when [s2] is of another
    speaker or starts 1001 ms or more after [s1] ends, it opens a turn. *)
Lemma joins_split t s1 s2 :
  sentence_ok s1 -> sentence_ok s2 -> (spk_of s2 <> spk_of s1 \/ end_of s1 + 1001 <= start_of s2) ->
  speaker t = spk_of s1 -> end_time t = end_of s1 -> joins t s2 = false.
Proof.
  intros [Hs1 He1] [Hs2 He2] Hd Hsp Hen. unfold joins, within_one_second. rewrite Hsp, Hen.
  destruct Hd as [Hd|Hd]; [by rewrite (proj2 (Z.eqb_neq _ _) Hd)|].
  rewrite (proj2 (PyFloat.gap_test_spec (start_of s2) (end_of s1) Hs2 He1) Hd). apply andb_false_r.
Qed.

Lemma runs_split t l s1 s2 r :
  (forall t', speaker t' = spk_of s1 -> end_time t' = end_of s1 -> joins t' s2 = false) ->
  runs t (l ++ s1 :: s2 :: r) = runs t (l ++ [s1]) ++ runs (open_turn s2) r.
Proof.
  intros H. revert t. induction l as [|s l IH]; intros t; simpl.
  - destruct (joins t s1) eqn:J; simpl.
    + rewrite H; [done | | done]. unfold joins in J. apply andb_true_iff in J as [J _]. simpl. lia.
    + by rewrite H.
  - destruct (joins t s); [apply IH | simpl; f_equal; apply IH].
Qed.

Lemma runs_ok t l : turn_ok t -> Forall sentence_ok l -> Forall turn_ok (runs t l).
Proof.
  revert t. induction l as [|s l IH]; intros t Ht Hl; simpl; [by constructor|].
  inversion Hl as [|? ? [Hs He] Hl']; subst.
  destruct (joins t s); [apply IH; [split; [apply Ht | done] | done]|].
  constructor; [done|]. by apply IH.
Qed.

(** A gap the float test rejects is of at least one second. *)
Lemma separated_ms t1 t2 : turn_ok t1 -> turn_ok t2 -> separated t1 t2 ->
  speaker t2 <> speaker t1 \/ end_time t1 + 1000 <= start_time t2.
Proof.
  intros [_ H1] [H2 _] [Hs|Hg]; [by left|right].
  destruct (Z_le_gt_dec (start_time t2) (end_time t1 + 999)) as [Hle|]; [|lia].
  unfold within_one_second in Hg. rewrite (proj1 (PyFloat.gap_test_spec _ _ H2 H1) Hle) in Hg. discriminate.
Qed.

Lemma Sorted_Forall_impl {A} (P : A -> Prop) (R R' : A -> A -> Prop) l :
  Forall P l -> Sorted R l -> (forall x y, P x -> P y -> R x y -> R' x y) -> Sorted R' l.
Proof.
  intros HP HS HR. induction HS as [|x l HS IH Hh]; constructor.
  - apply IH. by inversion HP.
  - inversion HP as [|? ? Px Pl]; subst. destruct Hh as [|y l' Hxy]; constructor.
    apply HR; [done | by inversion Pl | done].
Qed.

(** ** Properties *)

(** The sentences the merger folds. *)
Definition sentences_of (res : list rec_result) : list sentence :=
  match res with
  | r :: _ => default [] (sentence_info r)
  | [] => []
  end.

Lemma process_merge_sentences res :
  process_recognition_result res = merge_sentences (sentences_of res).
Proof. destruct res as [|r ?]; [done|]. simpl. by destruct (sentence_info r). Qed.

Lemma merge_ref_separated l : Sorted separated (merge_ref l).
Proof. destruct l; [constructor | apply runs_separated]. Qed.

(** A sentence with all four keys. *)
Definition sent (st en spk : Z) (t : string) : sentence :=
  {| s_start := Some st; s_end := Some en; s_spk := Some spk; s_text := Some (lit t) |}.

Definition mk_turn (spk st en : Z) (t : string) : turn :=
  {| speaker := spk; start_time := st; end_time := en; text := lit t |}.

(** C1: refinement.  [process_recognition_result] returns no turn when the
    model result is empty or has no ['sentence_info'], and otherwise the
    maximal runs of its sentences computed by [merge_ref]. *)
Theorem process_recognition_result_refines res :
  process_recognition_result res = merge_ref (sentences_of res).
Proof. by rewrite process_merge_sentences, merge_sentences_ref. Qed.

(** Scenario A of the specification.  Sentences (0-1000 ms, speaker 0,
    "hi"), (1000-1800 ms, speaker 0, "there"), (3000-4000 ms, speaker 1,
    "hey") give the turns (speaker 0, 0-1800 ms, "hithere") and
    (speaker 1, 3000-4000 ms, "hey"). *)
Example process_recognition_result_scenario_A :
  process_recognition_result
    [{| sentence_info := Some [sent 0 1000 0 "hi"; sent 1000 1800 0 "there";
                              sent 3000 4000 1 "hey"] |}]
  = [mk_turn 0 0 1800 "hithere"; mk_turn 1 3000 4000 "hey"].
Proof. reflexivity. Qed.

(** C3: no text is lost or reordered: the texts of the turns, concatenated,
    are the texts of the sentences, concatenated. *)
Theorem process_recognition_result_text res :
  concat (map text (process_recognition_result res))
  = concat (map text_of (sentences_of res)).
Proof.
  rewrite process_recognition_result_refines.
  destruct (sentences_of res) as [|s l]; [done|]. apply runs_text.
Qed.

(** C4: every two consecutive turns are separated: they have different
    speakers, or the second starts at least one second after the first
    ends, for times below [2 ^ 40] ms.  The test is on floats, so a gap of
    exactly one second may separate two turns of one speaker
    ([merge_sentences_boundary]). *)
Theorem process_recognition_result_separated res :
  Forall sentence_ok (sentences_of res) ->
  Sorted (fun t1 t2 => speaker t2 <> speaker t1 \/ end_time t1 + 1000 <= start_time t2)
         (process_recognition_result res).
Proof.
  intros Hok. rewrite process_recognition_result_refines.
  destruct (sentences_of res) as [|s l]; [constructor|]. inversion Hok; subst.
  apply (Sorted_Forall_impl turn_ok separated); [by apply runs_ok | apply runs_separated |].
  apply separated_ms.
Qed.

(** C5: the merger joins what it should: sentences of one speaker, each
    starting at most 999 ms after the previous one ends (times between 0
    and 2^40 ms), give exactly one turn, from the start of the first to
    the end of the last, with all their texts.  The float test of line
    77 holds for every such gap. *)
Theorem merge_sentences_one_turn s l :
  Forall sentence_ok (s :: l) -> Sorted close_to (s :: l) ->
  merge_sentences (s :: l) =
    [{| speaker := spk_of s; start_time := start_of s; end_time := end_of (List.last l s);
        text := concat (map text_of (s :: l)) |}].
Proof.
  intros Hok Hc. inversion Hok as [|? ? Hs Hl]; subst.
  rewrite merge_sentences_ref. simpl. by rewrite (runs_close (open_turn s) s l).
Qed.

(** When the sentences come in non-decreasing start order, so do the
    turns. *)
Theorem merge_sentences_start_sorted l :
  Sorted Z.le (map start_of l) -> Sorted Z.le (map start_time (merge_sentences l)).
Proof.
  rewrite merge_sentences_ref. destruct l as [|s l]; [constructor|].
  intros Hs. by apply runs_starts_sorted.
Qed.

Lemma merge_sentences_start_sorted_witness :
  Sorted Z.le (map start_time (merge_sentences
    [sent 0 1000 0 "a"; sent 500 900 1 "b"; sent 2000 2500 1 "c"])).
Proof.
  apply merge_sentences_start_sorted. simpl.
  repeat apply Sorted_cons; repeat constructor; unfold start_of; simpl; lia.
Defined.

(** A non-empty list of sentences gives at least one and at most as
    many turns as sentences. *)
Theorem merge_sentences_length l :
  l <> [] -> (1 <= length (merge_sentences l) <= length l)%nat.
Proof.
  rewrite merge_sentences_ref. destruct l as [|s l]; [done|]. intros _.
  apply runs_length.
Qed.

Lemma merge_sentences_length_witness :
  (1 <= length (merge_sentences [sent 0 1000 0 "a"]) <= 1)%nat.
Proof. apply (merge_sentences_length [sent 0 1000 0 "a"]). discriminate. Defined.

(** C8: the merger splits at every change of speaker and at every pause
    of 1001 ms or more (times between 0 and 2^40 ms): the turns of the
    sentences are those of the part up to the split followed by those of
    the rest.  So the merged turns are not separated as spec.md describes
    them: two consecutive turns can have the same speaker (a pause of
    more than one second; spec.md section 8 says no two adjacent turns
    share a speaker), and a turn can start before the previous one ends
    (another speaker, at any time; spec.md section 3 says each turn
    starts at or after the end of the previous one). *)
Theorem merge_sentences_split l1 s1 s2 l2 :
  sentence_ok s1 -> sentence_ok s2 -> (spk_of s2 <> spk_of s1 \/ end_of s1 + 1001 <= start_of s2) ->
  merge_sentences (l1 ++ s1 :: s2 :: l2) = merge_sentences (l1 ++ [s1]) ++ merge_sentences (s2 :: l2).
Proof.
  intros H1 H2 Hd. rewrite !merge_sentences_ref.
  destruct l1 as [|s l1]; simpl.
  - by rewrite (joins_split (open_turn s1) s1 s2).
  - apply runs_split. intros t'. by apply joins_split.
Qed.

(** A pause of 2 s between two sentences of speaker 0: two turns of
    the same speaker. *)
Lemma merge_sentences_split_witness :
  merge_sentences ([] ++ sent 0 1000 0 "a" :: sent 3000 4000 0 "b" :: [])
  = merge_sentences ([] ++ [sent 0 1000 0 "a"]) ++ merge_sentences (sent 3000 4000 0 "b" :: []).
Proof.
  apply merge_sentences_split;
    [split; unfold time_ok, start_of, end_of, sent; simpl; lia
    |split; unfold time_ok, start_of, end_of, sent; simpl; lia
    |right; unfold start_of, end_of, sent; simpl; lia].
Defined.

(** Three sentences of speaker 0 with gaps of 999 ms and 0 ms: one
    turn. *)
Lemma merge_sentences_one_turn_witness :
  merge_sentences (sent 0 1000 0 "a" :: [sent 1999 2500 0 "b"; sent 2500 3000 0 "c"]) =
    [{| speaker := spk_of (sent 0 1000 0 "a"); start_time := start_of (sent 0 1000 0 "a");
        end_time := end_of (List.last [sent 1999 2500 0 "b"; sent 2500 3000 0 "c"] (sent 0 1000 0 "a"));
        text := concat (map text_of (sent 0 1000 0 "a" :: [sent 1999 2500 0 "b"; sent 2500 3000 0 "c"])) |}].
Proof.
  apply merge_sentences_one_turn.
  - do 3 (apply List.Forall_cons; [split; unfold time_ok, start_of, end_of, sent; simpl; lia|]).
    apply List.Forall_nil.
  - repeat apply Sorted_cons; repeat constructor; unfold spk_of, start_of, end_of, sent; simpl; lia.
Defined.

(** At a gap of exactly one second the float test decides by the
    rounding of the end: a sentence 1000 ms after an end at 100 ms joins
    the turn ([1.1 <= 0.1 + 1]), one 1000 ms after an end at 118 ms does
    not ([1.118 <= 0.118 + 1] is false in floats). *)
Example merge_sentences_boundary :
  merge_sentences [sent 0 100 0 "a"; sent 1100 2000 0 "b"] = [mk_turn 0 0 2000 "ab"] /\
  merge_sentences [sent 0 118 0 "a"; sent 1118 2000 0 "b"]
  = [mk_turn 0 0 118 "a"; mk_turn 0 1118 2000 "b"].
Proof. split_and!; vm_compute; reflexivity. Qed.

(** The turns of scenario A are separated. *)
Lemma process_recognition_result_separated_witness :
  Sorted (fun t1 t2 => speaker t2 <> speaker t1 \/ end_time t1 + 1000 <= start_time t2)
    (process_recognition_result
       [{| sentence_info := Some [sent 0 1000 0 "hi"; sent 1000 1800 0 "there";
                                 sent 3000 4000 1 "hey"] |}]).
Proof.
  apply process_recognition_result_separated. simpl.
  do 3 (apply List.Forall_cons; [split; unfold time_ok, start_of, end_of, sent; simpl; lia|]).
  apply List.Forall_nil.
Defined.

(** C6: the ['time_range'] of a turn can show sixty seconds.  When the
    turn starts in the last 50 ms of a minute, [t % 60] is above 59.95
    and [:04.1f] rounds it up to "60.0", next to the minute it belongs
    to: a start at 119.99 s is shown "1:60.0", not "2:00.0".  The float
    division and [t // 60] are exact enough that the minute shown is
    [ms / 60000]. *)
Theorem time_range_sixty_seconds t :
  0 <= start_time t < 2 ^ 52 -> 59950 < start_time t mod 60000 ->
  time_range t = PyFloat.str_int (start_time t / 60000) ++ lit ":60.0-" ++ clock (end_time t).
Proof.
  intros Hb Hm. pose proof (PyFloat.truediv_1000_minute _ Hb Hm) as H. cbv zeta in H.
  destruct H as (Hf & Hlo & Hhi).
  unfold time_range, clock, PyFloat.fmod_int. rewrite Hf, PyFloat.format_sixty by auto using PyFloat.den_pos.
  by rewrite <- !app_assoc.
Qed.

Lemma time_range_sixty_seconds_witness :
  time_range (mk_turn 0 119990 121000 "a") = PyFloat.str_int 1 ++ lit ":60.0-" ++ clock 121000.
Proof. apply (time_range_sixty_seconds (mk_turn 0 119990 121000 "a")); simpl; [lia | reflexivity]. Defined.

(** What the API returns for it. *)
Example time_range_sixty_seconds_example :
  time_range (mk_turn 0 119990 121000 "a") = lit "1:60.0-2:01.0".
Proof. vm_compute. reflexivity. Qed.

End ResultMerger.
