(* ===== verification/HttpUpload.v ===== *)
(** * HttpUploadApi: the [/api/recognize] endpoint

    [recognize_audio] of src/websocket/funasr_api_server.py (lines
    109-161) and, identical but for one error text, of
    src/websocket/funasr_unified_server.py (lines 587-639): the upload is
    saved to a [NamedTemporaryFile(delete=False)], the file model
    recognises it, [process_recognition_result] merges the result, and a
    [finally] clause unlinks the file.

    The temporary files on disk are a [gset] of paths; the name the
    runtime picks is the section variable [fresh], which the theorems
    assume is not yet on disk.  Reading the upload and writing it to the
    file is one step that may raise ([read_upload]).  The file model
    reads the file the handler just wrote, so it is modelled as a
    function of the uploaded bytes.  [api_health_check] is the API
    server's [/api/health]; the unified server's [/api/health] and
    [/api/status] read the connection registry and are in Server.v. *)

From Stdlib Require Import ZArith Lia String.
From stdpp Require Import base list gmap sets.
From S2P Require Import Prelude Merger.

Local Open Scope Z_scope.

Module HttpUpload.
Import ResultMerger.

(** The form fields of the request: the upload's file name, [batch_size_s]
    and [hotword]. *)
Record request := {
  filename : pystr;
  batch_size_s : Z;
  hotword : pystr
}.

(** [{'success': True, 'data': ..., 'total_segments': ...}] or an
    [HTTPException(status_code, detail)]. *)
Inductive response :=
| Success (data : list turn) (total_segments : nat)
| HttpError (status_code : Z) (detail : pystr).

(** [model.generate(input=path, batch_size_s=..., hotword=...)]. *)
Definition file_model := bytes -> Z -> option pystr -> raises (list rec_result).

(** ["模型未初始化"] (API server) and ["文件识别模型未初始化"] (unified). *)
Definition api_not_initialised : pystr := [27169; 22411; 26410; 21021; 22987; 21270].
Definition unified_not_initialised : pystr :=
  [25991; 20214; 35782; 21035; 27169; 22411; 26410; 21021; 22987; 21270].

(** ["未选择文件"] *)
Definition no_file_selected : pystr := [26410; 36873; 25321; 25991; 20214].

(** [f"识别失败: {str(e)}"], also sent by the unified websocket handler. *)
Definition recognition_failed_text (e : pystr) : pystr :=
  [35782; 21035; 22833; 36133; 58; 32] ++ e.

(** [/api/health] of the API server (lines 163-169). *)
Record api_health := { ah_status : pystr; ah_model_loaded : bool }.

Definition api_health_check (model : option file_model) : api_health :=
  {| ah_status := lit "ok"; ah_model_loaded := bool_decide (is_Some model) |}.

Section Endpoint.

(** The path [tempfile] picks for the files on disk. *)
Variable fresh : gset pystr -> pystr.

(** Lines 116-161 (API) and 594-639 (unified).  [model] is [None] before
    [init_model]; [read_upload] is [await audio.read()] followed by the
    write, which may raise.  Returns the response and the files on disk. *)
Definition recognize_audio (not_initialised : pystr) (model : option file_model)
    (req : request) (read_upload : raises bytes) (disk : gset pystr) : response * gset pystr :=
  match model with
  | None => (HttpError 500 not_initialised, disk)
  | Some generate =>
      if bool_decide (filename req = []) then (HttpError 400 no_file_selected, disk)
      else
        let temp_file_path := fresh disk in
        let disk1 := {[temp_file_path]} ∪ disk in
        match read_upload with
        | Exc e => (HttpError 500 (recognition_failed_text e), disk1)
        | Ret content =>
            let hot := if bool_decide (hotword req = []) then None else Some (hotword req) in
            let disk2 := disk1 ∖ {[temp_file_path]} in
            match generate content (batch_size_s req) hot with
            | Exc e => (HttpError 500 (recognition_failed_text e), disk2)
            | Ret res =>
                let processed_results := process_recognition_result res in
                (Success processed_results (length processed_results), disk2)
            end
        end
  end.

(** The endpoint of the unified server (lines 587-639): the same handler,
    with its own text for a model not yet loaded. *)
Definition unified_recognize_audio (model : option file_model) (req : request)
    (read_upload : raises bytes) (disk : gset pystr) : response * gset pystr :=
  recognize_audio unified_not_initialised model req read_upload disk.

(** Removing a file just created restores the disk. *)
Lemma create_unlink (p : pystr) (disk : gset pystr) : p ∉ disk -> ({[p]} ∪ disk) ∖ {[p]} = disk.
Proof.
  intros Hp. apply set_eq. intros x.
  rewrite elem_of_difference, elem_of_union, !elem_of_singleton.
  split; [intros [[->|Hx] Hne]; done | intros Hx; split; [by right | intros ->; done]].
Qed.

(** C25: once the upload has been read and written, every exit path of
    the handler (recognised, or the model raised) unlinks the temporary
    file: the disk is left as it was. *)
Theorem recognize_audio_cleanup not_initialised model req content disk :
  fresh disk ∉ disk ->
  snd (recognize_audio not_initialised model req (Ret content) disk) = disk.
Proof.
  intros Hf. destruct model as [generate|]; simpl; [|done].
  case_bool_decide; simpl; [done|].
  destruct (generate _ _ _); simpl; by apply create_unlink.
Qed.

(** C7: when reading or writing the upload raises, the handler answers
    500 but the [NamedTemporaryFile(delete=False)] it created is never
    unlinked: the [finally] clause only guards the recognition (lines
    130-154), so the file stays on disk. *)
Theorem recognize_audio_leaks_on_read_error not_initialised generate req e disk :
  filename req <> [] -> fresh disk ∉ disk ->
  recognize_audio not_initialised (Some generate) req (Exc e) disk
  = (HttpError 500 (recognition_failed_text e), {[fresh disk]} ∪ disk)
  /\ fresh disk ∈ snd (recognize_audio not_initialised (Some generate) req (Exc e) disk).
Proof.
  intros Hn Hf. simpl. rewrite bool_decide_false by done. simpl. split; [done | set_solver].
Qed.

End Endpoint.

(** A disk with no file and a runtime that names its file "/tmp/a.wav". *)
Definition tmp_a : pystr := lit "/tmp/a.wav".

Definition upload_request : request :=
  {| filename := lit "a.wav"; batch_size_s := 300; hotword := [] |}.

Lemma recognize_audio_cleanup_witness :
  snd (recognize_audio (fun _ => tmp_a) api_not_initialised
         (Some (fun _ _ _ => Ret [])) upload_request (Ret [Byte.x00]) ∅) = ∅.
Proof. apply recognize_audio_cleanup. set_solver. Defined.

Lemma recognize_audio_leaks_on_read_error_witness :
  recognize_audio (fun _ => tmp_a) api_not_initialised (Some (fun _ _ _ => Ret [])) upload_request
    (Exc (lit "disk full")) ∅
  = (HttpError 500 (recognition_failed_text (lit "disk full")), {[tmp_a]} ∪ ∅)
  /\ tmp_a ∈ snd (recognize_audio (fun _ => tmp_a) api_not_initialised
                  (Some (fun _ _ _ => Ret [])) upload_request (Exc (lit "disk full")) ∅).
Proof.
  apply (recognize_audio_leaks_on_read_error (fun _ => tmp_a)); [discriminate | set_solver].
Defined.

End HttpUpload.
