(* ===== verification/Emitter.v ===== *)
(** * IncrementalTextEmitter: the [sent_text_length] cursor

    src/websocket/funasr_wss_server.py lines 662-686, inside
    [async_asr_online]: the online model returns the whole text recognised
    so far ([full_text]); the handler sends only [full_text[sent:]] and
    moves the cursor [websocket.sent_text_length] to [len(full_text)], and
    it sends nothing when the text is not longer than the cursor.  The
    cursor is reset to 0 only when the client says it starts speaking
    (lines 321-326, modelled in [Session]).

    [emit_online_text] is one call; [emit_texts] threads the cursor
    through a sequence of online results, as successive calls of one
    session do.  The theorems: the deltas sent for a growing text add up to
    the text, no delta is empty, the cursor is the longest length seen, and
    what happens after the text shrinks (the cursor is not clamped, so
    characters are lost: a divergence from spec.md section 4.4). *)

From Stdlib Require Import ZArith Lia.
From Stdlib Require Import String.
From stdpp Require Import base list sorting.
From S2P Require Import Prelude.

Module IncrementalTextEmitter.

(** Lines 662-673: [if len(full_text)] ... [if len(full_text) >
    websocket.sent_text_length: new_text = full_text[sent:]; sent =
    len(full_text)].  The result is the text sent, if any, and the new
    cursor. *)
Definition emit_online_text (sent_text_length : nat) (full_text : pystr)
  : option pystr * nat :=
  if bool_decide (full_text = []) then (None, sent_text_length)
  else if Nat.ltb sent_text_length (length full_text)
  then (Some (drop sent_text_length full_text), length full_text)
  else (None, sent_text_length).

(** Successive online results of one session: the texts sent and the
    final cursor. *)
Fixpoint emit_texts (sent : nat) (texts : list pystr) : list pystr * nat :=
  match texts with
  | [] => ([], sent)
  | t :: ts =>
      let '(o, sent') := emit_online_text sent t in
      let '(out, final) := emit_texts sent' ts in
      (option_list o ++ out, final)
  end.

(** ** Lemmas *)

Lemma emit_online_text_cases n t :
  (n < length t /\ emit_online_text n t = (Some (drop n t), length t))
  \/ (length t <= n /\ emit_online_text n t = (None, n)).
Proof.
  unfold emit_online_text. case_bool_decide as Ht.
  - subst. right. simpl. split; [lia | done].
  - destruct (Nat.ltb_spec n (length t)); [left | right]; split; done || lia.
Qed.

(** The cursor after a call is the larger of the old cursor and the
    length of the text. *)
Lemma emit_online_text_cursor n t : snd (emit_online_text n t) = Nat.max n (length t).
Proof. destruct (emit_online_text_cases n t) as [[? ->]|[? ->]]; simpl; lia. Qed.

Lemma emit_online_text_nonempty n t d : fst (emit_online_text n t) = Some d -> d <> [].
Proof.
  destruct (emit_online_text_cases n t) as [[? ->]|[? ->]]; simpl; [|done].
  intros [= <-] Hd. apply (f_equal length) in Hd. rewrite length_drop in Hd. simpl in Hd. lia.
Qed.

(** One call on an extension [t] of the text [p] whose length is the
    cursor sends exactly the new part. *)
Lemma emit_online_text_prefix p t :
  p `prefix_of` t ->
  concat (option_list (fst (emit_online_text (length p) t))) = drop (length p) t
  /\ snd (emit_online_text (length p) t) = length t.
Proof.
  intros [k ->]. rewrite drop_app_length.
  destruct (emit_online_text_cases (length p) (p ++ k)) as [[_ ->]|[Hl ->]]; simpl.
  - by rewrite drop_app_length, app_nil_r.
  - rewrite length_app in Hl. destruct k; simpl in *; [rewrite app_nil_r | lia]. done.
Qed.

Lemma drop_prefix_app (p t q : pystr) :
  p `prefix_of` t -> t `prefix_of` q -> drop (length p) t ++ drop (length t) q = drop (length p) q.
Proof.
  intros [k ->] [k' ->]. by rewrite !drop_app_length, <- app_assoc, drop_app_length.
Qed.

Lemma emit_texts_prefix_chain ts p q :
  Sorted (@prefix _) (p :: ts ++ [q]) ->
  concat (fst (emit_texts (length p) (ts ++ [q]))) = drop (length p) q.
Proof.
  revert p. induction ts as [|t ts IH]; intros p Hs; simpl.
  - apply Sorted_inv in Hs as [_ Hh]. apply HdRel_inv in Hh.
    destruct (emit_online_text_prefix p q Hh) as [Ho _].
    destruct (emit_online_text (length p) q) as [o n]. simpl in *. by rewrite app_nil_r.
  - pose proof Hs as Hss. apply Sorted_inv in Hs as [Hs Hh]. apply HdRel_inv in Hh.
    destruct (emit_online_text_prefix p t Hh) as [Ho Hc].
    destruct (emit_online_text (length p) t) as [o n] eqn:E. simpl in Ho, Hc. subst n.
    specialize (IH t Hs).
    destruct (emit_texts (length t) (ts ++ [q])) as [out final]. simpl in *.
    rewrite concat_app, Ho, IH. apply drop_prefix_app; [done|].
    apply Sorted_StronglySorted in Hs; [|intros ???; by etrans].
    apply StronglySorted_inv in Hs as [_ Hf]. rewrite Forall_forall in Hf.
    apply Hf. apply list_elem_of_In, in_or_app. right. by left.
Qed.

(** ** Properties *)

(** C10: for online results that only grow (each a prefix of the next),
    the texts sent from a fresh cursor, concatenated, are the last result:
    every character is sent, once, in order. *)
Theorem emit_texts_growing ts q :
  Sorted (@prefix _) (ts ++ [q]) -> concat (fst (emit_texts 0 (ts ++ [q]))) = q.
Proof.
  intros Hs. apply (emit_texts_prefix_chain ts [] q).
  constructor; [done|]. destruct ts; constructor; apply prefix_nil.
Qed.

(** 你, 好, 呀 *)
Definition ni : Z := 20320.
Definition hao : Z := 22909.
Definition ya : Z := 21568.

Lemma emit_texts_growing_witness :
  concat (fst (emit_texts 0 ([[ni]; [ni; hao]] ++ [[ni; hao; ya]]))) = [ni; hao; ya].
Proof.
  apply emit_texts_growing. simpl.
  apply Sorted_cons; [apply Sorted_cons; [apply Sorted_cons|]|]; try constructor.
  - by exists [ya].
  - by exists [hao].
Defined.

(** Scenario B of the specification: the online results "你", "你好",
    "你好呀" send "你", "好", "呀" and leave the cursor at 3. *)
Example emit_texts_scenario_B :
  emit_texts 0 [[ni]; [ni; hao]; [ni; hao; ya]] = ([[ni]; [hao]; [ya]], 3%nat).
Proof. reflexivity. Qed.

(** No empty text is ever sent as new online text. *)
Theorem emit_texts_nonempty n ts : Forall (fun d => d <> []) (fst (emit_texts n ts)).
Proof.
  revert n. induction ts as [|t ts IH]; intros n; simpl; [constructor|].
  pose proof (emit_online_text_nonempty n t) as Hne.
  destruct (emit_online_text n t) as [o n'] eqn:E.
  destruct (emit_texts n' ts) as [out final] eqn:Et. simpl.
  apply Forall_app. split.
  - destruct o as [d|]; simpl; [|constructor]. constructor; [by apply Hne | constructor].
  - specialize (IH n'). by rewrite Et in IH.
Qed.

(** The cursor after a sequence of online results is the largest of
    the initial cursor and the lengths of the results: it never moves
    back. *)
Theorem emit_texts_cursor ts n :
  snd (emit_texts n ts) = foldl Nat.max n (map length ts).
Proof.
  revert n. induction ts as [|t ts IH]; intros n; simpl; [done|].
  pose proof (emit_online_text_cursor n t) as Hc.
  destruct (emit_online_text n t) as [o n'] eqn:E. simpl in Hc. subst n'.
  destruct (emit_texts _ ts) eqn:Et. simpl. by rewrite <- IH, Et.
Qed.

(** C14: the cursor is never clamped.  Once [n] characters have been
    sent, a new series of results that only grows up to [q] (after the
    online cache was reset, so the first of them may be shorter than [n])
    sends exactly [q] from position [n] on, and leaves the cursor at the
    length of [q]: the first [n] characters of [q] are never sent, even
    where they differ from what was sent before.  spec.md section 4.4 asks
    for the cursor to be clamped to the new length. *)
Theorem emit_texts_shrink_loses_text n ts q :
  Sorted (@prefix _) (ts ++ [q]) -> (n <= length q)%nat ->
  concat (fst (emit_texts n (ts ++ [q]))) = drop n q /\ snd (emit_texts n (ts ++ [q])) = length q.
Proof.
  revert n. induction ts as [|t ts IH]; intros n Hs Hn; simpl.
  - destruct (emit_online_text_cases n q) as [[_ ->]|[Hl ->]]; simpl.
    + by rewrite app_nil_r.
    + rewrite drop_ge by lia. split; [done | lia].
  - pose proof Hs as Hss. apply Sorted_inv in Hs as [Hs Hh].
    apply Sorted_StronglySorted in Hss; [|intros ???; by etrans].
    apply StronglySorted_inv in Hss as [_ Hf]. rewrite Forall_forall in Hf.
    assert (Htq : t `prefix_of` q) by (apply Hf, list_elem_of_In, in_or_app; right; by left).
    destruct (emit_online_text_cases n t) as [[Hl ->]|[Hl ->]].
    + destruct (IH (length t) Hs (prefix_length _ _ Htq)) as [Hc Hs'].
      destruct (emit_texts (length t) _) as [out final]. simpl in *.
      split; [|done]. rewrite Hc. destruct Htq as [k ->].
      by rewrite drop_app_length, drop_app_le by lia.
    + destruct (IH n Hs Hn) as [Hc Hs']. destruct (emit_texts n _) as [out final]. by simpl in *.
Qed.

(** After "abc" the results "x", "xy", "xyzw" send only "w": "xyz" is
    lost. *)
Lemma emit_texts_shrink_loses_text_witness :
  concat (fst (emit_texts 3 ([lit "x"%string; lit "xy"%string] ++ [lit "xyzw"%string])))
    = lit "w"%string /\
  snd (emit_texts 3 ([lit "x"%string; lit "xy"%string] ++ [lit "xyzw"%string])) = 4%nat.
Proof.
  apply emit_texts_shrink_loses_text; [|simpl; lia].
  apply Sorted_cons; [apply Sorted_cons; [apply Sorted_cons|]|]; try constructor.
  - by exists (lit "zw"%string).
  - by exists (lit "y"%string).
Defined.

End IncrementalTextEmitter.
