(* ===== verification/AudioBuffer.v ===== *)
(** * AudioBuffer: the two buffer classes and their contract

    - [WssAudioBuffer]: class [AudioBuffer] of funasr_wss_server.py, lines
      180-229.  [add_chunk] appends and, when the buffer is over
      [max_buffer_size], drops the processed prefix; [mark_processed] adds
      to [processed_size] without any bound.  [is_likely_active] (never
      called) decodes the buffer as numpy [int16] samples, with the
      wrap-around of [np.abs] written out ([abs16]).
    - [UnifiedAudioBuffer]: class [AudioBuffer] of funasr_unified_server.py,
      lines 247-277.  [add_chunk] drops the oldest bytes to stay within
      [max_buffer_size] and adds their number to [processed_size];
      [mark_processed] clamps to the buffer length.

    Both are instances of the class [AudioBufferOps] (the methods the
    session handlers call) and of [AudioBufferLaws], the laws a client can
    rely on whatever the implementation.  [StreamSpec] is the lossless
    contract "the unprocessed data are the bytes received since the last
    [clear], minus the processed ones"; [wss_abs] relates a wss buffer to
    it, and the wss buffer refines it as long as a client never marks more
    than it has read.  The unified buffer does not refine it (its eviction
    is lossy by design), and its [processed_size] update on eviction goes
    the wrong way. *)

From Stdlib Require Import ZArith Lia String.
From stdpp Require Import base list.
From S2P Require Import Prelude.

Local Open Scope Z_scope.
Local Open Scope py_scope.

(** ** The methods a session handler calls *)

Class AudioBufferOps (B : Type) := {
  add_chunk : B -> bytes -> B;
  get_unprocessed_data : B -> bytes;
  mark_processed : B -> nat -> B;
  clear : B -> B;
  get_buffer_size : B -> nat
}.

(** [len(audio_buffer.buffer)] and the unprocessed data are tied as both
    implementations tie them. *)
Class AudioBufferLaws (B : Type) `{AudioBufferOps B} := {
  unprocessed_size b : (length (get_unprocessed_data b) <= get_buffer_size b)%nat;
  clear_empty b : get_unprocessed_data (clear b) = [] /\ get_buffer_size (clear b) = 0%nat;
  mark_processed_drop b n :
    get_unprocessed_data (mark_processed b n) = drop n (get_unprocessed_data b)
}.

Module WssAudioBuffer.

Record t := {
  buffer : bytes;
  max_buffer_size : Z;
  processed_size : nat
}.

(** [__init__(self, max_buffer_size_mb=50)] *)
Definition init (max_buffer_size_mb : Z) : t :=
  {| buffer := []; max_buffer_size := max_buffer_size_mb * 1024 * 1024;
     processed_size := 0 |}.

(** [self.buffer += chunk]; if [len(self.buffer) > self.max_buffer_size]:
    [self.buffer = self.buffer[self.processed_size:]; self.processed_size = 0] *)
Definition wss_add_chunk (b : t) (chunk : bytes) : t :=
  let buf := buffer b ++ chunk in
  if max_buffer_size b <? Z.of_nat (length buf)
  then {| buffer := drop (processed_size b) buf; max_buffer_size := max_buffer_size b;
          processed_size := 0 |}
  else {| buffer := buf; max_buffer_size := max_buffer_size b;
          processed_size := processed_size b |}.

(** [if not self.buffer: return b""]; [return self.buffer[self.processed_size:]] *)
Definition wss_get_unprocessed_data (b : t) : bytes :=
  match buffer b with
  | [] => []
  | buf => drop (processed_size b) buf
  end.

(** [self.processed_size += size] *)
Definition wss_mark_processed (b : t) (size : nat) : t :=
  {| buffer := buffer b; max_buffer_size := max_buffer_size b;
     processed_size := processed_size b + size |}.

(** [self.buffer = b""; self.processed_size = 0] *)
Definition wss_clear (b : t) : t :=
  {| buffer := []; max_buffer_size := max_buffer_size b; processed_size := 0 |}.

Definition wss_get_buffer_size (b : t) : nat := length (buffer b).

(** [np.frombuffer(self.buffer, dtype=np.int16)]: the little-endian
    signed 16-bit samples; a buffer of odd length raises [ValueError]. *)
Fixpoint frombuffer_int16 (bs : bytes) : raises (list Z) :=
  match bs with
  | [] => Ret []
  | [_] => Exc (lit "ValueError: buffer size must be a multiple of element size"%string)
  | lo :: hi :: rest => r <- frombuffer_int16 rest ;; Ret (int16_of_le lo hi :: r)
  end.

(** [np.abs] on an [int16] array: the absolute value wraps, so
    [abs(-32768)] is [-32768]. *)
Definition abs16 (x : Z) : Z := swrap 16 (Z.abs x).

(** [is_likely_active] (lines 217-229), which nothing calls: at least 320
    bytes, not all samples zero, and [np.mean(np.abs(audio_array)) > 100].
    [np.mean] sums in [float64], exactly for fewer than [2^37] samples,
    and [sum / n > 100] is [sum > 100 * n]. *)
Definition wss_is_likely_active (b : t) : raises bool :=
  if Nat.ltb (length (buffer b)) 320 then Ret false
  else
    audio_array <- frombuffer_int16 (buffer b) ;;
    if forallb (fun x => x =? 0) audio_array then Ret false
    else Ret (100 * Z.of_nat (length audio_array) <? foldr Z.add 0 (map abs16 audio_array)).

End WssAudioBuffer.

Module UnifiedAudioBuffer.

Record t := {
  buffer : bytes;
  max_buffer_size : Z;
  processed_size : nat
}.

Definition init (max_buffer_size_mb : Z) : t :=
  {| buffer := []; max_buffer_size := max_buffer_size_mb * 1024 * 1024;
     processed_size := 0 |}.

(** [if len(self.buffer) + len(chunk) > self.max_buffer_size:
        overflow_size = len(self.buffer) + len(chunk) - self.max_buffer_size
        self.buffer = self.buffer[overflow_size:]
        self.processed_size += overflow_size
    self.buffer.extend(chunk)] *)
Definition uni_add_chunk (b : t) (chunk : bytes) : t :=
  if max_buffer_size b <? Z.of_nat (length (buffer b) + length chunk)
  then
    let overflow_size := Z.to_nat (Z.of_nat (length (buffer b) + length chunk) - max_buffer_size b) in
    {| buffer := drop overflow_size (buffer b) ++ chunk;
       max_buffer_size := max_buffer_size b;
       processed_size := processed_size b + overflow_size |}
  else {| buffer := buffer b ++ chunk; max_buffer_size := max_buffer_size b;
          processed_size := processed_size b |}.

(** [bytes(self.buffer[self.processed_size:])] *)
Definition uni_get_unprocessed_data (b : t) : bytes := drop (processed_size b) (buffer b).

(** [self.processed_size = min(self.processed_size + size, len(self.buffer))] *)
Definition uni_mark_processed (b : t) (size : nat) : t :=
  {| buffer := buffer b; max_buffer_size := max_buffer_size b;
     processed_size := Nat.min (processed_size b + size) (length (buffer b)) |}.

Definition uni_clear (b : t) : t :=
  {| buffer := []; max_buffer_size := max_buffer_size b; processed_size := 0 |}.

Definition uni_get_buffer_size (b : t) : nat := length (buffer b).

End UnifiedAudioBuffer.

#[export] Instance wss_ops : AudioBufferOps WssAudioBuffer.t := {
  add_chunk := WssAudioBuffer.wss_add_chunk;
  get_unprocessed_data := WssAudioBuffer.wss_get_unprocessed_data;
  mark_processed := WssAudioBuffer.wss_mark_processed;
  clear := WssAudioBuffer.wss_clear;
  get_buffer_size := WssAudioBuffer.wss_get_buffer_size
}.

#[export] Instance unified_ops : AudioBufferOps UnifiedAudioBuffer.t := {
  add_chunk := UnifiedAudioBuffer.uni_add_chunk;
  get_unprocessed_data := UnifiedAudioBuffer.uni_get_unprocessed_data;
  mark_processed := UnifiedAudioBuffer.uni_mark_processed;
  clear := UnifiedAudioBuffer.uni_clear;
  get_buffer_size := UnifiedAudioBuffer.uni_get_buffer_size
}.

(** ** The lossless contract *)

Module StreamSpec.

(** The bytes received since the last [clear] and how many of them have
    been processed. *)
Record t := { received : bytes; consumed : nat }.

Inductive op := OpAdd (chunk : bytes) | OpMark (n : nat) | OpClear.

Definition step (s : t) (o : op) : t :=
  match o with
  | OpAdd c => {| received := received s ++ c; consumed := consumed s |}
  | OpMark n => {| received := received s; consumed := consumed s + n |}
  | OpClear => {| received := []; consumed := 0 |}
  end.

Definition unprocessed (s : t) : bytes := drop (consumed s) (received s).

End StreamSpec.

(** ** Lemmas *)

Lemma drop_min_length {A} (l : list A) k : drop (Nat.min k (length l)) l = drop k l.
Proof.
  destruct (Nat.le_ge_cases k (length l)).
  - by rewrite Nat.min_l.
  - rewrite Nat.min_r by done. rewrite !drop_ge; done || lia.
Qed.

#[export] Instance wss_laws : AudioBufferLaws WssAudioBuffer.t.
Proof.
  split; intros b; simpl; unfold WssAudioBuffer.wss_get_unprocessed_data, WssAudioBuffer.wss_get_buffer_size; simpl.
  - destruct (WssAudioBuffer.buffer b); simpl; [lia|]. rewrite length_drop. simpl. lia.
  - done.
  - intros n. destruct (WssAudioBuffer.buffer b) as [|x l]; [by rewrite drop_nil|]. by rewrite drop_drop.
Qed.

#[export] Instance unified_laws : AudioBufferLaws UnifiedAudioBuffer.t.
Proof.
  split; intros b; simpl; unfold UnifiedAudioBuffer.uni_get_unprocessed_data, UnifiedAudioBuffer.uni_get_buffer_size; simpl.
  - rewrite length_drop. lia.
  - done.
  - intros n. by rewrite drop_min_length, drop_drop.
Qed.

Section WssRefinement.
Import WssAudioBuffer.

(** The abstraction: the buffer holds the received bytes after a prefix
    [pre] that has been processed and dropped, and [processed_size] counts
    the processed bytes still held. *)
Definition wss_abs (b : t) (s : StreamSpec.t) : Prop :=
  (processed_size b <= length (buffer b))%nat /\
  exists pre, StreamSpec.received s = pre ++ buffer b /\
              StreamSpec.consumed s = (length pre + processed_size b)%nat.

Definition wss_op (b : t) (o : StreamSpec.op) : t :=
  match o with
  | StreamSpec.OpAdd c => wss_add_chunk b c
  | StreamSpec.OpMark n => wss_mark_processed b n
  | StreamSpec.OpClear => wss_clear b
  end.

(** A client never marks more bytes than the buffer holds unprocessed. *)
Definition op_ok (b : t) (o : StreamSpec.op) : Prop :=
  match o with
  | StreamSpec.OpMark n => (processed_size b + n <= length (buffer b))%nat
  | _ => True
  end.

Lemma wss_abs_unprocessed b s : wss_abs b s -> wss_get_unprocessed_data b = StreamSpec.unprocessed s.
Proof.
  intros [_ (pre & Hr & Hc)]. unfold StreamSpec.unprocessed. rewrite Hr, Hc.
  rewrite drop_app_add. unfold wss_get_unprocessed_data. destruct (buffer b); [by rewrite drop_nil | done].
Qed.

Lemma wss_abs_step b s o : wss_abs b s -> op_ok b o -> wss_abs (wss_op b o) (StreamSpec.step s o).
Proof.
  intros [Hp (pre & Hr & Hc)] Hok. destruct o as [c|n|]; simpl in *.
  - unfold wss_add_chunk. destruct (Z.ltb_spec (max_buffer_size b) (Z.of_nat (length (buffer b ++ c)))).
    + split; simpl; [lia|]. exists (pre ++ take (processed_size b) (buffer b)). simpl. split.
      * rewrite Hr, <- !app_assoc. f_equal.
        rewrite <- (take_app_le (buffer b) c) by lia. by rewrite take_drop.
      * rewrite Hc, length_app, length_take. lia.
    + split; simpl; [rewrite length_app; lia|]. exists pre. rewrite Hr, app_assoc. by split.
  - split; simpl; [lia|]. exists pre. split; [done|]. rewrite Hc. lia.
  - split; simpl; [lia|]. by exists [].
Qed.

End WssRefinement.

(** ** Properties *)

(** C15: refinement.  An operation on a wss buffer that refines the
    lossless contract gives a buffer that refines the contract after the
    same operation, and its unprocessed data are the contract's, provided
    the client does not mark more bytes than the buffer holds (the
    session marks each chunk right after adding it). *)
Theorem wss_buffer_refines b s o :
  wss_abs b s -> op_ok b o ->
  wss_abs (wss_op b o) (StreamSpec.step s o)
  /\ WssAudioBuffer.wss_get_unprocessed_data (wss_op b o)
     = StreamSpec.unprocessed (StreamSpec.step s o).
Proof.
  intros Ha Hok. pose proof (wss_abs_step b s o Ha Hok) as Ha'.
  split; [done | by apply wss_abs_unprocessed].
Qed.

Definition small_wss : WssAudioBuffer.t :=
  {| WssAudioBuffer.buffer := []; WssAudioBuffer.max_buffer_size := 4;
     WssAudioBuffer.processed_size := 0 |}.

Lemma wss_buffer_refines_witness :
  wss_abs (wss_op small_wss (StreamSpec.OpAdd [Byte.x01]))
          (StreamSpec.step {| StreamSpec.received := []; StreamSpec.consumed := 0 |}
                           (StreamSpec.OpAdd [Byte.x01])).
Proof.
  apply (wss_buffer_refines small_wss {| StreamSpec.received := []; StreamSpec.consumed := 0 |}).
  - split; [simpl; lia | exists []; split; reflexivity].
  - exact I.
Defined.

(** C16: while nothing is marked processed (the live streaming path of
    [ws_serve] never marks), [add_chunk] never drops anything: the wss
    buffer grows past [max_buffer_size] without bound, where spec.md
    section 3 says its length stays within the capacity. *)
Theorem wss_add_chunk_unbounded b c :
  WssAudioBuffer.processed_size b = 0%nat ->
  WssAudioBuffer.buffer (WssAudioBuffer.wss_add_chunk b c) = WssAudioBuffer.buffer b ++ c.
Proof.
  intros Hp. unfold WssAudioBuffer.wss_add_chunk. rewrite Hp.
  by destruct (_ <? _).
Qed.

Lemma wss_add_chunk_unbounded_witness :
  length (WssAudioBuffer.buffer (WssAudioBuffer.wss_add_chunk small_wss (repeat Byte.x00 8))) = 8%nat.
Proof. rewrite (wss_add_chunk_unbounded small_wss); reflexivity. Defined.

(** C17: a unified buffer keeps the last [max_buffer_size] bytes of what it
    held followed by the chunk, and so never holds more than
    [max_buffer_size] bytes, for every chunk no larger than the capacity. *)
Theorem uni_add_chunk_window b c :
  Z.of_nat (length c) <= UnifiedAudioBuffer.max_buffer_size b ->
  let b' := UnifiedAudioBuffer.uni_add_chunk b c in
  UnifiedAudioBuffer.buffer b'
  = drop (Z.to_nat (Z.of_nat (length (UnifiedAudioBuffer.buffer b) + length c)
                    - UnifiedAudioBuffer.max_buffer_size b))
         (UnifiedAudioBuffer.buffer b ++ c)
  /\ Z.of_nat (length (UnifiedAudioBuffer.buffer b')) <= UnifiedAudioBuffer.max_buffer_size b.
Proof.
  intros Hc. unfold UnifiedAudioBuffer.uni_add_chunk.
  destruct (Z.ltb_spec (UnifiedAudioBuffer.max_buffer_size b)
                       (Z.of_nat (length (UnifiedAudioBuffer.buffer b) + length c))); simpl.
  - rewrite drop_app_le by lia. split; [done|]. rewrite length_app, length_drop. lia.
  - replace (Z.to_nat _) with 0%nat by lia. rewrite length_app. split; [done | lia].
Qed.

Definition small_uni (buf : bytes) (processed : nat) : UnifiedAudioBuffer.t :=
  {| UnifiedAudioBuffer.buffer := buf; UnifiedAudioBuffer.max_buffer_size := 4;
     UnifiedAudioBuffer.processed_size := processed |}.

Lemma uni_add_chunk_window_witness :
  Z.of_nat (length (UnifiedAudioBuffer.buffer
     (UnifiedAudioBuffer.uni_add_chunk (small_uni (repeat Byte.x00 3) 0) [Byte.x01; Byte.x02]))) <= 4.
Proof. apply (uni_add_chunk_window (small_uni (repeat Byte.x00 3) 0)). simpl. lia. Defined.

(** C18: when everything held is processed and a chunk overflows the
    unified buffer, [processed_size] grows by the overflow instead of
    shrinking by it, so the first [2 * overflow] bytes of the new chunk
    are never returned as unprocessed data (the chunk is lost when the
    overflow is at least half of it).  spec.md section 3 says the
    watermark is decremented by the number of evicted bytes. *)
Theorem uni_add_chunk_loses_data b c :
  UnifiedAudioBuffer.processed_size b = length (UnifiedAudioBuffer.buffer b) ->
  UnifiedAudioBuffer.max_buffer_size b < Z.of_nat (length (UnifiedAudioBuffer.buffer b) + length c) ->
  Z.of_nat (length c) <= UnifiedAudioBuffer.max_buffer_size b ->
  UnifiedAudioBuffer.uni_get_unprocessed_data (UnifiedAudioBuffer.uni_add_chunk b c)
  = drop (2 * Z.to_nat (Z.of_nat (length (UnifiedAudioBuffer.buffer b) + length c)
                        - UnifiedAudioBuffer.max_buffer_size b)) c.
Proof.
  intros Hp Hov Hc. unfold UnifiedAudioBuffer.uni_add_chunk, UnifiedAudioBuffer.uni_get_unprocessed_data.
  destruct (Z.ltb_spec (UnifiedAudioBuffer.max_buffer_size b)
                       (Z.of_nat (length (UnifiedAudioBuffer.buffer b) + length c))); [|lia]. simpl.
  rewrite Hp, drop_app_ge by (rewrite length_drop; lia). rewrite length_drop. f_equal. lia.
Qed.

Lemma uni_add_chunk_loses_data_witness :
  UnifiedAudioBuffer.uni_get_unprocessed_data
    (UnifiedAudioBuffer.uni_add_chunk (small_uni (repeat Byte.x00 4) 4) [Byte.x01; Byte.x02]) = [].
Proof. rewrite (uni_add_chunk_loses_data (small_uni (repeat Byte.x00 4) 4)); simpl; lia || reflexivity. Defined.

(** ** [is_likely_active]: int16 decoding and the wrap of [np.abs] *)

Section LikelyActive.
Import WssAudioBuffer.

(** A buffer of [k] copies of one little-endian sample. *)
Definition const_buffer (lo hi : Byte.byte) (k : nat) : t :=
  {| buffer := concat (repeat [lo; hi] k); max_buffer_size := 50 * 1024 * 1024;
     processed_size := 0 |}.

Lemma frombuffer_int16_repeat lo hi k :
  frombuffer_int16 (concat (repeat [lo; hi] k)) = Ret (repeat (int16_of_le lo hi) k).
Proof. induction k as [|k IH]; simpl; [done | by rewrite IH]. Qed.

Lemma length_concat_repeat2 {A} (x y : A) k : length (concat (repeat [x; y] k)) = (2 * k)%nat.
Proof. induction k as [|k IH]; simpl; [done | rewrite IH; lia]. Qed.

Lemma sum_repeat (v : Z) k : foldr Z.add 0 (repeat v k) = Z.of_nat k * v.
Proof. induction k as [|k IH]; simpl; [done | rewrite IH; lia]. Qed.

(** On a constant non-zero signal of at least 320 bytes the energy test is
    [abs16 v > 100]. *)
Lemma is_likely_active_constant lo hi k :
  (160 <= k)%nat -> int16_of_le lo hi <> 0 ->
  wss_is_likely_active (const_buffer lo hi k) = Ret (100 <? abs16 (int16_of_le lo hi)).
Proof.
  intros Hk Hv. unfold wss_is_likely_active. cbn [buffer const_buffer].
  rewrite length_concat_repeat2. destruct (Nat.ltb_spec (2 * k) 320); [lia|].
  rewrite frombuffer_int16_repeat. cbn [raises_bind].
  replace (forallb _ (repeat _ k)) with false
    by (destruct k as [|k]; [lia|]; simpl; by destruct (Z.eqb_spec (int16_of_le lo hi) 0)).
  rewrite map_repeat, sum_repeat, repeat_length. f_equal.
  destruct (Z.ltb_spec 100 (abs16 (int16_of_le lo hi)));
    [apply Z.ltb_lt | apply Z.ltb_ge]; nia.
Qed.

Lemma abs16_spec x : -32768 <= x < 32768 -> abs16 x = if x =? -32768 then x else Z.abs x.
Proof.
  intros Hx. unfold abs16. destruct (Z.eqb_spec x (-32768)) as [->|Hne]; [reflexivity|].
  apply swrap_small; [lia | simpl; lia].
Qed.

Lemma frombuffer_int16_odd bs : Nat.odd (length bs) = true -> exists e, frombuffer_int16 bs = Exc e.
Proof.
  remember (length bs) as n eqn:Hn. revert bs Hn.
  induction n as [n IH] using lt_wf_ind. intros bs Hn Hodd.
  destruct bs as [|lo [|hi bs]]; simpl in *; subst n; [done | by eexists |].
  destruct (IH (length bs) ltac:(lia) bs eq_refl) as [e He].
  { unfold Nat.odd in *. simpl in Hodd. exact Hodd. }
  rewrite He. by eexists.
Qed.

End LikelyActive.

(** An odd buffer of 320 bytes or more makes [np.frombuffer] raise. *)
Lemma is_likely_active_odd b :
  (320 <= length (WssAudioBuffer.buffer b))%nat -> Nat.odd (length (WssAudioBuffer.buffer b)) = true ->
  exists e, WssAudioBuffer.wss_is_likely_active b = Exc e.
Proof.
  intros Hl Ho. unfold WssAudioBuffer.wss_is_likely_active.
  destruct (Nat.ltb_spec (length (WssAudioBuffer.buffer b)) 320); [lia|].
  destruct (frombuffer_int16_odd _ Ho) as [e ->]. by eexists.
Qed.

(** C29: the [int16] absolute value of [is_likely_active] wraps: [np.abs]
    maps every sample to its absolute value except [-32768], which stays
    [-32768].  So a buffer of full-scale negative samples, the loudest
    signal there is, is judged inactive, while full-scale positive
    samples are judged active. *)
Theorem is_likely_active_overflow k :
  (forall x, -32768 <= x < 32768 -> WssAudioBuffer.abs16 x = if x =? -32768 then x else Z.abs x) /\
  ((160 <= k)%nat ->
   WssAudioBuffer.wss_is_likely_active (const_buffer Byte.x00 Byte.x80 k) = Ret false /\
   WssAudioBuffer.wss_is_likely_active (const_buffer Byte.xff Byte.x7f k) = Ret true).
Proof.
  split; [exact abs16_spec|]. intros Hk.
  split; (rewrite is_likely_active_constant; [reflexivity | lia | vm_compute; discriminate]).
Qed.

Lemma is_likely_active_overflow_witness :
  (forall x, -32768 <= x < 32768 -> WssAudioBuffer.abs16 x = if x =? -32768 then x else Z.abs x) /\
  ((160 <= 160)%nat ->
   WssAudioBuffer.wss_is_likely_active (const_buffer Byte.x00 Byte.x80 160) = Ret false /\
   WssAudioBuffer.wss_is_likely_active (const_buffer Byte.xff Byte.x7f 160) = Ret true).
Proof. apply is_likely_active_overflow. Defined.
