(* ===== verification/ResourceGuard.v ===== *)
(** * ResourceGuard: [check_memory_before_processing]

    Both servers ask, before an offline recognition call, whether the GPU
    has enough free memory for the audio, and empty the CUDA cache once
    when it has not:
    - funasr_wss_server.py lines 130-177: needs [4 * audio] bytes; after
      emptying the cache it admits the audio iff enough memory is free.
    - funasr_unified_server.py lines 200-245: needs [2 * audio] bytes;
      after emptying the cache it refuses the audio only when less than
      [1.5 * audio] bytes are free.
    The GPU is an explicit state [gpu] (device present, total and reserved
    bytes as reported by torch); [torch.cuda.empty_cache()] is the section
    variable [empty_cache], a function of the GPU state given by the
    runtime.  The sources compare gibibytes as floats; both sides are the
    byte counts divided by [1024**3], so the comparisons are modelled
    exactly on bytes.  [gc.collect()] has no modelled effect. *)

From Stdlib Require Import ZArith Lia.
From S2P Require Import Prelude.

Local Open Scope Z_scope.
Local Open Scope bool_scope.

Module ResourceGuard.

Record gpu := {
  cuda_available : bool;
  total_memory : Z;      (** [get_device_properties(0).total_memory] *)
  memory_allocated : Z;  (** [memory_allocated(0)] *)
  memory_reserved : Z    (** [memory_reserved(0)] *)
}.

(** The dict [get_gpu_memory_info()] returns: total, allocated, cached
    and free memory, in bytes (the source divides each by [1024**3]). *)
Record memory_info := {
  mi_total : Z;
  mi_allocated : Z;
  mi_cached : Z;
  mi_free : Z
}.

Section Guard.

(** [torch.cuda.empty_cache()] *)
Variable empty_cache : gpu -> gpu.

(** [get_gpu_memory_info()] (wss 130-145, unified 200-217): [None]
    without CUDA; free memory is total minus reserved.  The unified
    version returns [None] when a torch call raises, which the torch of
    the model never does. *)
Definition get_gpu_memory_info (g : gpu) : option memory_info :=
  if cuda_available g then
    Some {| mi_total := total_memory g; mi_allocated := memory_allocated g;
            mi_cached := memory_reserved g; mi_free := total_memory g - memory_reserved g |}
  else None.

(** [memory_info['free']], read by both guards. *)
Definition get_free_memory (g : gpu) : option Z := option_map mi_free (get_gpu_memory_info g).

(** [clear_gpu_memory()]: [if torch.cuda.is_available(): empty_cache()]. *)
Definition clear_gpu_memory (g : gpu) : gpu :=
  if cuda_available g then empty_cache g else g.

(** funasr_wss_server.py 158-177.  Returns the decision and the GPU state
    after the call. *)
Definition wss_check_memory (g : gpu) (audio_size_bytes : Z) : bool * gpu :=
  match get_free_memory g with
  | Some free =>
      let estimated := audio_size_bytes * 4 in
      if free <? estimated then
        let g' := clear_gpu_memory g in
        match get_free_memory g' with
        | Some free' => (estimated <=? free', g')
        | None => (true, g')
        end
      else (true, g)
  | None => (true, g)
  end.

(** funasr_unified_server.py 228-245: [free < audio_gb * 2], then after
    clearing [free < audio_gb * 1.5] (here [2 * free < 3 * audio]). *)
Definition unified_check_memory (g : gpu) (audio_size_bytes : Z) : bool * gpu :=
  match get_free_memory g with
  | Some free =>
      if free <? audio_size_bytes * 2 then
        let g' := clear_gpu_memory g in
        match get_free_memory g' with
        | Some free' => (negb (2 * free' <? 3 * audio_size_bytes), g')
        | None => (true, g')
        end
      else (true, g)
  | None => (true, g)
  end.

(** Emptying the cache does not make the device disappear. *)
Hypothesis empty_cache_cuda : forall g, cuda_available (empty_cache g) = cuda_available g.

(** ** Properties *)

(** The free memory after emptying the cache. *)
Definition free_after_clear (g : gpu) : Z :=
  total_memory (empty_cache g) - memory_reserved (empty_cache g).

Definition free_now (g : gpu) : Z := total_memory g - memory_reserved g.

(** C19: the unified guard refuses the audio exactly when CUDA is present,
    less than twice its size is free, and after emptying the cache less
    than one and a half times its size is free; it empties the cache
    exactly when the first test fails. *)
Theorem unified_check_memory_spec g a :
  unified_check_memory g a
  = if cuda_available g && (free_now g <? 2 * a)
    then (negb (2 * free_after_clear g <? 3 * a), empty_cache g)
    else (true, g).
Proof.
  unfold unified_check_memory, get_free_memory, get_gpu_memory_info, clear_gpu_memory, free_now, free_after_clear.
  destruct (cuda_available g) eqn:Hc; [|easy]. simpl.
  rewrite (Z.mul_comm 2 a). destruct (_ <? _); [|easy].
  now rewrite empty_cache_cuda, Hc.
Qed.

(** C21: the wss guard admits the audio exactly when CUDA is absent, or
    four times its size is free, or is free after emptying the cache. *)
Theorem wss_check_memory_admits g a :
  fst (wss_check_memory g a) = true <->
  cuda_available g = false \/ 4 * a <= free_now g \/ 4 * a <= free_after_clear g.
Proof.
  unfold wss_check_memory, get_free_memory, get_gpu_memory_info, clear_gpu_memory, free_now, free_after_clear.
  destruct (cuda_available g) eqn:Hc; [|simpl; tauto].
  rewrite empty_cache_cuda, Hc. simpl.
  destruct (Z.ltb_spec (total_memory g - memory_reserved g) (a * 4)); simpl.
  - rewrite Z.leb_le. split; [intros; right; right; lia | intros [?|[?|?]]; lia || congruence].
  - split; [intros; right; left; lia | easy].
Qed.

(** Both guards are monotone in the audio size: audio admitted on a
    GPU state is admitted on that state when it is shorter. *)
Theorem check_memory_monotone g a a' :
  a' <= a ->
  (fst (unified_check_memory g a) = true -> fst (unified_check_memory g a') = true)
  /\ (fst (wss_check_memory g a) = true -> fst (wss_check_memory g a') = true).
Proof.
  intros Ha. split.
  - rewrite !unified_check_memory_spec.
    destruct (cuda_available g); simpl; [|easy].
    destruct (Z.ltb_spec (free_now g) (2 * a')), (Z.ltb_spec (free_now g) (2 * a)); simpl;
      try easy; [|lia].
    destruct (Z.ltb_spec (2 * free_after_clear g) (3 * a')),
             (Z.ltb_spec (2 * free_after_clear g) (3 * a)); simpl; easy || lia.
  - rewrite !wss_check_memory_admits. intros [?|[?|?]]; [left | right; left | right; right]; lia || easy.
Qed.

End Guard.

(** A GPU whose cache-emptying frees [freed] bytes of reserved memory. *)
Definition empty_by (freed : Z) (g : gpu) : gpu :=
  {| cuda_available := cuda_available g; total_memory := total_memory g;
     memory_allocated := memory_allocated g; memory_reserved := memory_reserved g - freed |}.

Lemma empty_by_cuda freed g : cuda_available (empty_by freed g) = cuda_available g.
Proof. reflexivity. Qed.

Definition GiB : Z := 1024 * 1024 * 1024.

(** Scenario C of the specification, on the unified guard: 1 GiB
    free and 0.6 GiB of audio; the first test fails (1 < 1.2), the cache
    is emptied (here freeing nothing), and the second test (1 < 0.9)
    passes, so the audio is admitted. *)
Example unified_check_memory_scenario_C :
  let g := {| cuda_available := true; total_memory := 8 * GiB; memory_allocated := 0; memory_reserved := 7 * GiB |} in
  unified_check_memory (empty_by 0) g (6 * GiB / 10) = (true, empty_by 0 g).
Proof. vm_compute. reflexivity. Qed.

Lemma unified_check_memory_spec_witness :
  unified_check_memory (empty_by 0)
    {| cuda_available := true; total_memory := 8; memory_allocated := 0; memory_reserved := 7 |} 1
  = (false, empty_by 0 {| cuda_available := true; total_memory := 8; memory_allocated := 0; memory_reserved := 7 |}).
Proof. rewrite unified_check_memory_spec; [reflexivity | apply empty_by_cuda]. Defined.

Lemma wss_check_memory_admits_witness :
  fst (wss_check_memory (empty_by 4) {| cuda_available := true; total_memory := 8; memory_allocated := 0; memory_reserved := 7 |} 1) = true.
Proof. apply wss_check_memory_admits; [apply empty_by_cuda|]. right. right. vm_compute. discriminate. Defined.

Lemma check_memory_monotone_witness :
  fst (unified_check_memory (empty_by 0) {| cuda_available := true; total_memory := 8; memory_allocated := 0; memory_reserved := 6 |} 0) = true.
Proof.
  apply (check_memory_monotone (empty_by 0) (empty_by_cuda 0) _ 1 0); [lia|].
  vm_compute. reflexivity.
Defined.

End ResourceGuard.
