(* ===== verification/Recognizers.v ===== *)
(** * SegmentDetector and TwoPassCoordinator: the model calls of the wss server

    src/websocket/funasr_wss_server.py:
    - [async_vad] (lines 486-505): one VAD call; a single reported segment
      gives its start and end, zero or several segments give no boundary.
    - [split_audio_chunks] (lines 508-530): 2-byte-aligned chunks of
      [chunk_size_mb] MiB.  Its loop is [chunks_from], with the audio
      length as fuel; [chunks] is the same loop by well-founded recursion
      (Equations) and [range_slices] the slices of [range(0, len, step)],
      the references the fuelled loop is proved equal to; C23 states
      the whole function: the slices of [range(0, len, S)] with [S] the
      chunk size.
    - [async_asr] (lines 532-650): the offline pass: memory guard, one
      call or one call per 8 MiB chunk, punctuation, and the message sent.
    - [async_asr_online] (lines 652-687): the online pass and the
      incremental emission of [Emitter].

    The five FunASR models are the fields of the record [models]: each is
    a function of the arguments the source passes ([**status_dict_...])
    that returns the result or raises, and returns the cache dict it
    mutated.  When a call raises, the cache is taken to be unchanged.
    GPU cache emptying is the field [empty_cache]. *)

From Stdlib Require Import ZArith Lia String.
From stdpp Require Import base list.
From Equations Require Import Equations.
From S2P Require Import Prelude Emitter ResourceGuard.

Local Open Scope Z_scope.
Local Open Scope py_scope.

Module Recognizers.
Import ResourceGuard.

(** [websocket.status_dict_asr_online] *)
Record online_status (Cache : Type) := {
  on_cache : Cache;
  on_is_final : bool;
  on_chunk_size : option (list Z);
  on_encoder_chunk_look_back : option Z;
  on_decoder_chunk_look_back : option Z
}.

(** [websocket.status_dict_vad] *)
Record vad_status (Cache : Type) := {
  vad_cache : Cache;
  vad_is_final : bool;
  vad_chunk_size : option Z
}.

Arguments on_cache {Cache}. Arguments on_is_final {Cache}. Arguments on_chunk_size {Cache}.
Arguments on_encoder_chunk_look_back {Cache}. Arguments on_decoder_chunk_look_back {Cache}.
Arguments vad_cache {Cache}. Arguments vad_is_final {Cache}. Arguments vad_chunk_size {Cache}.

(** The recognition collaborators. *)
Record models (Cache : Type) := {
  empty_dict : Cache;   (** [{}] *)
  (** [model_asr_streaming.generate(input=audio_in, **status_dict_asr_online)[0]["text"]] *)
  streaming_generate : online_status Cache -> bytes -> raises (pystr * Cache);
  (** [model_asr.generate(input=..., hotword=..., batch_size=1, cache_size=1)[0]["text"]] *)
  asr_generate : option pystr -> bytes -> raises pystr;
  (** [model_vad.generate(input=audio_in, **status_dict_vad)[0]["value"]] *)
  vad_generate : vad_status Cache -> bytes -> raises (list (Z * Z) * Cache);
  (** [model_punc.generate(input=text, **status_dict_punc)[0]["text"]], or
      [None] when the server runs without a punctuation model *)
  punc_generate : option (Cache -> pystr -> raises (pystr * Cache));
  (** [torch.cuda.empty_cache()] *)
  empty_cache : gpu -> gpu
}.

Arguments empty_dict {Cache}. Arguments streaming_generate {Cache}. Arguments asr_generate {Cache}.
Arguments vad_generate {Cache}. Arguments punc_generate {Cache}. Arguments empty_cache {Cache}.

(** An outbound JSON message [{mode, text, wav_name, is_final}], and
    whether it carries a [timestamp]. *)
Record out_msg := {
  o_mode : pystr;
  o_text : pystr;
  o_wav_name : pystr;
  o_is_final : bool;
  o_timestamp : bool
}.

(** [s in t] on strings: [s] is a substring of [t]. *)
Definition py_contains (s t : pystr) : bool :=
  existsb (fun i => bool_decide (take (length s) (drop i t) = s)) (seq 0 (S (length t))).

(** [mode = "2pass-offline" if "2pass" in websocket.mode else websocket.mode] *)
Definition offline_mode (mode : pystr) : pystr :=
  if py_contains (u"2pass")%py mode then (u"2pass-offline")%py else mode.

(** [mode = "2pass-online" if "2pass" in websocket.mode else websocket.mode] *)
Definition online_mode (mode : pystr) : pystr :=
  if py_contains (u"2pass")%py mode then (u"2pass-online")%py else mode.

(** The modes of spec section 6: a session's [mode] and the [mode] of an
    outbound message. *)
Definition session_modes : list pystr := [u"online"; u"offline"; u"2pass"]%py.
Definition out_modes : list pystr :=
  [u"online"; u"offline"; u"2pass-online"; u"2pass-offline"; u"error"; u"final";
   u"upload-complete"; u"stream-final"]%py.

Definition msg_ok (o : out_msg) : Prop := o_mode o ∈ out_modes.

Section WithModels.
Context {Cache : Type} (M : models Cache).

(** ** [async_vad] *)

(** Lines 486-505: the start and end of the single reported segment, or
    [(-1, -1)]; any exception also gives [(-1, -1)]. *)
Definition async_vad (st : vad_status Cache) (audio_in : bytes) : (Z * Z) * vad_status Cache :=
  match vad_generate M st audio_in with
  | Exc _ => ((-1, -1), st)
  | Ret (segments_result, cache') =>
      let st' := {| vad_cache := cache'; vad_is_final := vad_is_final st;
                    vad_chunk_size := vad_chunk_size st |} in
      match segments_result with
      | [(s, e)] =>
          ((if negb (s =? -1) then s else -1, if negb (e =? -1) then e else -1), st')
      | _ => ((-1, -1), st')
      end
  end.

End WithModels.

(** ** [split_audio_chunks] *)

(** [audio_data[i:i + step]] for [i] in [range(i0, len(audio_data), step)],
    with the fuel [n] bounding the number of chunks. *)
Fixpoint chunks_from {A} (n step : nat) (l : list A) : list (list A) :=
  match n with
  | O => []
  | S n' => match l with
            | [] => []
            | _ => take step l :: chunks_from n' step (drop step l)
            end
  end.

(** The same loop by well-founded recursion on the length of the audio
    left: the reference the fuel of [chunks_from] is checked against. *)
Equations? chunks {A} (step : nat) (l : list A) : list (list A) by wf (length l) lt :=
  chunks 0 _ := [];
  chunks _ [] := [];
  chunks (S k) (x :: l') := take (S k) (x :: l') :: chunks (S k) (drop (S k) (x :: l')).
Proof. rewrite length_drop. simpl. lia. Qed.

(** The slices [audio_data[i:i + step]] the loop visits, one for each [i]
    in [range(0, len(audio_data), step)]: [ceil(len / step)] of them. *)
Definition range_slices {A} (step : nat) (l : list A) : list (list A) :=
  map (fun j => take step (drop (j * step) l)) (seq 0 ((length l + step - 1) / step)).

(** Lines 508-530.  [range] with a zero step raises [ValueError]. *)
Definition split_audio_chunks (audio_data : bytes) (chunk_size_mb : Z) : raises (list bytes) :=
  let chunk_size_bytes := chunk_size_mb * 1024 * 1024 in
  if Z.of_nat (length audio_data) <=? chunk_size_bytes then Ret [audio_data]
  else
    let bytes_per_sample := 2 in
    let samples_per_chunk := chunk_size_bytes / bytes_per_sample in
    let samples_per_chunk := samples_per_chunk / 2 * 2 in
    let step := samples_per_chunk * bytes_per_sample in
    if step <=? 0 then Exc (u"range() arg 3 must not be zero")%py
    else Ret (filter (fun c => negb (bool_decide (c = [])))
                     (chunks_from (length audio_data) (Z.to_nat step) audio_data)).

(** ** The offline pass: [async_asr] *)

(** ["mode": "error"] messages (lines 541-546 and 642-647). *)
Definition error_message (wav_name text : pystr) : out_msg :=
  {| o_mode := (u"error")%py; o_text := text; o_wav_name := wav_name;
     o_is_final := true; o_timestamp := false |}.

Definition insufficient_memory_text : pystr :=
  (u"Insufficient GPU memory for processing this audio file")%py.

(** [f"ASR处理错误: {str(e)}"] *)
Definition asr_error_text (e : pystr) : pystr :=
  [65; 83; 82; 22788; 29702; 38169; 35823; 58; 32] ++ e.

(** ["mode", "text", "wav_name", "is_final": False] (lines 612-619, 627-634). *)
Definition offline_message (mode wav_name text : pystr) : out_msg :=
  {| o_mode := offline_mode mode; o_text := text; o_wav_name := wav_name;
     o_is_final := false; o_timestamp := false |}.

Definition eight_mib : Z := 8 * 1024 * 1024.

Section Passes.
Context {Cache : Type} (M : models Cache).

(** Lines 559-582: for each chunk, empty the CUDA cache, recognise it, and
    append its non-empty text and a space; a chunk whose call raises is
    skipped. *)
Fixpoint asr_chunks (g : gpu) (hotword : option pystr) (chunks : list bytes) (combined : pystr)
  : pystr * gpu :=
  match chunks with
  | [] => (combined, g)
  | chunk :: rest =>
      let g1 := clear_gpu_memory (empty_cache M) g in
      match asr_generate M hotword chunk with
      | Ret t => asr_chunks g1 hotword rest
                   (if Nat.ltb 0 (length t) then combined ++ t ++ [32] else combined)
      | Exc _ => asr_chunks g1 hotword rest combined
      end
  end.

(** Lines 550-596: the recognised text of the segment and the GPU state. *)
Definition offline_text (g : gpu) (hotword : option pystr) (audio_in : bytes) : raises (pystr * gpu) :=
  if eight_mib <? Z.of_nat (length audio_in) then
    chunks <- split_audio_chunks audio_in 8 ;;
    let '(combined, g') := asr_chunks g hotword chunks [] in
    Ret (py_strip combined, g')
  else
    t <- asr_generate M hotword audio_in ;;
    Ret (t, g).

(** Lines 601-606: the punctuation model, when there is one and the text is
    not empty. *)
Definition punctuate (punc_cache : Cache) (text : pystr) : raises (pystr * Cache) :=
  match punc_generate M with
  | Some punc => if Nat.ltb 0 (length text) then punc punc_cache text else Ret (text, punc_cache)
  | None => Ret (text, punc_cache)
  end.

(** Lines 532-650.  The messages sent, the GPU state and the punctuation
    cache after the call.  Every exception is caught and reported as an
    error message. *)
Definition async_asr (g : gpu) (hotword : option pystr) (punc_cache : Cache)
    (mode wav_name : pystr) (audio_in : bytes) : list out_msg * gpu * Cache :=
  if Nat.ltb 0 (length audio_in) then
    let '(enough, g1) := wss_check_memory (empty_cache M) g (Z.of_nat (length audio_in)) in
    if negb enough then ([error_message wav_name insufficient_memory_text], g1, punc_cache)
    else
      match offline_text g1 hotword audio_in with
      | Exc e => ([error_message wav_name (asr_error_text e)], g1, punc_cache)
      | Ret (text, g2) =>
          let g3 := clear_gpu_memory (empty_cache M) g2 in
          match punctuate punc_cache text with
          | Exc e => ([error_message wav_name (asr_error_text e)], g3, punc_cache)
          | Ret (text', punc_cache') =>
              (if Nat.ltb 0 (length text') then [offline_message mode wav_name text'] else [],
               g3, punc_cache')
          end
      end
  else ([offline_message mode wav_name []], g, punc_cache).

(** ** The online pass: [async_asr_online] *)

(** ["mode": "2pass-online" or the mode, "is_final": False] (lines 675-684). *)
Definition online_message (mode wav_name text : pystr) : out_msg :=
  {| o_mode := online_mode mode; o_text := text; o_wav_name := wav_name;
     o_is_final := false; o_timestamp := false |}.

(** Lines 652-687.  The result text returned (when audio was given), the
    new online status, the new [sent_text_length] and the messages sent;
    an exception of the model propagates to the caller. *)
Definition async_asr_online (st : online_status Cache) (sent_text_length : nat)
    (mode wav_name : pystr) (audio_in : bytes)
  : raises (option pystr * online_status Cache * nat * list out_msg) :=
  if Nat.ltb 0 (length audio_in) then
    res <- streaming_generate M st audio_in ;;
    let '(full_text, cache') := res in
    let st' := {| on_cache := cache'; on_is_final := on_is_final st;
                  on_chunk_size := on_chunk_size st;
                  on_encoder_chunk_look_back := on_encoder_chunk_look_back st;
                  on_decoder_chunk_look_back := on_decoder_chunk_look_back st |} in
    if bool_decide (mode = (u"2pass")%py) && on_is_final st
    then Ret (Some full_text, st', sent_text_length, [])
    else
      let '(sent, sent_text_length') :=
        IncrementalTextEmitter.emit_online_text sent_text_length full_text in
      Ret (Some full_text, st', sent_text_length',
           match sent with Some d => [online_message mode wav_name d] | None => [] end)
  else Ret (None, st, sent_text_length, []).

End Passes.

(** ** Lemmas *)

Lemma chunks_from_concat {A} n step (l : list A) :
  (0 < step)%nat -> (length l <= n)%nat -> concat (chunks_from n step l) = l.
Proof.
  intros Hs. revert l. induction n as [|n IH]; intros l Hl; simpl.
  - destruct l; simpl in *; [done | lia].
  - destruct l as [|x l']; [done|]. cbn [concat]. rewrite IH.
    + apply take_drop.
    + rewrite length_drop. simpl in *. lia.
Qed.

Lemma chunks_from_bounds {A} n step (l : list A) :
  (0 < step)%nat -> Forall (fun c => (0 < length c <= step)%nat) (chunks_from n step l).
Proof.
  intros Hs. revert l. induction n as [|n IH]; intros l; simpl; [constructor|].
  destruct l as [|x l']; [constructor|]. constructor; [|apply IH].
  rewrite length_take. simpl. lia.
Qed.

Lemma div_up_pos n len :
  (0 < n)%nat -> (0 < len)%nat -> ((len + n - 1) / n = S ((len - n + n - 1) / n))%nat.
Proof.
  intros Hn Hl. destruct (Nat.le_gt_cases n len).
  - replace (len + n - 1)%nat with ((len - n + n - 1) + 1 * n)%nat by lia.
    rewrite Nat.div_add; lia.
  - replace (len - n)%nat with 0%nat by lia. rewrite (Nat.div_small (0 + n - 1)) by lia.
    symmetry. apply (Nat.div_unique _ _ _ (len - 1)); lia.
Qed.

Lemma chunks_from_chunks {A} fuel step (l : list A) :
  (0 < step)%nat -> (length l <= fuel)%nat -> chunks_from fuel step l = chunks step l.
Proof.
  intros Hs. revert fuel. funelim (chunks step l); intros fuel Hn; [lia| |].
  - by destruct fuel.
  - destruct fuel as [|fuel]; simpl in Hn; [lia|]. simpl. f_equal. apply H; [lia|].
    rewrite length_drop. simpl. lia.
Qed.

Lemma chunks_range_slices {A} step (l : list A) :
  (0 < step)%nat -> chunks step l = range_slices step l.
Proof.
  intros Hs. unfold range_slices. funelim (chunks step l); [lia| |].
  - cbn [length]. by rewrite Nat.div_small by lia.
  - rewrite H; [|lia]. rewrite (div_up_pos (S k) (length (x :: l'))) by (simpl; lia).
    rewrite length_drop. cbn [seq map]. rewrite <- seq_shift, map_map.
    f_equal. apply map_ext. intros j. rewrite drop_drop. do 2 f_equal.
Qed.

Lemma filter_nonempty_id {A} (cs : list (list A)) :
  Forall (fun c => (0 < length c)%nat) cs -> filter (fun c => negb (bool_decide (c = []))) cs = cs.
Proof.
  induction 1 as [|c cs Hc _ IH]; [done|]. rewrite filter_cons.
  destruct c; simpl in *; [lia|]. by rewrite IH.
Qed.

(** ** Properties *)

Section Props.
Context {Cache : Type} (M : models Cache).

(** The step of [split_audio_chunks]: [chunk_size_bytes // 2 // 2 * 2 * 2]
    is [chunk_size_bytes] itself, a multiple of 4 bytes. *)
Lemma split_step mb : mb * 1024 * 1024 / 2 / 2 * 2 * 2 = mb * 1024 * 1024.
Proof.
  replace (mb * 1024 * 1024) with (mb * 262144 * 2 * 2) by lia.
  by rewrite !Z.div_mul by lia.
Qed.

(** C23: [split_audio_chunks a mb] for a chunk size of at least 1 MiB:
    the audio itself when it fits in one chunk, and otherwise the slices
    [a[i:i + S]] for [i] in [range(0, len(a), S)] with [S] exactly
    [mb] MiB: the sample alignment of lines 519-523 changes nothing, the
    loop (fuelled by the audio length) visits every slice, and the
    [len(chunk) > 0] filter drops none. *)
Theorem split_audio_chunks_slices a mb :
  1 <= mb ->
  split_audio_chunks a mb =
    Ret (if Z.of_nat (length a) <=? mb * 1024 * 1024 then [a]
         else range_slices (Z.to_nat (mb * 1024 * 1024)) a).
Proof.
  intros Hmb. unfold split_audio_chunks. destruct (_ <=? _); [done|].
  rewrite split_step, (proj2 (Z.leb_gt _ _)) by lia.
  assert (Hst : (0 < Z.to_nat (mb * 1024 * 1024))%nat) by lia.
  rewrite filter_nonempty_id
    by (eapply Forall_impl; [exact (chunks_from_bounds (length a) _ a Hst) | simpl; lia]).
  by rewrite chunks_from_chunks, chunks_range_slices by done.
Qed.

(** [s in t] on strings: [py_contains s t] holds exactly when [s]
    occurs in [t] as a contiguous substring. *)
Theorem py_contains_spec s t : py_contains s t = true <-> exists a b, t = a ++ s ++ b.
Proof.
  unfold py_contains. rewrite existsb_exists. split.
  - intros (i & _ & Hi). apply bool_decide_eq_true in Hi.
    exists (take i t), (drop (length s) (drop i t)).
    rewrite <- (take_drop i t) at 1. f_equal.
    rewrite <- (take_drop (length s) (drop i t)) at 1. by rewrite Hi.
  - intros (a & b & ->). exists (length a). split.
    + apply in_seq. rewrite !length_app. lia.
    + apply bool_decide_eq_true. by rewrite drop_app_length, take_app_length.
Qed.

(** Round trip and bounds of [split_audio_chunks]: for non-empty
    audio and a chunk size of at least 1 MiB the chunks concatenate to the
    audio, and each is non-empty and at most the chunk size. *)
Theorem split_audio_chunks_concat a mb :
  1 <= mb -> a <> [] ->
  exists chunks, split_audio_chunks a mb = Ret chunks /\ concat chunks = a /\
    Forall (fun c => 0 < Z.of_nat (length c) <= mb * 1024 * 1024) chunks.
Proof.
  intros Hmb Ha. unfold split_audio_chunks.
  destruct (Z.leb_spec (Z.of_nat (length a)) (mb * 1024 * 1024)).
  - eexists. split; [done|]. split; [apply app_nil_r|].
    constructor; [|constructor]. split; [|done].
    destruct a; simpl in *; [done | lia].
  - destruct (Z.leb_spec (mb * 1024 * 1024 / 2 / 2 * 2 * 2) 0) as [Hz|Hz].
    { exfalso. Z.to_euclidean_division_equations. lia. }
    eexists. split; [done|].
    assert (Hst : (0 < Z.to_nat (mb * 1024 * 1024 / 2 / 2 * 2 * 2))%nat) by lia.
    pose proof (chunks_from_bounds (length a) _ a Hst) as Hb.
    rewrite filter_nonempty_id by (eapply Forall_impl; [exact Hb | simpl; lia]).
    split; [by apply chunks_from_concat|].
    eapply Forall_impl; [exact Hb|]. simpl. intros c Hc.
    assert (mb * 1024 * 1024 / 2 / 2 * 2 * 2 <= mb * 1024 * 1024).
    { Z.to_euclidean_division_equations. lia. }
    lia.
Qed.

Lemma split_audio_chunks_concat_witness :
  exists chunks, split_audio_chunks [Byte.x01; Byte.x02] 8 = Ret chunks /\
    concat chunks = [Byte.x01; Byte.x02] /\
    Forall (fun c => 0 < Z.of_nat (length c) <= 8 * 1024 * 1024) chunks.
Proof. apply split_audio_chunks_concat; [lia | discriminate]. Defined.

(** The online pass changes only the cache of the online status. *)
Lemma async_asr_online_status st n mode wav a r st' n' outs :
  async_asr_online M st n mode wav a = Ret (r, st', n', outs) ->
  exists c, st' = {| on_cache := c; on_is_final := on_is_final st; on_chunk_size := on_chunk_size st;
                     on_encoder_chunk_look_back := on_encoder_chunk_look_back st;
                     on_decoder_chunk_look_back := on_decoder_chunk_look_back st |}.
Proof.
  unfold async_asr_online. destruct (Nat.ltb 0 (length a)).
  - simpl. destruct (streaming_generate M st a) as [[t c]|]; simpl; [|done].
    destruct (_ && _); [intros [= _ <- _ _]; by eexists|].
    destruct (IncrementalTextEmitter.emit_online_text n t). intros [= _ <- _ _]. by eexists.
  - intros [= _ <- _ _]. exists (on_cache st). by destruct st.
Qed.

(** One offline pass sends at most one message: the recognised and
    punctuated text, an error, or the empty text for empty audio. *)
Theorem async_asr_at_most_one g hw pc mode wav a :
  (length (fst (fst (async_asr M g hw pc mode wav a))) <= 1)%nat.
Proof.
  unfold async_asr.
  destruct (Nat.ltb 0 (length a)); simpl; [|lia].
  destruct (wss_check_memory _ _ _) as [[|] g1]; simpl; [|lia].
  destruct (offline_text M g1 hw a) as [[t g2]|]; simpl; [|lia].
  destruct (punctuate M pc t) as [[t' pc']|]; simpl; [|lia].
  destruct (Nat.ltb 0 (length t')); simpl; lia.
Qed.

Lemma offline_mode_ok m : m ∈ session_modes -> offline_mode m ∈ out_modes.
Proof.
  intros Hm. repeat (apply elem_of_cons in Hm as [->|Hm]); [decide_closed..|].
  by apply not_elem_of_nil in Hm.
Qed.

Lemma online_mode_ok m : m ∈ session_modes -> online_mode m ∈ out_modes.
Proof.
  intros Hm. repeat (apply elem_of_cons in Hm as [->|Hm]); [decide_closed..|].
  by apply not_elem_of_nil in Hm.
Qed.

(** The offline pass sends messages of the modes of spec section 6. *)
Lemma async_asr_msgs_ok g hw pc mode wav a :
  mode ∈ session_modes -> Forall msg_ok (fst (fst (async_asr M g hw pc mode wav a))).
Proof.
  intros Hm. unfold async_asr.
  destruct (Nat.ltb 0 (length a)); simpl; [|apply Forall_singleton; by apply offline_mode_ok].
  destruct (wss_check_memory _ _ _) as [[|] g1]; simpl; [|apply Forall_singleton; decide_closed].
  destruct (offline_text M g1 hw a) as [[t g2]|]; simpl; [|apply Forall_singleton; decide_closed].
  destruct (punctuate M pc t) as [[t' pc']|]; simpl; [|apply Forall_singleton; decide_closed].
  destruct (Nat.ltb 0 (length t')); simpl; [apply Forall_singleton; by apply offline_mode_ok | done].
Qed.

(** So does the online pass. *)
Lemma async_asr_online_msgs_ok st n mode wav a r st' n' outs :
  mode ∈ session_modes -> async_asr_online M st n mode wav a = Ret (r, st', n', outs) ->
  Forall msg_ok outs.
Proof.
  intros Hm. unfold async_asr_online.
  destruct (Nat.ltb 0 (length a)); simpl; [|by intros [= _ _ _ <-]].
  destruct (streaming_generate M st a) as [[t c]|]; simpl; [|done].
  destruct (_ && _); [by intros [= _ _ _ <-]|].
  destruct (IncrementalTextEmitter.emit_online_text n t) as [[d|] n1];
    intros [= _ _ _ <-]; [apply Forall_singleton; by apply online_mode_ok | done].
Qed.

(** In "2pass" mode, once the online status is final (the end of a
    segment), the online pass returns the result without sending
    anything and without moving the cursor. *)
Theorem async_asr_online_2pass_final st n wav a :
  on_is_final st = true ->
  match async_asr_online M st n (u"2pass") wav a with
  | Ret (_, _, n', outs) => n' = n /\ outs = []
  | Exc _ => True
  end.
Proof.
  intros Hf. unfold async_asr_online.
  destruct (Nat.ltb 0 (length a)); [|done]. simpl.
  destruct (streaming_generate M st a) as [[t c]|]; simpl; [|done].
  rewrite Hf. done.
Qed.

End Props.

Lemma split_audio_chunks_slices_witness :
  split_audio_chunks [Byte.x01; Byte.x02] 1 =
    Ret (if Z.of_nat (length [Byte.x01; Byte.x02]) <=? 1 * 1024 * 1024 then [[Byte.x01; Byte.x02]]
         else range_slices (Z.to_nat (1 * 1024 * 1024)) [Byte.x01; Byte.x02]).
Proof. apply split_audio_chunks_slices. lia. Defined.

(** A model whose online call returns "a" and leaves the cache. *)
Definition const_models : models unit :=
  {| empty_dict := tt;
     streaming_generate := fun _ _ => Ret ([97], tt);
     asr_generate := fun _ _ => Ret [97];
     vad_generate := fun _ _ => Ret ([], tt);
     punc_generate := None;
     empty_cache := fun g => g |}.


End Recognizers.
