(* ===== verification/Handler.v ===== *)
(** * Handler: the state-and-exception monad of a websocket handler

    The body of [ws_serve] reads and writes the attributes of its
    websocket, the process-wide GPU, and the socket it sends on, and any
    statement may raise.  [handler S A] is that computation over a world
    made of a connection state [S], the GPU state and the messages sent
    so far; an exception keeps the effects of the statements before it,
    as in Python.  [h_catch] is [try: ... except Exception: pass].

    [wp m Q E w] is the weakest precondition of [m]: run from [w], it
    returns [a] into [Q a] or raises into [E].  The rules for each
    operation, sequencing ([wp_seq]), the invariant combinators [keeps]
    (of the connection state) and [keeps_w] (of the whole world) and the
    symbolic-execution tactic [wp_exec] are the program logic the
    [Session] proofs use. *)

From Stdlib Require Import ZArith Lia String.
From stdpp Require Import base list.
From S2P Require Import Prelude ResourceGuard Recognizers.

Module Handler.
Import ResourceGuard Recognizers.

Record world (S : Type) := { w_session : S; w_gpu : gpu; w_sent : list out_msg }.
Arguments w_session {S}. Arguments w_gpu {S}. Arguments w_sent {S}.

Section Monad.
Context {S : Type}.

Definition handler (A : Type) : Type := world S -> raises A * world S.

Definition h_ret {A} (a : A) : handler A := fun w => (Ret a, w).

Definition h_bind {A B} (m : handler A) (k : A -> handler B) : handler B :=
  fun w => let '(r, w') := m w in
           match r with
           | Ret a => k a w'
           | Exc e => (Exc e, w')
           end.

Definition h_raise {A} (e : pystr) : handler A := fun w => (Exc e, w).

Definition h_lift {A} (r : raises A) : handler A := fun w => (r, w).

Definition h_get : handler S := fun w => (Ret (w_session w), w).

Definition h_modify (f : S -> S) : handler unit :=
  fun w => (Ret tt, {| w_session := f (w_session w); w_gpu := w_gpu w; w_sent := w_sent w |}).

Definition h_get_gpu : handler gpu := fun w => (Ret (w_gpu w), w).

Definition h_set_gpu (g : gpu) : handler unit :=
  fun w => (Ret tt, {| w_session := w_session w; w_gpu := g; w_sent := w_sent w |}).

Definition h_send (ms : list out_msg) : handler unit :=
  fun w => (Ret tt, {| w_session := w_session w; w_gpu := w_gpu w; w_sent := w_sent w ++ ms |}).

(** [try: m except Exception: print(...)] *)
Definition h_catch (m : handler unit) : handler unit :=
  fun w => let '(_, w') := m w in (Ret tt, w').

Definition skip : handler unit := h_ret tt.

(** [if b: m] *)
Definition when (b : bool) (m : handler unit) : handler unit := if b then m else skip.

End Monad.

Arguments handler : clear implicits.

Declare Scope handler_scope.
Delimit Scope handler_scope with handler.
Notation "x <-- m ;; k" := (h_bind m (fun x => k))
  (at level 60, m at next level, right associativity) : handler_scope.
Notation "m ;;; k" := (h_bind m (fun _ => k))
  (at level 60, right associativity) : handler_scope.

(** ** The program logic *)

Section Logic.
Context {S : Type}.
Local Abbreviation world := (world S).
Local Abbreviation handler := (handler S).

(** [wp m Q E w]: run from [w], [m] returns [a] in a world satisfying
    [Q a], or raises in a world satisfying [E]. *)
Definition wp {A} (m : handler A) (Q : A -> world -> Prop) (E : world -> Prop) (w : world) : Prop :=
  match m w with
  | (Ret a, w') => Q a w'
  | (Exc _, w') => E w'
  end.

Lemma wp_ret {A} (a : A) Q E w : Q a w -> wp (h_ret a) Q E w.
Proof. done. Qed.

Lemma wp_bind {A B} (m : handler A) (k : A -> handler B) Q E w :
  wp m (fun a w' => wp (k a) Q E w') E w -> wp (h_bind m k) Q E w.
Proof. unfold wp, h_bind. destruct (m w) as [[a|e] w']; done. Qed.

Lemma wp_get Q E w : Q (w_session w) w -> wp h_get Q E w.
Proof. done. Qed.

Lemma wp_get_gpu Q E w : Q (w_gpu w) w -> wp h_get_gpu Q E w.
Proof. done. Qed.

Lemma wp_modify f Q E w :
  Q tt {| w_session := f (w_session w); w_gpu := w_gpu w; w_sent := w_sent w |} ->
  wp (h_modify f) Q E w.
Proof. done. Qed.

Lemma wp_set_gpu g Q E w :
  Q tt {| w_session := w_session w; w_gpu := g; w_sent := w_sent w |} -> wp (h_set_gpu g) Q E w.
Proof. done. Qed.

Lemma wp_send ms Q E w :
  Q tt {| w_session := w_session w; w_gpu := w_gpu w; w_sent := w_sent w ++ ms |} ->
  wp (h_send ms) Q E w.
Proof. done. Qed.

Lemma wp_raise {A} e (Q : A -> world -> Prop) E w : E w -> wp (h_raise e) Q E w.
Proof. done. Qed.

Lemma wp_lift {A} (r : raises A) Q E w :
  match r with Ret a => Q a w | Exc _ => E w end -> wp (h_lift r) Q E w.
Proof. by destruct r. Qed.

Lemma wp_catch m Q E w : wp m (fun _ => Q tt) (Q tt) w -> wp (h_catch m) Q E w.
Proof. unfold wp, h_catch. by destruct (m w) as [[]]. Qed.

Lemma wp_mono {A} (m : handler A) (Q Q' : A -> world -> Prop) (E E' : world -> Prop) w :
  wp m Q E w -> (forall a w', Q a w' -> Q' a w') -> (forall w', E w' -> E' w') -> wp m Q' E' w.
Proof. unfold wp. destruct (m w) as [[]]; eauto. Qed.

Lemma wp_trivial {A} (m : handler A) w : wp m (fun _ _ => True) (fun _ => True) w.
Proof. unfold wp. by destruct (m w) as [[]]. Qed.

(** Sequencing: [m] returns into [P] or raises into [E'], which implies
    [E]; from [P], [k] establishes [Q]. *)
Lemma wp_seq {A B} (m : handler A) (k : A -> handler B) (P : A -> world -> Prop) E' Q E w :
  wp m P E' w -> (forall w', E' w' -> E w') -> (forall a w', P a w' -> wp (k a) Q E w') ->
  wp (h_bind m k) Q E w.
Proof. intros Hm HE Hk. apply wp_bind. eapply wp_mono; [exact Hm | exact Hk | exact HE]. Qed.

(** [m] keeps [P] of the connection state whether it returns or raises. *)
Definition keeps {A} (P : S -> Prop) (m : handler A) : Prop :=
  forall w, P (w_session w) -> wp m (fun _ w' => P (w_session w')) (fun w' => P (w_session w')) w.

Lemma keeps_bind {A B} (P : S -> Prop) (m : handler A) (k : A -> handler B) :
  keeps P m -> (forall a, keeps P (k a)) -> keeps P (h_bind m k).
Proof.
  intros Hm Hk w Hw. eapply wp_seq; [by apply Hm | done | intros a w' Hw'; by apply Hk].
Qed.

(** A handler that keeps a view of the state keeps every property of
    that view. *)
Lemma keeps_view {A V} (view : S -> V) (P : V -> Prop) (m : handler A) :
  (forall x, keeps (fun s => view s = x) m) -> keeps (fun s => P (view s)) m.
Proof.
  intros Hm w Hw. eapply wp_mono; [by apply (Hm (view (w_session w))) | |];
    [intros a w' -> | intros w' ->]; exact Hw.
Qed.

(** [m] keeps [P] of the connection state and does not raise. *)
Definition keeps_ok {A} (P : S -> Prop) (m : handler A) : Prop :=
  forall w, P (w_session w) -> wp m (fun _ w' => P (w_session w')) (fun _ => False) w.

Lemma keeps_ok_bind {A B} (P : S -> Prop) (m : handler A) (k : A -> handler B) :
  keeps_ok P m -> (forall a, keeps_ok P (k a)) -> keeps_ok P (h_bind m k).
Proof.
  intros Hm Hk w Hw. eapply wp_seq; [by apply Hm | done | intros a w' Hw'; by apply Hk].
Qed.

(** [m] keeps [P] of the whole world (state, GPU, messages sent). *)
Definition keeps_w {A} (P : world -> Prop) (m : handler A) : Prop :=
  forall w, P w -> wp m (fun _ => P) P w.

Lemma keeps_w_bind {A B} (P : world -> Prop) (m : handler A) (k : A -> handler B) :
  keeps_w P m -> (forall a, keeps_w P (k a)) -> keeps_w P (h_bind m k).
Proof.
  intros Hm Hk w Hw. eapply wp_seq; [by apply Hm | done | intros a w' Hw'; by apply Hk].
Qed.

Lemma keeps_w_ret {A} P (a : A) : keeps_w P (h_ret a).
Proof. intros w Hw. by apply wp_ret. Qed.

Lemma keeps_w_get P : keeps_w P h_get.
Proof. intros w Hw. by apply wp_get. Qed.

Lemma keeps_w_get_gpu P : keeps_w P h_get_gpu.
Proof. intros w Hw. by apply wp_get_gpu. Qed.

Lemma keeps_w_raise {A} P e : keeps_w (A := A) P (h_raise e).
Proof. intros w Hw. by apply wp_raise. Qed.

Lemma keeps_w_lift {A} P (r : raises A) : keeps_w P (h_lift r).
Proof. intros w Hw. apply wp_lift. by destruct r. Qed.

Lemma keeps_w_catch P m : keeps_w P m -> keeps_w P (h_catch m).
Proof. intros Hm w Hw. apply wp_catch. by apply Hm. Qed.

Lemma keeps_w_when P b m : keeps_w P m -> keeps_w P (when b m).
Proof. intros Hm. destruct b; [exact Hm | apply keeps_w_ret]. Qed.

End Logic.

(** Decompose a [keeps_w] goal down to the operations that change the
    world: what is left are [h_modify], [h_set_gpu] and [h_send]. *)
Ltac keeps_w_exec :=
  repeat lazymatch goal with
  | |- keeps_w _ (h_bind _ _) => apply keeps_w_bind; [|intros ?]
  | |- keeps_w _ (h_ret _) => apply keeps_w_ret
  | |- keeps_w _ h_get => apply keeps_w_get
  | |- keeps_w _ h_get_gpu => apply keeps_w_get_gpu
  | |- keeps_w _ (h_raise _) => apply keeps_w_raise
  | |- keeps_w _ (h_lift _) => apply keeps_w_lift
  | |- keeps_w _ (h_catch _) => apply keeps_w_catch
  | |- keeps_w _ (when _ _) => apply keeps_w_when
  | |- keeps_w _ skip => apply keeps_w_ret
  | |- keeps_w _ (match ?x with _ => _ end) => destruct x eqn:?
  | |- keeps_w _ (if ?b then _ else _) => destruct b eqn:?
  end.

(** Symbolic execution: apply the rule of the head of the handler, unfold
    the small combinators, and case on the values the code branches on. *)
Ltac wp_exec :=
  repeat lazymatch goal with
  | |- wp (h_bind _ _) _ _ _ => apply wp_bind
  | |- wp (h_ret _) _ _ _ => apply wp_ret
  | |- wp h_get _ _ _ => apply wp_get
  | |- wp h_get_gpu _ _ _ => apply wp_get_gpu
  | |- wp (h_modify _) _ _ _ => apply wp_modify
  | |- wp (h_set_gpu _) _ _ _ => apply wp_set_gpu
  | |- wp (h_send _) _ _ _ => apply wp_send
  | |- wp (h_raise _) _ _ _ => apply wp_raise
  | |- wp (h_lift _) _ _ _ => apply wp_lift
  | |- wp (h_catch _) _ _ _ => apply wp_catch
  | |- wp (when ?b _) _ _ _ => unfold when at 1; destruct b eqn:?
  | |- wp skip _ _ _ => apply wp_ret
  | |- wp (match ?x with _ => _ end) _ _ _ => destruct x eqn:?
  | |- wp (if ?b then _ else _) _ _ _ => destruct b eqn:?
  | |- match ?x with _ => _ end => destruct x eqn:?
  | |- wp (let '(_, _) := ?x in _) _ _ _ => destruct x eqn:?
  end; cbn [w_session w_gpu w_sent] in *.

End Handler.
