(* ===== verification/Session.v ===== *)
(** * SessionProtocolHandler: [ws_serve] of the wss server

    src/websocket/funasr_wss_server.py lines 293-484.  One connection is
    one [session]: the attributes [ws_serve] sets on the websocket (lines
    299-313) and the local variables of the handler ([frames],
    [frames_asr], [frames_asr_online], [speech_start], [speech_end_i]).
    The loop body (lines 318-451) runs once per inbound frame; it is
    written in the monad of Handler.v, [handler Cache], over the session,
    the process-wide GPU state and the list of messages sent so far.

    - [handle_control]: a JSON control frame (lines 319-372), including
      the [upload_complete] flush.
    - [update_vad_chunk_size]: lines 374-376, run for every frame; it
      raises when no [chunk_size] was ever sent, and so ends the session.
    - [handle_audio]: a binary frame (lines 378-427): buffering, the
      online pass every [chunk_interval] frames, the VAD call and the
      speech-start look-back.
    - [handle_segment_end]: lines 429-451: the offline pass at the end of
      a segment or while the client is not speaking, and the resets.
    - [ws_serve_frame] composes them; [ws_step] adds the loop's
      [except Exception] handler (lines 478-483): the buffer is cleared and
      the handler returns.  [ws_close] is the [ConnectionClosed] handler
      (lines 453-470).

    A JSON frame is modelled by the keys the handler reads ([control]);
    a frame that is not valid JSON raises.  [clear_websocket] (lines
    287-291) is never called (its call is commented out) and is not
    modelled.

    Proofs use the program logic of Handler.v ([wp], [keeps], [wp_exec]);
    [close_frame] and [keeps_exec] below add the facts of the recognizer
    models, and [ws_step_serving] / [ws_step_ends] / [ws_step_total]
    turn a [wp] of one frame into a statement about [ws_step].
    [reachable] is the set of sessions a connection can reach;
    [reachable_watermark] is proved on it by rule induction.
    [ws_steps] is the frame loop on a sequence of audio frames; the online
    pass every [chunk_interval] frames (C13) and the upload invariant
    (C33) are stated over it.  The theorems cover the configuration
    a session needs, the modes of the messages sent, the online pass,
    the look-back, the repeated offline pass, scenario D and the upload
    path, the cache policy at a segment end and the short-frame
    [ZeroDivisionError]. *)

From Stdlib Require Import ZArith Lia String.
From stdpp Require Import base list.
From S2P Require Import Prelude Emitter AudioBuffer ResourceGuard Recognizers Handler.

Local Open Scope Z_scope.
Local Open Scope py_scope.

Module Session.
Import Recognizers ResourceGuard WssAudioBuffer Handler.

(** The value of ["chunk_size"]: a list, or a string ["a,b,c"]. *)
Inductive chunk_size_value :=
| CSList (l : list Z)
| CSString (s : pystr).

(** The recognised keys of a control frame; [None] when absent. *)
Record control := {
  c_is_speaking : option bool;
  c_chunk_interval : option Z;
  c_wav_name : option pystr;
  c_chunk_size : option chunk_size_value;
  c_encoder_chunk_look_back : option Z;
  c_decoder_chunk_look_back : option Z;
  c_hotwords : option pystr;
  c_mode : option pystr;
  c_is_file_upload : option bool;
  c_upload_complete : bool
}.

(** An inbound frame: text ([None] when it is not valid JSON) or bytes. *)
Inductive frame :=
| Text (msg : option control)
| Binary (message : bytes).

Section WithModels.
Context {Cache : Type} (M : models Cache).

Record session := {
  hotword : option pystr;              (** [status_dict_asr["hotword"]] *)
  asr_online : online_status Cache;    (** [status_dict_asr_online] *)
  vad_st : vad_status Cache;           (** [status_dict_vad] *)
  punc_cache : Cache;                  (** [status_dict_punc["cache"]] *)
  chunk_interval : Z;
  vad_pre_idx : Z;
  sent_text_length : nat;
  audio_buffer : WssAudioBuffer.t;
  stream_results : list pystr;         (** the texts of the stored results *)
  wav_name : pystr;
  mode : pystr;
  is_file_upload : bool;
  is_speaking : option bool;           (** unset until a control frame sets it *)
  frames : list bytes;
  frames_asr : list bytes;
  frames_asr_online : list bytes;
  speech_start : bool;
  speech_end_i : Z
}.

Definition set_hotword (s : session) (v : option pystr) : session :=
  {| hotword := v; asr_online := asr_online s; vad_st := vad_st s; punc_cache := punc_cache s;
  chunk_interval := chunk_interval s; vad_pre_idx := vad_pre_idx s; sent_text_length :=
  sent_text_length s; audio_buffer := audio_buffer s; stream_results := stream_results s;
  wav_name := wav_name s; mode := mode s; is_file_upload := is_file_upload s; is_speaking :=
  is_speaking s; frames := frames s; frames_asr := frames_asr s; frames_asr_online :=
  frames_asr_online s; speech_start := speech_start s; speech_end_i := speech_end_i s |}.
Definition set_asr_online (s : session) (v : online_status Cache) : session :=
  {| hotword := hotword s; asr_online := v; vad_st := vad_st s; punc_cache := punc_cache s;
  chunk_interval := chunk_interval s; vad_pre_idx := vad_pre_idx s; sent_text_length :=
  sent_text_length s; audio_buffer := audio_buffer s; stream_results := stream_results s;
  wav_name := wav_name s; mode := mode s; is_file_upload := is_file_upload s; is_speaking :=
  is_speaking s; frames := frames s; frames_asr := frames_asr s; frames_asr_online :=
  frames_asr_online s; speech_start := speech_start s; speech_end_i := speech_end_i s |}.
Definition set_vad_st (s : session) (v : vad_status Cache) : session :=
  {| hotword := hotword s; asr_online := asr_online s; vad_st := v; punc_cache := punc_cache
  s; chunk_interval := chunk_interval s; vad_pre_idx := vad_pre_idx s; sent_text_length :=
  sent_text_length s; audio_buffer := audio_buffer s; stream_results := stream_results s;
  wav_name := wav_name s; mode := mode s; is_file_upload := is_file_upload s; is_speaking :=
  is_speaking s; frames := frames s; frames_asr := frames_asr s; frames_asr_online :=
  frames_asr_online s; speech_start := speech_start s; speech_end_i := speech_end_i s |}.
Definition set_punc_cache (s : session) (v : Cache) : session :=
  {| hotword := hotword s; asr_online := asr_online s; vad_st := vad_st s; punc_cache := v;
  chunk_interval := chunk_interval s; vad_pre_idx := vad_pre_idx s; sent_text_length :=
  sent_text_length s; audio_buffer := audio_buffer s; stream_results := stream_results s;
  wav_name := wav_name s; mode := mode s; is_file_upload := is_file_upload s; is_speaking :=
  is_speaking s; frames := frames s; frames_asr := frames_asr s; frames_asr_online :=
  frames_asr_online s; speech_start := speech_start s; speech_end_i := speech_end_i s |}.
Definition set_chunk_interval (s : session) (v : Z) : session :=
  {| hotword := hotword s; asr_online := asr_online s; vad_st := vad_st s; punc_cache :=
  punc_cache s; chunk_interval := v; vad_pre_idx := vad_pre_idx s; sent_text_length :=
  sent_text_length s; audio_buffer := audio_buffer s; stream_results := stream_results s;
  wav_name := wav_name s; mode := mode s; is_file_upload := is_file_upload s; is_speaking :=
  is_speaking s; frames := frames s; frames_asr := frames_asr s; frames_asr_online :=
  frames_asr_online s; speech_start := speech_start s; speech_end_i := speech_end_i s |}.
Definition set_vad_pre_idx (s : session) (v : Z) : session :=
  {| hotword := hotword s; asr_online := asr_online s; vad_st := vad_st s; punc_cache :=
  punc_cache s; chunk_interval := chunk_interval s; vad_pre_idx := v; sent_text_length :=
  sent_text_length s; audio_buffer := audio_buffer s; stream_results := stream_results s;
  wav_name := wav_name s; mode := mode s; is_file_upload := is_file_upload s; is_speaking :=
  is_speaking s; frames := frames s; frames_asr := frames_asr s; frames_asr_online :=
  frames_asr_online s; speech_start := speech_start s; speech_end_i := speech_end_i s |}.
Definition set_sent_text_length (s : session) (v : nat) : session :=
  {| hotword := hotword s; asr_online := asr_online s; vad_st := vad_st s; punc_cache :=
  punc_cache s; chunk_interval := chunk_interval s; vad_pre_idx := vad_pre_idx s;
  sent_text_length := v; audio_buffer := audio_buffer s; stream_results := stream_results s;
  wav_name := wav_name s; mode := mode s; is_file_upload := is_file_upload s; is_speaking :=
  is_speaking s; frames := frames s; frames_asr := frames_asr s; frames_asr_online :=
  frames_asr_online s; speech_start := speech_start s; speech_end_i := speech_end_i s |}.
Definition set_audio_buffer (s : session) (v : WssAudioBuffer.t) : session :=
  {| hotword := hotword s; asr_online := asr_online s; vad_st := vad_st s; punc_cache :=
  punc_cache s; chunk_interval := chunk_interval s; vad_pre_idx := vad_pre_idx s;
  sent_text_length := sent_text_length s; audio_buffer := v; stream_results := stream_results
  s; wav_name := wav_name s; mode := mode s; is_file_upload := is_file_upload s; is_speaking
  := is_speaking s; frames := frames s; frames_asr := frames_asr s; frames_asr_online :=
  frames_asr_online s; speech_start := speech_start s; speech_end_i := speech_end_i s |}.
Definition set_stream_results (s : session) (v : list pystr) : session :=
  {| hotword := hotword s; asr_online := asr_online s; vad_st := vad_st s; punc_cache :=
  punc_cache s; chunk_interval := chunk_interval s; vad_pre_idx := vad_pre_idx s;
  sent_text_length := sent_text_length s; audio_buffer := audio_buffer s; stream_results := v;
  wav_name := wav_name s; mode := mode s; is_file_upload := is_file_upload s; is_speaking :=
  is_speaking s; frames := frames s; frames_asr := frames_asr s; frames_asr_online :=
  frames_asr_online s; speech_start := speech_start s; speech_end_i := speech_end_i s |}.
Definition set_wav_name (s : session) (v : pystr) : session :=
  {| hotword := hotword s; asr_online := asr_online s; vad_st := vad_st s; punc_cache :=
  punc_cache s; chunk_interval := chunk_interval s; vad_pre_idx := vad_pre_idx s;
  sent_text_length := sent_text_length s; audio_buffer := audio_buffer s; stream_results :=
  stream_results s; wav_name := v; mode := mode s; is_file_upload := is_file_upload s;
  is_speaking := is_speaking s; frames := frames s; frames_asr := frames_asr s;
  frames_asr_online := frames_asr_online s; speech_start := speech_start s; speech_end_i :=
  speech_end_i s |}.
Definition set_mode (s : session) (v : pystr) : session :=
  {| hotword := hotword s; asr_online := asr_online s; vad_st := vad_st s; punc_cache :=
  punc_cache s; chunk_interval := chunk_interval s; vad_pre_idx := vad_pre_idx s;
  sent_text_length := sent_text_length s; audio_buffer := audio_buffer s; stream_results :=
  stream_results s; wav_name := wav_name s; mode := v; is_file_upload := is_file_upload s;
  is_speaking := is_speaking s; frames := frames s; frames_asr := frames_asr s;
  frames_asr_online := frames_asr_online s; speech_start := speech_start s; speech_end_i :=
  speech_end_i s |}.
Definition set_is_file_upload (s : session) (v : bool) : session :=
  {| hotword := hotword s; asr_online := asr_online s; vad_st := vad_st s; punc_cache :=
  punc_cache s; chunk_interval := chunk_interval s; vad_pre_idx := vad_pre_idx s;
  sent_text_length := sent_text_length s; audio_buffer := audio_buffer s; stream_results :=
  stream_results s; wav_name := wav_name s; mode := mode s; is_file_upload := v; is_speaking
  := is_speaking s; frames := frames s; frames_asr := frames_asr s; frames_asr_online :=
  frames_asr_online s; speech_start := speech_start s; speech_end_i := speech_end_i s |}.
Definition set_is_speaking (s : session) (v : option bool) : session :=
  {| hotword := hotword s; asr_online := asr_online s; vad_st := vad_st s; punc_cache :=
  punc_cache s; chunk_interval := chunk_interval s; vad_pre_idx := vad_pre_idx s;
  sent_text_length := sent_text_length s; audio_buffer := audio_buffer s; stream_results :=
  stream_results s; wav_name := wav_name s; mode := mode s; is_file_upload := is_file_upload
  s; is_speaking := v; frames := frames s; frames_asr := frames_asr s; frames_asr_online :=
  frames_asr_online s; speech_start := speech_start s; speech_end_i := speech_end_i s |}.
Definition set_frames (s : session) (v : list bytes) : session :=
  {| hotword := hotword s; asr_online := asr_online s; vad_st := vad_st s; punc_cache :=
  punc_cache s; chunk_interval := chunk_interval s; vad_pre_idx := vad_pre_idx s;
  sent_text_length := sent_text_length s; audio_buffer := audio_buffer s; stream_results :=
  stream_results s; wav_name := wav_name s; mode := mode s; is_file_upload := is_file_upload
  s; is_speaking := is_speaking s; frames := v; frames_asr := frames_asr s; frames_asr_online
  := frames_asr_online s; speech_start := speech_start s; speech_end_i := speech_end_i s |}.
Definition set_frames_asr (s : session) (v : list bytes) : session :=
  {| hotword := hotword s; asr_online := asr_online s; vad_st := vad_st s; punc_cache :=
  punc_cache s; chunk_interval := chunk_interval s; vad_pre_idx := vad_pre_idx s;
  sent_text_length := sent_text_length s; audio_buffer := audio_buffer s; stream_results :=
  stream_results s; wav_name := wav_name s; mode := mode s; is_file_upload := is_file_upload
  s; is_speaking := is_speaking s; frames := frames s; frames_asr := v; frames_asr_online :=
  frames_asr_online s; speech_start := speech_start s; speech_end_i := speech_end_i s |}.
Definition set_frames_asr_online (s : session) (v : list bytes) : session :=
  {| hotword := hotword s; asr_online := asr_online s; vad_st := vad_st s; punc_cache :=
  punc_cache s; chunk_interval := chunk_interval s; vad_pre_idx := vad_pre_idx s;
  sent_text_length := sent_text_length s; audio_buffer := audio_buffer s; stream_results :=
  stream_results s; wav_name := wav_name s; mode := mode s; is_file_upload := is_file_upload
  s; is_speaking := is_speaking s; frames := frames s; frames_asr := frames_asr s;
  frames_asr_online := v; speech_start := speech_start s; speech_end_i := speech_end_i s |}.
Definition set_speech_start (s : session) (v : bool) : session :=
  {| hotword := hotword s; asr_online := asr_online s; vad_st := vad_st s; punc_cache :=
  punc_cache s; chunk_interval := chunk_interval s; vad_pre_idx := vad_pre_idx s;
  sent_text_length := sent_text_length s; audio_buffer := audio_buffer s; stream_results :=
  stream_results s; wav_name := wav_name s; mode := mode s; is_file_upload := is_file_upload
  s; is_speaking := is_speaking s; frames := frames s; frames_asr := frames_asr s;
  frames_asr_online := frames_asr_online s; speech_start := v; speech_end_i := speech_end_i s
  |}.
Definition set_speech_end_i (s : session) (v : Z) : session :=
  {| hotword := hotword s; asr_online := asr_online s; vad_st := vad_st s; punc_cache :=
  punc_cache s; chunk_interval := chunk_interval s; vad_pre_idx := vad_pre_idx s;
  sent_text_length := sent_text_length s; audio_buffer := audio_buffer s; stream_results :=
  stream_results s; wav_name := wav_name s; mode := mode s; is_file_upload := is_file_upload
  s; is_speaking := is_speaking s; frames := frames s; frames_asr := frames_asr s;
  frames_asr_online := frames_asr_online s; speech_start := speech_start s; speech_end_i := v
  |}.

(** Lines 294-313. *)
Definition initial_session : session :=
  {| hotword := None;
     asr_online := {| on_cache := empty_dict M; on_is_final := false; on_chunk_size := None;
                      on_encoder_chunk_look_back := None; on_decoder_chunk_look_back := None |};
     vad_st := {| vad_cache := empty_dict M; vad_is_final := false; vad_chunk_size := None |};
     punc_cache := empty_dict M; chunk_interval := 10; vad_pre_idx := 0;
     sent_text_length := 0; audio_buffer := WssAudioBuffer.init 100; stream_results := [];
     wav_name := u"microphone"; mode := u"2pass"; is_file_upload := false;
     is_speaking := None; frames := []; frames_asr := []; frames_asr_online := [];
     speech_start := false; speech_end_i := -1 |}.

End WithModels.

(** The world of a connection and its handlers: [Handler] over the
    session. *)
Abbreviation world Cache := (Handler.world (session (Cache := Cache))).
Abbreviation handler Cache := (Handler.handler (session (Cache := Cache))).

Local Open Scope handler_scope.

(** [merge_stream_results] (lines 232-247): the stripped non-empty texts,
    joined. *)
Definition merge_stream_results (stream_results : list pystr) : pystr :=
  concat (map py_strip (filter (fun t => negb (bool_decide (t = []))) stream_results)).

(** The ["chunk_size"] value as a list of ints (lines 332-335). *)
Definition chunk_size_ints (v : chunk_size_value) : raises (list Z) :=
  match v with
  | CSList l => Ret l
  | CSString s => py_map_raises py_int_of_str (py_split 44 s)
  end.

Definition set_online_is_final {Cache} (st : online_status Cache) (b : bool) : online_status Cache :=
  {| on_cache := on_cache st; on_is_final := b; on_chunk_size := on_chunk_size st;
     on_encoder_chunk_look_back := on_encoder_chunk_look_back st;
     on_decoder_chunk_look_back := on_decoder_chunk_look_back st |}.

Definition set_online_cache {Cache} (st : online_status Cache) (c : Cache) : online_status Cache :=
  {| on_cache := c; on_is_final := on_is_final st; on_chunk_size := on_chunk_size st;
     on_encoder_chunk_look_back := on_encoder_chunk_look_back st;
     on_decoder_chunk_look_back := on_decoder_chunk_look_back st |}.

Definition set_online_chunk_size {Cache} (st : online_status Cache) (l : list Z) : online_status Cache :=
  {| on_cache := on_cache st; on_is_final := on_is_final st; on_chunk_size := Some l;
     on_encoder_chunk_look_back := on_encoder_chunk_look_back st;
     on_decoder_chunk_look_back := on_decoder_chunk_look_back st |}.

Definition set_online_look_back {Cache} (st : online_status Cache) (enc dec : option Z)
  : online_status Cache :=
  {| on_cache := on_cache st; on_is_final := on_is_final st; on_chunk_size := on_chunk_size st;
     on_encoder_chunk_look_back := enc; on_decoder_chunk_look_back := dec |}.

Definition set_vad_fields {Cache} (st : vad_status Cache) (c : Cache) (cs : option Z) : vad_status Cache :=
  {| vad_cache := c; vad_is_final := vad_is_final st; vad_chunk_size := cs |}.

(** [send_final_result] (lines 250-265). *)
Definition final_message (wav_name text mode : pystr) : out_msg :=
  {| o_mode := mode; o_text := text; o_wav_name := wav_name; o_is_final := true;
     o_timestamp := true |}.

Section Handlers.
Context {Cache : Type} (M : models Cache).

Abbreviation handler := (handler Cache).
Abbreviation session := (session (Cache := Cache)).

(** [await async_asr(websocket, audio_in)] *)
Definition call_async_asr (audio_in : bytes) : handler unit :=
  s <-- h_get ;; g <-- h_get_gpu ;;
  let '(outs, g', pc') := async_asr M g (hotword s) (punc_cache s) (mode s) (wav_name s) audio_in in
  h_set_gpu g' ;;; h_modify (fun s => set_punc_cache s pc') ;;; h_send outs.

(** [await async_asr_online(websocket, audio_in)] *)
Definition call_async_asr_online (audio_in : bytes) : handler (option pystr) :=
  s <-- h_get ;;
  r <-- h_lift (async_asr_online M (asr_online s) (sent_text_length s) (mode s) (wav_name s) audio_in) ;;
  let '(res, st', sent', outs) := r in
  h_modify (fun s => set_sent_text_length (set_asr_online s st') sent') ;;;
  h_send outs ;;; h_ret res.

(** Lines 350-372: on [upload_complete] in file-upload mode, recognise
    what is left in the buffer, send the merged stream results, and clear
    the buffer and the results. *)
Definition upload_complete : handler unit :=
  s <-- h_get ;;
  when (is_file_upload s) (
    let remaining_data := wss_get_unprocessed_data (audio_buffer s) in
    when (negb (bool_decide (remaining_data = []))) (h_catch (call_async_asr remaining_data)) ;;;
    s <-- h_get ;;
    when (negb (bool_decide (stream_results s = []))) (
      let final_text := merge_stream_results (stream_results s) in
      when (negb (bool_decide (final_text = [])))
        (h_send [final_message (wav_name s) final_text (u"upload-complete")])) ;;;
    h_modify (fun s => set_stream_results (set_audio_buffer s (wss_clear (audio_buffer s))) [])).

(** Lines 319-372: the recognised keys, in the order the source tests them. *)
Definition handle_control (c : control) : handler unit :=
  match c_is_speaking c with
  | Some v => h_modify (fun s =>
      let s := set_is_speaking s (Some v) in
      let s := set_asr_online s (set_online_is_final (asr_online s) (negb v)) in
      if v then set_sent_text_length s 0 else s)
  | None => skip
  end ;;;
  match c_chunk_interval c with Some v => h_modify (fun s => set_chunk_interval s v) | None => skip end ;;;
  match c_wav_name c with Some v => h_modify (fun s => set_wav_name s v) | None => skip end ;;;
  match c_chunk_size c with
  | Some v => l <-- h_lift (chunk_size_ints v) ;;
              h_modify (fun s => set_asr_online s (set_online_chunk_size (asr_online s) l))
  | None => skip
  end ;;;
  match c_encoder_chunk_look_back c with
  | Some v => h_modify (fun s => set_asr_online s (set_online_look_back (asr_online s) (Some v)
                          (on_decoder_chunk_look_back (asr_online s))))
  | None => skip
  end ;;;
  match c_decoder_chunk_look_back c with
  | Some v => h_modify (fun s => set_asr_online s (set_online_look_back (asr_online s)
                          (on_encoder_chunk_look_back (asr_online s)) (Some v)))
  | None => skip
  end ;;;
  match c_hotwords c with Some v => h_modify (fun s => set_hotword s (Some v)) | None => skip end ;;;
  match c_mode c with Some v => h_modify (fun s => set_mode s v) | None => skip end ;;;
  match c_is_file_upload c with Some v => h_modify (fun s => set_is_file_upload s v) | None => skip end ;;;
  when (c_upload_complete c) upload_complete.

(** Lines 374-376: [status_dict_vad["chunk_size"] =
    int(status_dict_asr_online["chunk_size"][1] * 60 / chunk_interval)]. *)
Definition update_vad_chunk_size : handler unit :=
  s <-- h_get ;;
  cs1 <-- h_lift (match on_chunk_size (asr_online s) with
                  | None => Exc (u"KeyError: 'chunk_size'")
                  | Some l => match nth_error l 1 with
                              | Some x => Ret x
                              | None => Exc (u"IndexError: list index out of range")
                              end
                  end) ;;
  v <-- h_lift (py_int_truediv (cs1 * 60) (chunk_interval s)) ;;
  h_modify (fun s => set_vad_st s (set_vad_fields (vad_st s) (vad_cache (vad_st s)) (Some v))).

Definition fifty_mib : Z := 50 * 1024 * 1024.

(** Lines 424-427: the frames put in front of a segment when the VAD
    reports its start: [beg_bias = (vad_pre_idx - speech_start_i) //
    duration_ms], then [frames[-beg_bias:]]. *)
Definition speech_look_back (frames : list bytes) (vad_pre_idx speech_start_i duration_ms : Z)
  : raises (list bytes) :=
  beg_bias <- py_floordiv (vad_pre_idx - speech_start_i) duration_ms ;;
  Ret (py_slice_from frames (- beg_bias)).

(** [websocket.is_speaking], which raises until a control frame set it. *)
Definition get_is_speaking : handler bool :=
  s <-- h_get ;;
  match is_speaking s with
  | Some b => h_ret b
  | None => h_raise (u"AttributeError: 'is_speaking'")
  end.

(** [duration_ms = len(message) // 32] (line 380). *)
Definition duration_of (message : bytes) : Z := Z.of_nat (length message) / 32.

(** Lines 379-388: the frame is recorded, the audio index advanced and the
    frame buffered; a buffer over 50 MiB empties the GPU cache. *)
Definition buffer_audio (message : bytes) : handler unit :=
  h_modify (fun s => set_frames s (frames s ++ [message])) ;;;
  h_modify (fun s => set_vad_pre_idx s (vad_pre_idx s + duration_of message)) ;;;
  h_modify (fun s => set_audio_buffer s (wss_add_chunk (audio_buffer s) message)) ;;;
  s <-- h_get ;;
  when (fifty_mib <? Z.of_nat (wss_get_buffer_size (audio_buffer s)))
    (g <-- h_get_gpu ;; h_set_gpu (clear_gpu_memory (empty_cache M) g)).

(** Lines 391-408: the online pass every [chunk_interval] frames, or at
    once when the previous frame ended a segment. *)
Definition online_pass (message : bytes) : handler unit :=
  h_modify (fun s => set_frames_asr_online s (frames_asr_online s ++ [message])) ;;;
  h_modify (fun s => set_asr_online s
              (set_online_is_final (asr_online s) (negb (speech_end_i s =? -1)))) ;;;
  s <-- h_get ;;
  r <-- h_lift (py_mod (Z.of_nat (length (frames_asr_online s))) (chunk_interval s)) ;;
  when ((r =? 0) || on_is_final (asr_online s)) (
    when (bool_decide (mode s = u"2pass") || bool_decide (mode s = u"online")) (
      h_catch (
        result <-- call_async_asr_online (concat (frames_asr_online s)) ;;
        s <-- h_get ;;
        match result with
        | Some t => when (is_file_upload s)
                      (h_modify (fun s => set_stream_results s (stream_results s ++ [t])))
        | None => skip
        end)) ;;;
    h_modify (fun s => set_frames_asr_online s [])).

(** Lines 411-417: in file-upload mode the frame joins the offline segment
    and is marked processed; during speech it joins the segment (again). *)
Definition collect_offline (message : bytes) : handler unit :=
  s <-- h_get ;;
  when (is_file_upload s)
    (h_modify (fun s => set_audio_buffer (set_frames_asr s (frames_asr s ++ [message]))
                          (wss_mark_processed (audio_buffer s) (length message)))) ;;;
  s <-- h_get ;;
  when (speech_start s) (h_modify (fun s => set_frames_asr s (frames_asr s ++ [message]))).

(** Lines 418-427: the VAD call; a reported start opens a segment with the
    look-back frames. *)
Definition detect_speech (message : bytes) : handler unit :=
  s <-- h_get ;;
  let '((speech_start_i, speech_end_i'), vst) := async_vad M (vad_st s) message in
  h_modify (fun s => set_speech_end_i (set_vad_st s vst) speech_end_i') ;;;
  when (negb (speech_start_i =? -1)) (
    h_modify (fun s => set_speech_start s true) ;;;
    s <-- h_get ;;
    frames_pre <-- h_lift (speech_look_back (frames s) (vad_pre_idx s) speech_start_i
                                            (duration_of message)) ;;
    h_modify (fun s => set_frames_asr s frames_pre)).

(** Lines 378-427: a binary frame. *)
Definition handle_audio (message : bytes) : handler unit :=
  buffer_audio message ;;; online_pass message ;;; collect_offline message ;;;
  detect_speech message.

(** Lines 429-451: the end of a segment, or any frame while the client is
    not speaking, runs the offline pass on [frames_asr] and resets the
    segment; when the client is not speaking it also resets the caches. *)
Definition handle_segment_end : handler unit :=
  s <-- h_get ;;
  cond <-- (if negb (speech_end_i s =? -1) then h_ret true
            else sp <-- get_is_speaking ;; h_ret (negb sp)) ;;
  when cond (
    s <-- h_get ;;
    when (bool_decide (mode s = u"2pass") || bool_decide (mode s = u"offline"))
      (h_catch (call_async_asr (concat (frames_asr s)))) ;;;
    h_modify (fun s => set_frames_asr_online (set_speech_start (set_frames_asr s []) false) []) ;;;
    sp <-- get_is_speaking ;;
    if negb sp then
      h_modify (fun s =>
        let s := set_frames (set_vad_pre_idx s 0) [] in
        let s := set_vad_st s (set_vad_fields (vad_st s) (empty_dict M) (vad_chunk_size (vad_st s))) in
        set_asr_online s (set_online_cache (asr_online s) (empty_dict M)))
    else h_modify (fun s => set_frames s (py_slice_from (frames s) (-20)))).

(** One iteration of [async for message in websocket] (lines 318-451);
    the test of line 377 always holds. *)
Definition ws_serve_frame (f : frame) : handler unit :=
  match f with
  | Text None => h_raise (u"JSONDecodeError")
  | Text (Some c) => handle_control c
  | Binary _ => skip
  end ;;;
  update_vad_chunk_size ;;;
  match f with
  | Binary message => handle_audio message
  | Text _ => skip
  end ;;;
  handle_segment_end.

(** The connection after a frame: still served, or ended by an exception. *)
Inductive status :=
| Serving (s : session)
| Ended (s : session) (e : pystr).

(** One frame, with the loop's [except Exception] handler (lines 478-483):
    the buffer is cleared and [ws_serve] returns. *)
Definition ws_step (s : session) (g : gpu) (f : frame) : status * gpu * list out_msg :=
  let '(r, w) := ws_serve_frame f {| w_session := s; w_gpu := g; w_sent := [] |} in
  match r with
  | Ret _ => (Serving (w_session w), w_gpu w, w_sent w)
  | Exc e => (Ended (set_audio_buffer (w_session w) (wss_clear (audio_buffer (w_session w)))) e,
              w_gpu w, w_sent w)
  end.

(** [ws_reset] (lines 274-284) without the socket close. *)
Definition ws_reset (s : session) : session :=
  let s := set_asr_online s (set_online_is_final (set_online_cache (asr_online s) (empty_dict M)) true) in
  let s := set_vad_st s {| vad_cache := empty_dict M; vad_is_final := true;
                           vad_chunk_size := vad_chunk_size (vad_st s) |} in
  set_punc_cache s (empty_dict M).

(** The [ConnectionClosed] handler (lines 453-470): the merged stream
    results are sent as ["stream-final"] if any (the socket is closed, so
    the send is only attempted), then the buffer is cleared and the
    session reset. *)
Definition ws_close (s : session) : session * list out_msg :=
  let final_text := merge_stream_results (stream_results s) in
  let attempted := if bool_decide (stream_results s = []) || bool_decide (final_text = [])
                   then [] else [final_message (wav_name s) final_text (u"stream-final")] in
  (ws_reset (set_audio_buffer s (wss_clear (audio_buffer s))), attempted).

End Handlers.

(** ** Invariants of the session *)

Section Frames.
Context {Cache : Type} (M : models Cache).
Abbreviation session := (session (Cache := Cache)).
Abbreviation handler := (handler Cache).

(** A frame whose ["mode"], if it has one, is a mode of spec section 4. *)
Definition frame_mode_ok (f : frame) : Prop :=
  match f with
  | Text (Some c) => forall v, c_mode c = Some v -> v ∈ session_modes
  | _ => True
  end.

(** The session's mode is one of spec section 4 and every message sent
    so far has a mode of spec section 6. *)
Definition out_ok (w : world Cache) : Prop :=
  mode (w_session w) ∈ session_modes /\ Forall msg_ok (w_sent w).

(** What [ws_serve_frame] establishes when it returns holds of the
    session [ws_step] keeps serving, and the messages it sent. *)
Lemma ws_step_serving f s g (Q : session -> list out_msg -> Prop) :
  wp (ws_serve_frame M f) (fun _ w => Q (w_session w) (w_sent w)) (fun _ => True)
     {| w_session := s; w_gpu := g; w_sent := [] |} ->
  forall s' g' out, ws_step M s g f = (Serving s', g', out) -> Q s' out.
Proof.
  unfold wp, ws_step. destruct (ws_serve_frame M f _) as [[]]; [|done].
  intros H s' g' out [= <- _ <-]. exact H.
Qed.

(** A frame from which [ws_serve_frame] cannot raise is served. *)
Lemma ws_step_total f s g (Q : session -> Prop) :
  wp (ws_serve_frame M f) (fun _ w => Q (w_session w)) (fun _ => False)
     {| w_session := s; w_gpu := g; w_sent := [] |} ->
  exists s' g' out, ws_step M s g f = (Serving s', g', out) /\ Q s'.
Proof. unfold wp, ws_step. destruct (ws_serve_frame M f _) as [[]]; [eauto | done]. Qed.

(** A frame from which [ws_serve_frame] cannot return ends the session. *)
Lemma ws_step_ends f s g :
  wp (ws_serve_frame M f) (fun _ _ => False) (fun _ => True)
     {| w_session := s; w_gpu := g; w_sent := [] |} ->
  exists s' e g' out, ws_step M s g f = (Ended s' e, g', out).
Proof. unfold wp, ws_step. destruct (ws_serve_frame M f _) as [[]]; [done | eauto]. Qed.

(** The audio frames [ms] served one after the other on one connection
    (the [async for] loop of line 318 on binary frames), until one ends
    it: the last status, the GPU state and the messages sent. *)
Fixpoint ws_steps (s : session) (g : gpu) (ms : list bytes) : status * gpu * list out_msg :=
  match ms with
  | [] => (Serving s, g, [])
  | m :: ms' =>
      match ws_step M s g (Binary m) with
      | (Serving s', g', out) => let '(r, g'', out') := ws_steps s' g' ms' in (r, g'', out ++ out')
      | r => r
      end
  end.

(** A control frame without ["chunk_size"] leaves the chunk size alone. *)
Lemma handle_control_chunk_size c cs :
  c_chunk_size c = None ->
  keeps (fun s : session => on_chunk_size (asr_online s) = cs) (handle_control M c).
Proof.
  intros Hc. unfold handle_control. rewrite Hc.
  repeat (apply keeps_bind; [|intros ?]); intros w Hw;
    unfold upload_complete, call_async_asr in *; wp_exec; repeat case_match; simpl in *; done.
Qed.

(** From a session with no chunk size, a frame that does not set one
    raises. *)
Lemma update_vad_chunk_size_unconfigured {A} (k : handler A) w :
  on_chunk_size (asr_online (w_session w)) = None ->
  wp (update_vad_chunk_size (Cache := Cache) ;;; k) (fun _ _ => False) (fun _ => True) w.
Proof.
  intros Hn. apply wp_bind. unfold update_vad_chunk_size.
  apply wp_bind, wp_get, wp_bind, wp_lift. by rewrite Hn.
Qed.

Lemma serve_frame_unconfigured f w :
  on_chunk_size (asr_online (w_session w)) = None ->
  match f with Text (Some c) => c_chunk_size c = None | _ => True end ->
  wp (ws_serve_frame M f) (fun _ _ => False) (fun _ => True) w.
Proof.
  intros Hn Hf. unfold ws_serve_frame. destruct f as [[c|]|b].
  - eapply wp_seq; [by apply (handle_control_chunk_size c None Hf) | done |].
    intros a w' Hw'. by apply update_vad_chunk_size_unconfigured.
  - apply wp_bind. by apply wp_raise.
  - apply wp_bind, wp_ret. by apply update_vad_chunk_size_unconfigured.
Qed.

(** The configuration a frame needs: the chunk size, the chunk interval and
    the speaking flag. *)
Definition config_of (s : session) : option (list Z) * Z * option bool :=
  (on_chunk_size (asr_online s), chunk_interval s, is_speaking s).

Ltac close_frame :=
  repeat case_match; simpl in *;
  repeat match goal with
  | E : async_asr_online _ _ _ _ _ _ = Ret _ |- _ =>
      apply async_asr_online_status in E; destruct E as [? ->]
  end; simpl in *; try done.

Ltac keeps_exec :=
  repeat (apply keeps_bind; [|intros ?]); intros ? ?; wp_exec; close_frame.

Lemma handle_audio_config msg x : keeps (fun s => config_of s = x) (handle_audio M msg).
Proof.
  unfold handle_audio, buffer_audio, online_pass, call_async_asr_online, collect_offline,
    detect_speech.
  keeps_exec.
Qed.

Lemma handle_segment_end_config w cs ci sp :
  config_of (w_session w) = (cs, ci, sp) ->
  wp (handle_segment_end M) (fun _ w' => config_of (w_session w') = (cs, ci, sp) /\ sp <> None)
     (fun _ => True) w.
Proof.
  intros Hw. unfold config_of in *.
  unfold handle_segment_end, get_is_speaking, call_async_asr. wp_exec; close_frame;
    simplify_eq; (split; congruence).
Qed.

(** A frame that returns normally leaves the session configured. *)
Definition configured (s : session) : Prop :=
  (exists l, on_chunk_size (asr_online s) = Some l /\ (2 <= length l)%nat)
  /\ chunk_interval s <> 0 /\ is_speaking s <> None.

Lemma update_vad_chunk_size_configured w :
  wp (update_vad_chunk_size (Cache := Cache))
     (fun _ w' => config_of (w_session w') = config_of (w_session w) /\
                  (exists l x, on_chunk_size (asr_online (w_session w)) = Some l /\
                               nth_error l 1 = Some x) /\ chunk_interval (w_session w) <> 0)
     (fun _ => True) w.
Proof.
  unfold update_vad_chunk_size, py_int_truediv. wp_exec; close_frame.
  zbool. split; [done|]. split; [|done]. eauto.
Qed.

(** C28: every frame the session survives leaves it configured: a chunk
    size with at least two entries, a nonzero chunk interval, and the
    speaking flag set.  A session missing any of them ends on its next
    frame unless that frame supplies it. *)
Theorem ws_step_configured s g f s' g' out :
  ws_step M s g f = (Serving s', g', out) -> configured s'.
Proof.
  intros Hst. refine (ws_step_serving f s g (fun s' _ => configured s') _ s' g' out Hst).
  unfold ws_serve_frame.
  eapply wp_seq; [apply wp_trivial | done | intros a w1 _].
  eapply wp_seq; [apply update_vad_chunk_size_configured | done |].
  intros a0 w2 (Hc & (l & x & Hl & Hx) & Hi).
  destruct (config_of (w_session w2)) as [[cs ci] sp] eqn:E2.
  eapply wp_seq with (P := fun _ w3 => config_of (w_session w3) = (cs, ci, sp))
                     (E' := fun _ => True); [| done |].
  - destruct f as [|m]; [by apply wp_ret|].
    eapply wp_mono; [apply (handle_audio_config m _ w2 E2) | done | done].
  - intros a1 w3 H3. eapply wp_mono; [by apply handle_segment_end_config | | done].
    intros a2 w4 [H4 Hsp]. unfold configured, config_of in *. simplify_eq.
    repeat split; [|congruence|congruence]. exists l. split; [congruence|].
    assert (nth_error l 1 <> None) as Hn by congruence. apply nth_error_Some in Hn. lia.
Qed.

(** The look-back when the VAD reports a speech start [k >= 1]
    whole frames back: the last [k] frames (all of them when fewer). *)
Theorem speech_look_back_frames fr idx st d :
  0 < d -> d <= idx - st ->
  speech_look_back fr idx st d
  = Ret (drop (length fr - Z.to_nat ((idx - st) / d)) fr).
Proof.
  intros Hd Hk. unfold speech_look_back, py_floordiv.
  destruct (Z.eqb_spec d 0); [lia|]. simpl.
  assert (1 <= (idx - st) / d) by (apply Z.div_le_lower_bound; lia).
  unfold py_slice_from. rewrite py_start_neg by lia.
  destruct (Z.eqb_spec ((idx - st) / d) 0); [lia | done].
Qed.

(** C30: when the speech start lies within the current frame
    ([0 <= vad_pre_idx - start < duration_ms]), [beg_bias] is 0 and
    [frames[-0:]] is the whole frame history, so the segment starts with
    every frame kept since the last full stop (up to 20 after a segment
    end, unboundedly many otherwise) instead of the current frame. *)
Theorem speech_look_back_zero_bias fr idx st d :
  0 < d -> 0 <= idx - st < d -> speech_look_back fr idx st d = Ret fr.
Proof.
  intros Hd Hk. unfold speech_look_back, py_floordiv.
  destruct (Z.eqb_spec d 0); [lia|]. simpl.
  rewrite Z.div_small by lia. done.
Qed.

(** C27: a session whose first frame is audio, invalid JSON, or a control
    frame without ["chunk_size"] ends on that frame: line 374 reads
    [status_dict_asr_online["chunk_size"]] for every frame.  The client
    of src/test/test.py, whose first frame is
    [{"mode": "2pass", "is_speaking": True}], is in this case. *)
Theorem first_frame_needs_chunk_size g f :
  match f with Text (Some c) => c_chunk_size c = None | _ => True end ->
  exists s' e g' out, ws_step M (initial_session M) g f = (Ended s' e, g', out).
Proof.
  intros Hf. apply ws_step_ends, serve_frame_unconfigured; [reflexivity | exact Hf].
Qed.

(** What the offline pass of a segment end reads, and what it sent. *)
Definition segment_view (s : session) : pystr * pystr * list bytes * Z :=
  (mode s, wav_name s, frames_asr s, speech_end_i s).

(** A control frame that sets neither the mode nor the wav name nor
    completes an upload sends nothing and leaves [segment_view] alone. *)
Lemma handle_control_quiet c v n :
  c_mode c = None -> c_wav_name c = None -> c_upload_complete c = false ->
  keeps_w (fun w => segment_view (w_session w) = v /\ w_sent w = n) (handle_control M c).
Proof.
  intros Hm Hw Hu. unfold handle_control. rewrite Hm, Hw, Hu.
  repeat (apply keeps_w_bind; [|intros ?]); intros ? ?; unfold segment_view in *;
    wp_exec; close_frame.
Qed.

Lemma update_vad_chunk_size_quiet v n :
  keeps_w (fun w => segment_view (w_session w) = v /\ w_sent w = n)
    (update_vad_chunk_size (Cache := Cache)).
Proof.
  unfold update_vad_chunk_size.
  repeat (apply keeps_w_bind; [|intros ?]); intros ? ?; unfold segment_view in *;
    wp_exec; close_frame.
Qed.

(** After a segment end has been seen, [handle_segment_end] runs the
    offline pass on the empty segment: one empty-text message. *)
Lemma handle_segment_end_repeat w :
  speech_end_i (w_session w) <> -1 -> frames_asr (w_session w) = [] ->
  mode (w_session w) = u"2pass" ->
  wp (handle_segment_end M)
     (fun _ w' => w_sent w' = w_sent w ++ [offline_message (u"2pass") (wav_name (w_session w)) []]
                  /\ segment_view (w_session w') = segment_view (w_session w))
     (fun _ => True) w.
Proof.
  intros He Hf Hm. unfold handle_segment_end, get_is_speaking, call_async_asr, async_asr.
  wp_exec; close_frame; rewrite ?Hf, ?Hm in *; simpl in *; simplify_eq; try done;
    try (destruct (Z.eqb_spec (speech_end_i (w_session w)) (-1)); simpl in *; congruence).
  all: split; [done | unfold segment_view; simpl; by rewrite Hf].
Qed.

(** C31: [speech_end_i] is never reset after the offline pass (lines
    419 and 429): once a segment end has been seen, a later control frame
    (one that changes neither the mode, the wav name nor completes an
    upload) reruns the offline pass on the empty segment and sends an
    empty-text ["2pass-offline"] message, and leaves the session in a
    state where the next such frame does the same again. *)
Theorem offline_pass_repeats s g c s' g' out :
  speech_end_i s <> -1 -> frames_asr s = [] -> mode s = u"2pass" ->
  c_mode c = None -> c_wav_name c = None -> c_upload_complete c = false ->
  ws_step M s g (Text (Some c)) = (Serving s', g', out) ->
  out = [offline_message (u"2pass") (wav_name s) []] /\ segment_view s' = segment_view s.
Proof.
  intros He Hf Hm Hcm Hcw Hcu Hst.
  refine (ws_step_serving _ s g (fun s' out => out = [offline_message (u"2pass") (wav_name s) []]
                                  /\ segment_view s' = segment_view s) _ s' g' out Hst).
  unfold ws_serve_frame.
  eapply wp_seq; [by apply (handle_control_quiet c (segment_view s) [] Hcm Hcw Hcu) | done |].
  intros a1 w1 H1.
  eapply wp_seq; [by apply (update_vad_chunk_size_quiet _ _ w1 H1) | done |].
  intros a2 w2 [H2 H2']. apply wp_bind, wp_ret.
  unfold segment_view in H2. simplify_eq.
  eapply wp_mono; [apply handle_segment_end_repeat; congruence | | done].
  intros a3 w3 [-> Hv]. unfold segment_view in *. rewrite H2'. split; [by rewrite H3 | congruence].
Qed.

(** Merging a list of stream results gives text only if one of them is
    non-empty. *)
Lemma merge_stream_results_nil_inv rs : merge_stream_results rs <> [] -> rs <> [].
Proof. by intros H ->. Qed.

(** C32: scenario D of the specification: [upload_complete] in upload
    mode, with unprocessed bytes in the buffer and stream results whose
    merge is not empty, runs the offline pass once on exactly the
    unprocessed bytes, then sends one ["upload-complete"] message with
    the merged text, then clears the buffer and the results. *)
Theorem upload_complete_scenario_D w :
  is_file_upload (w_session w) = true ->
  wss_get_unprocessed_data (audio_buffer (w_session w)) <> [] ->
  merge_stream_results (stream_results (w_session w)) <> [] ->
  upload_complete M w =
  let s := w_session w in
  let '(outs, g', pc') := async_asr M (w_gpu w) (hotword s) (punc_cache s) (mode s) (wav_name s)
                            (wss_get_unprocessed_data (audio_buffer s)) in
  (Ret tt,
   {| w_session := set_stream_results
                     (set_audio_buffer (set_punc_cache s pc') (wss_clear (audio_buffer s))) [];
      w_gpu := g';
      w_sent := w_sent w ++ outs ++ [final_message (wav_name s) (merge_stream_results (stream_results s))
                                      (u"upload-complete")] |}).
Proof.
  intros Hu Hr Hm. pose proof (merge_stream_results_nil_inv _ Hm) as Hs.
  destruct w as [s g sent]; simpl in *.
  unfold upload_complete, call_async_asr, when, h_bind, h_get, h_get_gpu, h_catch; simpl.
  rewrite Hu, bool_decide_false by done; simpl.
  destruct (async_asr M g (hotword s) (punc_cache s) (mode s) (wav_name s) _) as [[outs g'] pc'].
  simpl. rewrite !bool_decide_false by done. simpl. by rewrite app_assoc.
Qed.

(** A wss buffer all of whose bytes are marked processed. *)
Definition drained (b : WssAudioBuffer.t) : Prop := (length (buffer b) <= processed_size b)%nat.

Lemma drained_unprocessed b : drained b -> wss_get_unprocessed_data b = [].
Proof.
  unfold drained, wss_get_unprocessed_data. intros H.
  destruct (buffer b); [done|]. by apply drop_ge.
Qed.

(** Adding a frame and marking its length processed keeps the buffer
    drained, whether or not [add_chunk] trims it. *)
Lemma drained_add_mark b m : drained b -> drained (wss_mark_processed (wss_add_chunk b m) (length m)).
Proof.
  unfold drained, wss_mark_processed, wss_add_chunk. intros H.
  case_if; simpl; rewrite ?length_drop, length_app; lia.
Qed.

(** The fields the upload path reads: the buffer, the upload flag and
    the chunk interval. *)
Definition upload_view (s : session) : WssAudioBuffer.t * bool * Z :=
  (audio_buffer s, is_file_upload s, chunk_interval s).

Lemma online_pass_upload_view m x : keeps (fun s => upload_view s = x) (online_pass M m).
Proof. unfold online_pass, call_async_asr_online, upload_view. keeps_exec. Qed.

Lemma detect_speech_upload_view m x : keeps (fun s => upload_view s = x) (detect_speech M m).
Proof. unfold detect_speech, upload_view. keeps_exec. Qed.

Lemma handle_audio_drains m w :
  is_file_upload (w_session w) = true -> drained (audio_buffer (w_session w)) ->
  wp (handle_audio M m)
     (fun _ w' => is_file_upload (w_session w') = true /\ drained (audio_buffer (w_session w')))
     (fun _ => True) w.
Proof.
  intros Hu Hd. unfold handle_audio.
  eapply wp_seq with
    (P := fun _ w1 => upload_view (w_session w1) =
                      (wss_add_chunk (audio_buffer (w_session w)) m, true, chunk_interval (w_session w)))
    (E' := fun _ => True); [| done |].
  { unfold buffer_audio, upload_view. wp_exec; close_frame; by rewrite Hu. }
  intros a1 w1 H1.
  eapply wp_seq; [by apply (online_pass_upload_view m _ w1 H1) | done |].
  intros a2 w2 H2.
  eapply wp_seq with
    (P := fun _ w3 => upload_view (w_session w3) =
            (wss_mark_processed (wss_add_chunk (audio_buffer (w_session w)) m) (length m), true,
             chunk_interval (w_session w)))
    (E' := fun _ => True); [| done |].
  { unfold collect_offline, upload_view in *. simplify_eq. wp_exec; close_frame; congruence. }
  intros a3 w3 H3.
  eapply wp_mono; [by apply (detect_speech_upload_view m _ w3 H3) | | done].
  intros a4 w4 H4. unfold upload_view in H4. simplify_eq. split; [done|].
  match goal with H : audio_buffer _ = _ |- _ => rewrite H end. by apply drained_add_mark.
Qed.

Lemma update_vad_chunk_size_upload_view x :
  keeps (fun s => upload_view s = x) (update_vad_chunk_size (Cache := Cache)).
Proof. unfold update_vad_chunk_size, upload_view. keeps_exec. Qed.

Lemma handle_segment_end_upload_view x : keeps (fun s => upload_view s = x) (handle_segment_end M).
Proof. unfold handle_segment_end, get_is_speaking, call_async_asr, upload_view. keeps_exec. Qed.

(** In upload mode with nothing unprocessed, a served audio frame keeps
    upload mode and leaves nothing unprocessed. *)
Lemma upload_frame_drained s g m s' g' out :
  is_file_upload s = true -> drained (audio_buffer s) ->
  ws_step M s g (Binary m) = (Serving s', g', out) ->
  is_file_upload s' = true /\ drained (audio_buffer s').
Proof.
  intros Hu Hd Hst.
  refine (ws_step_serving _ s g (fun s' _ => is_file_upload s' = true /\ drained (audio_buffer s'))
            _ s' g' out Hst).
  unfold ws_serve_frame. apply wp_bind, wp_ret.
  eapply wp_seq; [by apply (update_vad_chunk_size_upload_view (upload_view s)) | done |].
  intros a1 w1 H1. unfold upload_view in H1. simplify_eq.
  eapply wp_seq; [by apply handle_audio_drains; congruence | done |].
  intros a2 w2 [H2 H2'].
  eapply wp_mono; [by apply (handle_segment_end_upload_view (upload_view (w_session w2))) | | done].
  intros a3 w3 H3. unfold upload_view in H3. simplify_eq. split; congruence.
Qed.

(** C33: in upload mode, once the buffer holds nothing unprocessed (as
    on a connection that switches [is_file_upload] on before sending any
    audio), every audio frame is marked processed as soon as it is
    buffered (line 414): after any sequence of audio frames served the
    buffer still holds nothing unprocessed, so the [upload_complete]
    flush of scenario D (C32) finds [remaining_data] empty and never runs
    its offline pass.  Audio sent before upload mode was switched on is
    not drained, and there the flush does run. *)
Theorem upload_frames_leave_nothing_unprocessed s g ms s' g' out :
  is_file_upload s = true -> drained (audio_buffer s) ->
  ws_steps s g ms = (Serving s', g', out) ->
  wss_get_unprocessed_data (audio_buffer s') = [] /\ drained (audio_buffer s').
Proof.
  revert s g out. induction ms as [|m ms IH]; intros s g out Hu Hd Hst; cbn [ws_steps] in Hst.
  - simplify_eq. split; [by apply drained_unprocessed | done].
  - destruct (ws_step M s g (Binary m)) as [[[s1|s1 e] g1] o1] eqn:E; [|discriminate].
    destruct (upload_frame_drained s g m s1 g1 o1 Hu Hd E) as [Hu1 Hd1].
    destruct (ws_steps s1 g1 ms) as [[r g2] o2] eqn:E2. simplify_eq. by eapply IH.
Qed.

(** What the segment collection reads and writes. *)
Definition segment_frames_view (s : session) : list bytes * bool * bool * option bool :=
  (frames_asr s, speech_start s, is_file_upload s, is_speaking s).

Lemma update_vad_chunk_size_frames_view x :
  keeps (fun s => segment_frames_view s = x) (update_vad_chunk_size (Cache := Cache)).
Proof. unfold update_vad_chunk_size, segment_frames_view. keeps_exec. Qed.

Lemma buffer_audio_frames_view m x : keeps (fun s => segment_frames_view s = x) (buffer_audio M m).
Proof. unfold buffer_audio, segment_frames_view. keeps_exec. Qed.

Lemma online_pass_frames_view m x : keeps (fun s => segment_frames_view s = x) (online_pass M m).
Proof. unfold online_pass, call_async_asr_online, segment_frames_view. keeps_exec. Qed.

(** A frame in which the VAD reports no boundary leaves the segment alone
    and records that no segment ended. *)
Lemma detect_speech_no_boundary m w :
  (forall st, fst (async_vad M st m) = (-1, -1)) ->
  wp (detect_speech M m)
     (fun _ w' => segment_frames_view (w_session w') = segment_frames_view (w_session w)
                  /\ speech_end_i (w_session w') = -1) (fun _ => True) w.
Proof.
  intros Hv. specialize (Hv (vad_st (w_session w))). unfold detect_speech.
  wp_exec; close_frame; simplify_eq; simpl in *; try discriminate; by split.
Qed.

(** While speaking, with no segment end, [handle_segment_end] does nothing. *)
Lemma handle_segment_end_idle w :
  speech_end_i (w_session w) = -1 -> is_speaking (w_session w) = Some true ->
  wp (handle_segment_end M) (fun _ w' => w' = w) (fun _ => False) w.
Proof.
  intros He Hs. unfold handle_segment_end, get_is_speaking.
  wp_exec; rewrite ?He, ?Hs in *; simplify_eq; simpl in *; try discriminate; done.
Qed.

(** In upload mode during speech, [collect_offline] appends the frame to
    the segment twice. *)
Lemma collect_offline_upload_speaking m w :
  is_file_upload (w_session w) = true -> speech_start (w_session w) = true ->
  wp (collect_offline (Cache := Cache) m)
     (fun _ w' => segment_frames_view (w_session w') =
                  (frames_asr (w_session w) ++ [m; m], true, true, is_speaking (w_session w)))
     (fun _ => True) w.
Proof.
  intros Hu Hs. unfold collect_offline, segment_frames_view.
  wp_exec; close_frame; rewrite ?Hu, ?Hs in *; try discriminate. by rewrite Heqb, <- app_assoc.
Qed.

(** C34: in upload mode during speech, an audio frame in which the VAD
    reports no boundary is appended to the offline segment twice (lines
    412 and 417), so the offline pass recognises every such frame twice. *)
Theorem upload_frame_duplicated s g m s' g' out :
  is_file_upload s = true -> speech_start s = true -> is_speaking s = Some true ->
  (forall st, fst (async_vad M st m) = (-1, -1)) ->
  ws_step M s g (Binary m) = (Serving s', g', out) ->
  frames_asr s' = frames_asr s ++ [m; m].
Proof.
  intros Hu Hst Hsp Hv Hstep.
  refine (ws_step_serving _ s g (fun s' _ => frames_asr s' = frames_asr s ++ [m; m]) _ s' g' out Hstep).
  unfold ws_serve_frame, handle_audio. apply wp_bind, wp_ret.
  eapply wp_seq; [by apply (update_vad_chunk_size_frames_view (segment_frames_view s)) | done |].
  intros a1 w1 H1. apply wp_bind.
  eapply wp_seq; [by apply (buffer_audio_frames_view m _ w1 H1) | done |].
  intros a2 w2 H2.
  eapply wp_seq; [by apply (online_pass_frames_view m _ w2 H2) | done |].
  intros a3 w3 H3. unfold segment_frames_view in H3. simplify_eq.
  eapply wp_seq; [by apply collect_offline_upload_speaking; congruence | done |].
  intros a4 w4 Hw4.
  eapply wp_mono; [by apply (detect_speech_no_boundary m w4 Hv) | | done].
  intros a5 w5 [Hw5 Hw5']. unfold segment_frames_view in *. simplify_eq.
  eapply wp_mono; [apply handle_segment_end_idle; congruence | | done].
  intros a6 w6 ->. congruence.
Qed.

(** On a frame shorter than 32 bytes a reported speech start divides by
    [duration_ms = 0]. *)
Lemma detect_speech_short_start m w :
  (length m < 32)%nat -> (forall st, fst (fst (async_vad M st m)) <> -1) ->
  wp (detect_speech M m) (fun _ _ => False) (fun _ => True) w.
Proof.
  intros Hl Hv. specialize (Hv (vad_st (w_session w))).
  assert (duration_of m = 0) as Hd by (unfold duration_of; apply Z.div_small; lia).
  unfold detect_speech, speech_look_back, py_floordiv. rewrite Hd.
  wp_exec; simpl in *; simplify_eq; try done.
  destruct (Z.eqb_spec z (-1)); simpl in *; congruence.
Qed.

(** C35: a binary frame shorter than 32 bytes on which the VAD reports a
    speech start ends the session: [beg_bias = (...) // duration_ms]
    (line 424) divides by [len(message) // 32 = 0], and the
    [ZeroDivisionError] reaches the handler's [except Exception]. *)
Theorem short_frame_speech_start_ends s g m :
  (length m < 32)%nat -> (forall st, fst (fst (async_vad M st m)) <> -1) ->
  exists s' e g' out, ws_step M s g (Binary m) = (Ended s' e, g', out).
Proof.
  intros Hl Hv. apply ws_step_ends.
  unfold ws_serve_frame, handle_audio. apply wp_bind, wp_ret.
  eapply wp_seq; [apply wp_trivial | done | intros ? ? _]. apply wp_bind.
  do 3 (eapply wp_seq; [apply wp_trivial | done | intros ? ? _]).
  eapply wp_mono; [by apply detect_speech_short_start | done | done].
Qed.

(** C36: the cache policy at the end of a segment (spec 4.3): the offline
    pass never raises out of [handle_segment_end]; the segment lists are
    emptied; while the client is still speaking the online and VAD
    caches are kept and the last 20 frames are kept as look-back, and
    once it has stopped both caches and the frame history are reset. *)
Theorem segment_end_cache_policy w sp :
  speech_end_i (w_session w) <> -1 -> is_speaking (w_session w) = Some sp ->
  wp (handle_segment_end M)
     (fun _ w' =>
        let s := w_session w in let s' := w_session w' in
        on_cache (asr_online s') = (if sp then on_cache (asr_online s) else empty_dict M)
        /\ vad_cache (vad_st s') = (if sp then vad_cache (vad_st s) else empty_dict M)
        /\ frames s' = (if sp then py_slice_from (frames s) (-20) else [])
        /\ frames_asr s' = [] /\ frames_asr_online s' = [] /\ speech_start s' = false)
     (fun _ => False) w.
Proof.
  intros He Hs. unfold handle_segment_end, get_is_speaking, call_async_asr.
  wp_exec; close_frame; rewrite ?Hs in *; simplify_eq; try done;
    try (destruct (Z.eqb_spec (speech_end_i (w_session w)) (-1)); simpl in *; congruence);
    destruct sp; simpl in *; done.
Qed.

(** ** Reachable sessions *)

(** The sessions a connection can be in: the initial one, and any one a
    frame leaves served, whatever the GPU state. *)
Inductive reachable : session -> Prop :=
| reach_init : reachable (initial_session M)
| reach_step s g f s' g' out :
    reachable s -> ws_step M s g f = (Serving s', g', out) -> reachable s'.

(** The buffer invariant of spec section 3, first half: the processed
    watermark never passes the end of the buffer. *)
Definition watermark_ok (b : WssAudioBuffer.t) : Prop := (processed_size b <= length (buffer b))%nat.

Lemma watermark_add b m : watermark_ok b -> watermark_ok (wss_add_chunk b m).
Proof.
  unfold watermark_ok, wss_add_chunk. intros H.
  case_if; simpl; rewrite ?length_drop, length_app; lia.
Qed.

Lemma watermark_add_mark b m :
  watermark_ok b -> watermark_ok (wss_mark_processed (wss_add_chunk b m) (length m)).
Proof.
  unfold watermark_ok, wss_mark_processed, wss_add_chunk. intros H.
  case_if; simpl; rewrite ?length_drop, length_app; lia.
Qed.

Lemma handle_control_watermark c :
  keeps (fun s => watermark_ok (audio_buffer s)) (handle_control M c).
Proof.
  unfold handle_control.
  repeat (apply keeps_bind; [|intros ?]); intros w Hw;
    unfold upload_complete, call_async_asr in *; wp_exec; repeat case_match;
    unfold watermark_ok in *; simpl in *; try done; lia.
Qed.

(** Across an audio frame the buffer gains the frame and, in upload mode,
    marks it processed. *)
Lemma handle_audio_watermark m w :
  watermark_ok (audio_buffer (w_session w)) ->
  wp (handle_audio M m) (fun _ w' => watermark_ok (audio_buffer (w_session w'))) (fun _ => True) w.
Proof.
  intros Hw. unfold handle_audio.
  set (b0 := audio_buffer (w_session w)). set (up := is_file_upload (w_session w)).
  eapply wp_seq with
    (P := fun _ w1 => upload_view (w_session w1) = (wss_add_chunk b0 m, up, chunk_interval (w_session w)))
    (E' := fun _ => True); [| done |].
  { unfold buffer_audio, upload_view, b0, up. wp_exec; close_frame. }
  intros a1 w1 H1.
  eapply wp_seq; [by apply (online_pass_upload_view m _ w1 H1) | done |].
  intros a2 w2 H2.
  eapply wp_seq with
    (P := fun _ w3 => upload_view (w_session w3) =
            (if up then wss_mark_processed (wss_add_chunk b0 m) (length m) else wss_add_chunk b0 m,
             up, chunk_interval (w_session w)))
    (E' := fun _ => True); [| done |].
  { unfold collect_offline, upload_view in *. simplify_eq. wp_exec; close_frame; congruence. }
  intros a3 w3 H3.
  eapply wp_mono; [by apply (detect_speech_upload_view m _ w3 H3) | | done].
  intros a4 w4 H4. unfold upload_view in H4. simplify_eq.
  match goal with H : audio_buffer _ = _ |- _ => rewrite H end.
  case_if; [by apply watermark_add_mark | by apply watermark_add].
Qed.

(** C22: every reachable session satisfies the buffer watermark
    invariant of spec section 3 (watermark <= buffer length), by
    induction on the frames the connection has served; its second half,
    the capacity bound, fails (C16). *)
Theorem reachable_watermark s : reachable s -> watermark_ok (audio_buffer s).
Proof.
  induction 1 as [|s g f s' g' out Hr IH Hst]; [unfold watermark_ok; simpl; lia|].
  refine (ws_step_serving f s g (fun s' _ => watermark_ok (audio_buffer s')) _ s' g' out Hst).
  unfold ws_serve_frame.
  eapply wp_seq with (P := fun _ w1 => watermark_ok (audio_buffer (w_session w1)))
                     (E' := fun _ => True); [| done |].
  { destruct f as [[c|]|m]; [| by apply wp_raise | by apply wp_ret].
    eapply wp_mono; [by apply handle_control_watermark | done | done]. }
  intros a1 w1 H1.
  eapply wp_seq; [exact (keeps_view upload_view (fun v => watermark_ok (fst (fst v))) _
                           update_vad_chunk_size_upload_view w1 H1) | done |].
  intros a2 w2 H2.
  eapply wp_seq with (P := fun _ w3 => watermark_ok (audio_buffer (w_session w3)))
                     (E' := fun _ => True); [| done |].
  { destruct f as [|m]; [by apply wp_ret | by apply handle_audio_watermark]. }
  intros a3 w3 H3.
  eapply wp_mono; [exact (keeps_view upload_view (fun v => watermark_ok (fst (fst v))) _
                            handle_segment_end_upload_view w3 H3) | done | done].
Qed.

(** ** The online pass every [chunk_interval] frames *)

(** What an audio frame needs to be served, and what the online pass
    reads and writes: the frames since the last pass, the configuration,
    the end of segment the VAD reported, the online model's status and
    the mode. *)
Definition live_view (s : session) :=
  (frames_asr_online s, config_of s, speech_end_i s, asr_online s, mode s).

(** A session that is speaking in a streaming mode, with no segment end
    pending and the online status not final, a chunk size of at least
    two entries and the chunk interval [n]. *)
Definition online_live (n : Z) (s : session) : Prop :=
  (exists l v, on_chunk_size (asr_online s) = Some l /\ nth_error l 1 = Some v) /\
  chunk_interval s = n /\ is_speaking s = Some true /\ speech_end_i s = -1 /\
  on_is_final (asr_online s) = false /\ (mode s = u"2pass" \/ mode s = u"online").

(** The online status once the streaming model has been given [audio]:
    it is not called on no audio, and its exception leaves the status. *)
Definition streamed (st : online_status Cache) (audio : bytes) : online_status Cache :=
  if bool_decide (audio = []) then st
  else match streaming_generate M st audio with
       | Ret (_, c) => set_online_cache st c
       | Exc _ => st
       end.

Lemma buffer_audio_live m x : keeps_ok (fun s => live_view s = x) (buffer_audio M m).
Proof.
  unfold buffer_audio, live_view, config_of.
  repeat (apply keeps_ok_bind; [|intros ?]); intros ? ?; wp_exec; close_frame.
Qed.

Lemma collect_offline_live m x : keeps_ok (fun s => live_view s = x) (collect_offline (Cache := Cache) m).
Proof.
  unfold collect_offline, live_view, config_of.
  repeat (apply keeps_ok_bind; [|intros ?]); intros ? ?; wp_exec; close_frame.
Qed.

Lemma update_vad_chunk_size_live fo l v n sp e st md :
  nth_error l 1 = Some v -> n <> 0 ->
  keeps_ok (fun s => live_view s = (fo, (Some l, n, sp), e, st, md)) (update_vad_chunk_size (Cache := Cache)).
Proof.
  intros Hv Hn w Hw. unfold live_view, config_of in *. simplify_eq.
  unfold update_vad_chunk_size, py_int_truediv. wp_exec; close_frame; simplify_eq; zbool; congruence.
Qed.

Lemma detect_speech_live m fo c st md :
  (forall st, fst (async_vad M st m) = (-1, -1)) ->
  keeps_ok (fun s => live_view s = (fo, c, -1, st, md)) (detect_speech M m).
Proof.
  intros Hv w Hw. specialize (Hv (vad_st (w_session w))). unfold live_view, config_of in *.
  unfold detect_speech. wp_exec; close_frame; simplify_eq; simpl in *; done.
Qed.

Lemma streamed_chunk_size st a : on_chunk_size (streamed st a) = on_chunk_size st.
Proof. unfold streamed. case_bool_decide; repeat case_match; done. Qed.

Lemma streamed_is_final st a : on_is_final (streamed st a) = on_is_final st.
Proof. unfold streamed. case_bool_decide; repeat case_match; done. Qed.

Lemma set_online_is_final_same (st : online_status Cache) : set_online_is_final st (on_is_final st) = st.
Proof. by destruct st. Qed.

(** The online model's call on [audio] from a non-final status: it
    returns the status [streamed st audio]. *)
Lemma call_async_asr_online_streamed a w :
  wp (call_async_asr_online M a)
     (fun _ w' => w_session w' = set_sent_text_length (set_asr_online (w_session w)
                                   (streamed (asr_online (w_session w)) a)) (sent_text_length (w_session w')))
     (fun w' => w' = w /\ streamed (asr_online (w_session w)) a = asr_online (w_session w)) w.
Proof.
  unfold call_async_asr_online, streamed. apply wp_bind, wp_get, wp_bind, wp_lift.
  unfold async_asr_online. destruct (Nat.ltb_spec 0 (length a)) as [Hl|Hl].
  - rewrite (bool_decide_false (a = [])) by (intros ->; simpl in Hl; lia).
    destruct (streaming_generate M _ a) as [[t c]|] eqn:E; cbn [raises_bind]; [|done].
    repeat case_match; simplify_eq; wp_exec; done.
  - destruct a; [|simpl in Hl; lia]. rewrite (bool_decide_true ([] = [])) by done. wp_exec. by destruct (w_session w).
Qed.
(** The online pass of a frame with no segment end pending: the frame
    joins [frames_asr_online]; when their number reaches a multiple of
    [chunk_interval] the streaming model is called on all of them and the
    list is flushed. *)
Lemma online_pass_live m w fo c st md :
  live_view (w_session w) = (fo, c, -1, st, md) -> snd (fst c) <> 0 -> on_is_final st = false ->
  (md = u"2pass" \/ md = u"online") ->
  wp (online_pass M m)
     (fun _ w' => live_view (w_session w') =
        if Z.of_nat (length (fo ++ [m])) mod snd (fst c) =? 0
        then ([], c, -1, streamed st (concat (fo ++ [m])), md)
        else (fo ++ [m], c, -1, st, md))
     (fun _ => False) w.
Proof.
  intros Hw Hn Hf Hm. unfold live_view, config_of in *. simplify_eq.
  assert (Hst : set_online_is_final (asr_online (w_session w)) false = asr_online (w_session w))
    by (rewrite <- Hf; apply set_online_is_final_same).
  unfold online_pass, py_mod. wp_exec; simpl in *; rewrite ?H0 in *; simpl in *; rewrite ?Hst in *.
  all: try (destruct (Z.eqb_spec (chunk_interval (w_session w)) 0); [done|]; injection Heqr as <-).
  all: try (rewrite ?orb_false_r in Heqb; rewrite ?Heqb).
  1: { eapply wp_mono; [apply call_async_asr_online_streamed | |].
       - intros r w' Hw'. wp_exec; simpl; rewrite Hw'; simpl; by rewrite ?Hst, streamed_chunk_size, H0.
       - intros w' [-> Hs]. wp_exec. simpl in *. by rewrite Hs, H0. }
  all: try (destruct Hm as [Hm|Hm]; rewrite Hm in Heqb0; vm_compute in Heqb0; discriminate).
  all: try done.
  destruct (Z.eqb_spec (chunk_interval (w_session w)) 0); [done | discriminate].
Qed.

(** A frame leaves the session live when it keeps its configuration,
    chunk size and mode and leaves no segment end and no final status. *)
Lemma online_live_view n s s' fo' st' :
  online_live n s -> live_view s' = (fo', config_of s, -1, st', mode s) ->
  on_chunk_size st' = on_chunk_size (asr_online s) -> on_is_final st' = on_is_final (asr_online s) ->
  online_live n s'.
Proof.
  intros ((l & v & Hl & Hlv) & Hci & Hsp & He & Hf & Hm) Hv Hc Hi.
  unfold live_view, config_of in Hv. simplify_eq. unfold online_live.
  match goal with H : mode _ = mode _ |- _ => rewrite H end.
  split_and!; try congruence. exists l, v. split; congruence.
Qed.

(** An audio frame served while the client speaks with no segment end:
    the session stays live, and [frames_asr_online] gains the frame or,
    at a multiple of the chunk interval, is flushed after the streaming
    model was called on all of them. *)
Lemma ws_step_online_live n s g m :
  (forall st a, fst (async_vad M st a) = (-1, -1)) -> n <> 0 -> online_live n s ->
  exists s' g' out, ws_step M s g (Binary m) = (Serving s', g', out) /\ online_live n s' /\
    live_view s' =
      (if Z.of_nat (length (frames_asr_online s ++ [m])) mod n =? 0
       then ([], config_of s, -1, streamed (asr_online s) (concat (frames_asr_online s ++ [m])), mode s)
       else (frames_asr_online s ++ [m], config_of s, -1, asr_online s, mode s)).
Proof.
  intros Hv Hn Hs. pose proof Hs as ((l & v & Hl & Hlv) & Hci & Hsp & He & Hf & Hm).
  apply ws_step_total.
  set (fo := frames_asr_online s). set (st := asr_online s). set (md := mode s).
  assert (Hc : config_of s = (Some l, n, Some true)) by (unfold config_of; congruence).
  set (post := if Z.of_nat (length (fo ++ [m])) mod n =? 0
               then ([], config_of s, -1, streamed st (concat (fo ++ [m])), md)
               else (fo ++ [m], config_of s, -1, st, md)).
  unfold ws_serve_frame. cbv beta iota. apply wp_bind, wp_ret. cbn [w_session].
  eapply wp_seq; [apply (update_vad_chunk_size_live fo l v n (Some true) (-1) st md Hlv Hn);
                  unfold live_view; cbn; by rewrite Hc, He | done |].
  intros ? w1 H1. rewrite <- Hc in H1.
  eapply wp_seq with (P := fun _ w5 => live_view (w_session w5) = post)
                     (E' := fun _ => False); [| done |].
  { unfold handle_audio.
    eapply wp_seq; [by apply (buffer_audio_live m) | done |]. intros ? w2 H2.
    eapply wp_seq; [apply (online_pass_live m w2 fo _ st md H2); [by rewrite Hc | done | done] | done |].
    intros ? w3 H3. rewrite Hc in H3. cbn [fst snd] in H3. rewrite <- Hc in H3.
    eapply wp_seq; [by apply (collect_offline_live m) | done |]. intros ? w4 H4.
    unfold post. destruct (_ =? 0); by apply (detect_speech_live m _ _ _ _ (fun st => Hv st m)). }
  intros ? w5 H5.
  assert (Hl5 : online_live n (w_session w5)).
  { unfold post in H5. destruct (_ =? 0); (eapply online_live_view; [exact Hs | exact H5 | |]);
      rewrite ?streamed_chunk_size, ?streamed_is_final; done. }
  pose proof Hl5 as (_ & _ & Hsp5 & He5 & _).
  eapply wp_mono; [by apply handle_segment_end_idle | | done]. intros ? w6 ->. done.
Qed.

Lemma mod_small_eqb k n : 0 < k <= n -> (k mod n =? 0) = (k =? n).
Proof.
  intros Hk. destruct (Z.eq_dec k n) as [->|Hne].
  - by rewrite Z_mod_same_full, !Z.eqb_refl.
  - rewrite Z.mod_small, (proj2 (Z.eqb_neq k n)) by lia. apply Z.eqb_neq. lia.
Qed.

(** Frames that do not bring the count of online frames past [n]: all
    are served; if the count reaches [n] the model is called on all the
    online frames and they are flushed, otherwise they are kept and the
    online status is unchanged. *)
Lemma ws_steps_online n s g ms :
  (forall st a, fst (async_vad M st a) = (-1, -1)) -> 0 < n -> online_live n s ->
  (length (frames_asr_online s) + length ms <= Z.to_nat n)%nat ->
  (length (frames_asr_online s) < Z.to_nat n)%nat ->
  exists s' g' out, ws_steps s g ms = (Serving s', g', out) /\ online_live n s' /\
    if Nat.eqb (length (frames_asr_online s) + length ms) (Z.to_nat n)
    then frames_asr_online s' = [] /\
         asr_online s' = streamed (asr_online s) (concat (frames_asr_online s ++ ms))
    else frames_asr_online s' = frames_asr_online s ++ ms /\ asr_online s' = asr_online s.
Proof.
  intros Hv Hn. revert s g. induction ms as [|m ms IH]; intros s g Hs Hl Hlt.
  - exists s, g, []. split_and!; [done | done |].
    rewrite (proj2 (Nat.eqb_neq _ _)) by (simpl; lia). by rewrite app_nil_r.
  - destruct (ws_step_online_live n s g m Hv ltac:(lia) Hs) as (s' & g' & out & Hst & Hs' & Hview).
    cbn [ws_steps]. rewrite Hst.
    rewrite length_app, Nat2Z.inj_add, mod_small_eqb in Hview by (simpl; lia).
    cbn [length] in *. unfold live_view in Hview.
    destruct (Z.eqb_spec (Z.of_nat (length (frames_asr_online s)) + Z.of_nat 1) n) as [E|E].
    + destruct ms; [|simpl in Hl; lia]. simplify_eq. exists s', g', (out ++ []).
      split_and!; [done | done |]. by rewrite (proj2 (Nat.eqb_eq _ _)) by lia.
    + simplify_eq.
      destruct (IH s' g' Hs') as (s'' & g'' & out' & Hst' & Hs'' & Hc);
        [rewrite H, length_app; simpl; lia | rewrite H, length_app; simpl; lia |].
      exists s'', g'', (out ++ out'). rewrite Hst'. split_and!; [done | done |].
      rewrite H, length_app, <- app_assoc in Hc. cbn [length app] in Hc.
      replace (length (frames_asr_online s) + 1 + length ms)%nat
        with (length (frames_asr_online s) + S (length ms))%nat in Hc by lia.
      by rewrite H1 in Hc.
Qed.

(** ** Properties *)

(** C13: the online pass every [chunk_interval] frames.  While the
    client speaks in a streaming mode and the VAD reports no segment
    boundary, with a chunk interval [n > 0] and no online frame pending,
    any [n] audio frames (not all empty) are all served, after them no
    online frame is pending and the session is still live, and the
    online status is the one the streaming model returned when it was
    called on the [n] frames joined: the model is called once, on all of
    them, at the [n]-th frame (lines 391-408). *)
Theorem online_pass_every_n n s g ms :
  (forall st a, fst (async_vad M st a) = (-1, -1)) -> 0 < n -> online_live n s ->
  frames_asr_online s = [] -> length ms = Z.to_nat n -> concat ms <> [] ->
  exists s' g' out, ws_steps s g ms = (Serving s', g', out) /\ online_live n s' /\
    frames_asr_online s' = [] /\
    match streaming_generate M (asr_online s) (concat ms) with
    | Ret (_, c) => asr_online s' = set_online_cache (asr_online s) c
    | Exc _ => asr_online s' = asr_online s
    end.
Proof.
  intros Hv Hn Hs Hf Hl Hc.
  destruct (ws_steps_online n s g ms Hv Hn Hs) as (s' & g' & out & Hst & Hs' & H);
    [rewrite Hf; simpl; lia | rewrite Hf; simpl; lia |].
  rewrite Hf in H. cbn [length app Nat.add] in H. rewrite Hl, Nat.eqb_refl in H.
  destruct H as [Hfo Ha]. exists s', g', out. split_and!; [done | done | done |].
  rewrite Ha. unfold streamed. rewrite bool_decide_false by done.
  by destruct (streaming_generate _ _ _) as [[]|].
Qed.

(** ** Outbound messages *)

Lemma call_async_asr_out_ok a : keeps_w out_ok (call_async_asr M a).
Proof.
  intros w [Hm Hs]. unfold call_async_asr. wp_exec. split; [done|].
  apply Forall_app. split; [done|].
  match goal with E : async_asr _ _ _ _ _ _ _ = _ |- _ =>
    pose proof (async_asr_msgs_ok M (w_gpu w) (hotword (w_session w)) (punc_cache (w_session w))
                  _ (wav_name (w_session w)) a Hm) as Ha; rewrite E in Ha; exact Ha end.
Qed.

Lemma call_async_asr_online_out_ok a : keeps_w out_ok (call_async_asr_online M a).
Proof.
  intros w [Hm Hs]. unfold call_async_asr_online. wp_exec; [|done]. split; [done|].
  apply Forall_app. split; [done|]. by eapply async_asr_online_msgs_ok.
Qed.

(** Close what [keeps_w_exec] leaves of an [out_ok] goal: the passes, and
    the updates, which keep the mode or set one the frame allows. *)
Ltac out_ok_close :=
  lazymatch goal with
  | |- keeps_w _ (call_async_asr _ _) => apply call_async_asr_out_ok
  | |- keeps_w _ (call_async_asr_online _ _) => apply call_async_asr_online_out_ok
  | |- _ => let Hm := fresh "Hm" in let Hs := fresh "Hs" in
            intros ? [Hm Hs]; wp_exec; split; repeat case_match; simpl; try done; eauto;
            try (rewrite Forall_app; split; [done|]; apply Forall_singleton; decide_closed)
  end.

Lemma ws_serve_frame_out_ok f : frame_mode_ok f -> keeps_w out_ok (ws_serve_frame M f).
Proof.
  intros Hf. unfold ws_serve_frame, handle_control, upload_complete, update_vad_chunk_size,
    handle_audio, buffer_audio, online_pass, collect_offline, detect_speech, handle_segment_end,
    get_is_speaking.
  keeps_w_exec; out_ok_close.
Qed.

(** C11: outbound messages are well typed.  From a session whose mode is
    one of spec section 4 (["online"], ["offline"], ["2pass"]), a frame
    whose ["mode"] key, if any, is one of them leaves the session's mode
    among them, and every message [ws_step] sends, also before an
    exception ends the session, has a mode of spec section 6; so has the
    message the [ConnectionClosed] handler attempts. *)
Theorem ws_step_msgs_ok s g f :
  mode s ∈ session_modes -> frame_mode_ok f ->
  match ws_step M s g f with
  | (Serving s', _, out) | (Ended s' _, _, out) => mode s' ∈ session_modes /\ Forall msg_ok out
  end /\ Forall msg_ok (snd (ws_close M s)).
Proof.
  intros Hm Hf. split.
  - pose proof (ws_serve_frame_out_ok f Hf {| w_session := s; w_gpu := g; w_sent := [] |}
                  (conj Hm (List.Forall_nil _))) as H.
    unfold wp in H. unfold ws_step. destruct (ws_serve_frame M f _) as [[] w']; done.
  - unfold ws_close. case_if; simpl; [done|]. apply Forall_singleton. decide_closed.
Qed.

End Frames.

(** The first frame of src/test/test.py. *)
Definition test_client_hello : control :=
  {| c_is_speaking := Some true; c_chunk_interval := None; c_wav_name := None;
     c_chunk_size := None; c_encoder_chunk_look_back := None; c_decoder_chunk_look_back := None;
     c_hotwords := None; c_mode := Some (u"2pass"); c_is_file_upload := None;
     c_upload_complete := false |}.

Definition no_gpu : gpu := {| cuda_available := false; total_memory := 0; memory_allocated := 0; memory_reserved := 0 |}.

(** A first frame that configures the session: chunk size "5,10,5". *)
Definition test_config : control :=
  {| c_is_speaking := Some true; c_chunk_interval := Some 10; c_wav_name := None;
     c_chunk_size := Some (CSString (u"5,10,5")); c_encoder_chunk_look_back := None;
     c_decoder_chunk_look_back := None; c_hotwords := None; c_mode := Some (u"2pass");
     c_is_file_upload := None; c_upload_complete := false |}.

Lemma ws_step_configured_witness :
  match ws_step const_models (initial_session const_models) no_gpu (Text (Some test_config)) with
  | (Serving s', _, _) => configured s'
  | _ => False
  end.
Proof.
  destruct (ws_step const_models (initial_session const_models) no_gpu (Text (Some test_config)))
    as [[[s'|s' e] g'] out] eqn:E.
  - exact (ws_step_configured const_models (initial_session const_models) no_gpu _ s' g' out E).
  - vm_compute in E. discriminate E.
Defined.

Lemma speech_look_back_frames_witness :
  speech_look_back [[Byte.x01]; [Byte.x02]; [Byte.x03]] 10 6 2 = Ret [[Byte.x02]; [Byte.x03]].
Proof. rewrite speech_look_back_frames by lia. reflexivity. Defined.

Lemma speech_look_back_zero_bias_witness :
  speech_look_back [[Byte.x01]; [Byte.x02]; [Byte.x03]] 10 9 2 = Ret [[Byte.x01]; [Byte.x02]; [Byte.x03]].
Proof. apply speech_look_back_zero_bias; lia. Defined.

Lemma first_frame_needs_chunk_size_witness :
  exists s' e g' out, ws_step const_models (initial_session const_models) no_gpu
                        (Text (Some test_client_hello)) = (Ended s' e, g', out).
Proof. apply first_frame_needs_chunk_size. reflexivity. Defined.

(** A control frame that only says the client is still speaking. *)
Definition test_keepalive : control :=
  {| c_is_speaking := Some true; c_chunk_interval := None; c_wav_name := None;
     c_chunk_size := None; c_encoder_chunk_look_back := None; c_decoder_chunk_look_back := None;
     c_hotwords := None; c_mode := None; c_is_file_upload := None; c_upload_complete := false |}.

(** A configured session right after the offline pass of a segment that
    ended at 1200 ms. *)
Definition after_segment_end : session (Cache := unit) :=
  let s := initial_session const_models in
  let s := set_asr_online s (set_online_chunk_size (asr_online s) [5; 10; 5]) in
  set_speech_end_i (set_is_speaking s (Some true)) 1200.

Lemma offline_pass_repeats_witness :
  match ws_step const_models after_segment_end no_gpu (Text (Some test_keepalive)) with
  | (Serving s', _, out) => out = [offline_message (u"2pass") (u"microphone") []]
                            /\ segment_view s' = segment_view after_segment_end
  | _ => False
  end.
Proof.
  destruct (ws_step const_models after_segment_end no_gpu (Text (Some test_keepalive)))
    as [[[s'|s' e] g'] out] eqn:E.
  - exact (offline_pass_repeats const_models after_segment_end no_gpu test_keepalive s' g' out
             ltac:(discriminate) eq_refl eq_refl eq_refl eq_refl eq_refl E).
  - vm_compute in E. discriminate E.
Defined.

(** A file upload with two unprocessed bytes and one stream result. *)
Definition upload_world : world unit :=
  {| w_session := set_stream_results
                    (set_audio_buffer (set_is_file_upload (initial_session const_models) true)
                       (wss_add_chunk (init 100) [Byte.x01; Byte.x02])) [[97]];
     w_gpu := no_gpu; w_sent := [] |}.

Lemma upload_complete_scenario_D_witness :
  upload_complete const_models upload_world =
  let s := w_session upload_world in
  let '(outs, g', pc') := async_asr const_models (w_gpu upload_world) (hotword s) (punc_cache s)
                            (mode s) (wav_name s) (wss_get_unprocessed_data (audio_buffer s)) in
  (Ret tt,
   {| w_session := set_stream_results
                     (set_audio_buffer (set_punc_cache s pc') (wss_clear (audio_buffer s))) [];
      w_gpu := g';
      w_sent := w_sent upload_world ++ outs ++
                  [final_message (wav_name s) (merge_stream_results (stream_results s))
                     (u"upload-complete")] |}).
Proof. apply upload_complete_scenario_D; vm_compute; congruence. Defined.

(** An unknown ["mode"] is stored, not ignored: the upload flush then
    sends an offline message whose mode is the client's string, outside
    the modes of spec section 6. *)
Example unknown_mode_echoed :
  exists o, In o (w_sent (snd (upload_complete const_models
               {| w_session := set_mode (w_session upload_world) (u"foo");
                  w_gpu := no_gpu; w_sent := [] |}))) /\
            o_mode o = u"foo" /\ o_mode o ∉ out_modes.
Proof.
  exists (offline_message (u"foo") (u"microphone") [97]).
  split; [vm_compute; by left | split; [reflexivity | decide_closed]].
Qed.

(** A configured upload session that has received nothing yet. *)
Definition upload_session : session (Cache := unit) :=
  set_is_file_upload (set_speech_end_i after_segment_end (-1)) true.

(** Two audio frames sent on an upload connection from its start. *)
Lemma upload_frames_leave_nothing_unprocessed_witness :
  match ws_steps const_models upload_session no_gpu [repeat Byte.x00 64; repeat Byte.x01 64] with
  | (Serving s', _, _) => wss_get_unprocessed_data (audio_buffer s') = [] /\ drained (audio_buffer s')
  | _ => False
  end.
Proof.
  destruct (ws_steps const_models upload_session no_gpu [repeat Byte.x00 64; repeat Byte.x01 64])
    as [[[s'|s' e] g'] out] eqn:E.
  - exact (upload_frames_leave_nothing_unprocessed const_models upload_session no_gpu _ s' g' out
             eq_refl ltac:(vm_compute; lia) E).
  - vm_compute in E. discriminate E.
Defined.

Lemma upload_frame_duplicated_witness :
  match ws_step const_models (set_speech_start upload_session true) no_gpu
          (Binary (repeat Byte.x00 64)) with
  | (Serving s', _, _) => frames_asr s' = frames_asr (set_speech_start upload_session true)
                                          ++ [repeat Byte.x00 64; repeat Byte.x00 64]
  | _ => False
  end.
Proof.
  destruct (ws_step const_models (set_speech_start upload_session true) no_gpu
              (Binary (repeat Byte.x00 64))) as [[[s'|s' e] g'] out] eqn:E.
  - exact (upload_frame_duplicated const_models (set_speech_start upload_session true) no_gpu _ s' g' out
             eq_refl eq_refl eq_refl (fun st => eq_refl) E).
  - vm_compute in E. discriminate E.
Defined.

(** Models whose VAD reports a speech start at 0 ms on every frame. *)
Definition start_models : models unit :=
  {| empty_dict := tt; streaming_generate := fun _ _ => Ret ([], tt);
     asr_generate := fun _ _ => Ret []; vad_generate := fun _ _ => Ret ([(0, -1)], tt);
     punc_generate := None; empty_cache := fun g => g |}.

Lemma short_frame_speech_start_ends_witness :
  exists s' e g' out, ws_step start_models (set_speech_end_i after_segment_end (-1)) no_gpu
                        (Binary [Byte.x00; Byte.x00]) = (Ended s' e, g', out).
Proof.
  apply short_frame_speech_start_ends; [simpl; lia | intros st; vm_compute; discriminate].
Defined.

Definition after_segment_world : world unit :=
  {| w_session := after_segment_end; w_gpu := no_gpu; w_sent := [] |}.

Lemma segment_end_cache_policy_witness :
  wp (handle_segment_end const_models)
     (fun _ w' =>
        let s := w_session after_segment_world in let s' := w_session w' in
        on_cache (asr_online s') = (if true then on_cache (asr_online s) else empty_dict const_models)
        /\ vad_cache (vad_st s') = (if true then vad_cache (vad_st s) else empty_dict const_models)
        /\ frames s' = (if true then py_slice_from (frames s) (-20) else [])
        /\ frames_asr s' = [] /\ frames_asr_online s' = [] /\ speech_start s' = false)
     (fun _ => False) after_segment_world.
Proof. apply segment_end_cache_policy; [discriminate | reflexivity]. Defined.

Lemma reachable_watermark_witness :
  match ws_step const_models (initial_session const_models) no_gpu (Text (Some test_config)) with
  | (Serving s', _, _) => watermark_ok (audio_buffer s')
  | _ => False
  end.
Proof.
  destruct (ws_step const_models (initial_session const_models) no_gpu (Text (Some test_config)))
    as [[[s'|s' e] g'] out] eqn:E.
  - apply (reachable_watermark const_models).
    exact (reach_step const_models _ _ _ _ _ _ (reach_init const_models) E).
  - vm_compute in E. discriminate E.
Defined.

Lemma ws_step_msgs_ok_witness :
  match ws_step const_models (initial_session const_models) no_gpu (Text (Some test_config)) with
  | (Serving s', _, out) | (Ended s' _, _, out) => mode s' ∈ session_modes /\ Forall msg_ok out
  end /\ Forall msg_ok (snd (ws_close const_models (initial_session const_models))).
Proof.
  apply ws_step_msgs_ok; [decide_closed|]. simpl. intros v [= <-]. decide_closed.
Defined.

(** A speaking session with chunk size "5,10,5" and no segment end. *)
Definition live_session : session (Cache := unit) :=
  set_is_speaking
    (set_asr_online (initial_session const_models)
       (set_online_chunk_size (asr_online (initial_session const_models)) [5; 10; 5])) (Some true).

Lemma online_pass_every_n_witness :
  exists s' g' out, ws_steps const_models live_session no_gpu (repeat [Byte.x01] 10)
                      = (Serving s', g', out) /\ online_live 10 s' /\
    frames_asr_online s' = [] /\
    match streaming_generate const_models (asr_online live_session) (concat (repeat [Byte.x01] 10)) with
    | Ret (_, c) => asr_online s' = set_online_cache (asr_online live_session) c
    | Exc _ => asr_online s' = asr_online live_session
    end.
Proof.
  apply online_pass_every_n; [intros; reflexivity | lia | | reflexivity | reflexivity | discriminate].
  split_and!; [eauto | reflexivity | reflexivity | reflexivity | reflexivity | by left].
Defined.

End Session.
