(* ===== verification/Unified.v ===== *)
(** * UnifiedSessionHandler: [ws_serve] of the unified server

    src/websocket/funasr_unified_server.py lines 279-528.  The unified
    server is a rewrite of the wss handler: no VAD in the handler (its
    [async_vad], lines 326-335, is never called; it is [u_async_vad]), no
    look-back, no incremental emitter.  A text frame updates the configuration (lines
    459-501); a binary frame is buffered and recognised every 5 MiB in
    upload mode (lines 503-513), and otherwise recognised at once, by the
    offline model in ["2pass"] mode and by the streaming model in every
    other mode (lines 514-519).  Any exception ends the connection, whose
    [finally] clause runs [ws_reset] (lines 521-528).

    The handler is shallow, so it is written with explicit state passing
    on a record [uworld] (session, GPU state, messages sent), not in a
    monad.  The control frames are those of [Session] ([control],
    [frame]); the buffer is [UnifiedAudioBuffer]; the memory guard is
    [unified_check_memory]; chunking reuses [Recognizers.chunks_from].
    The offline model is called with a fresh [{}] cache
    ([status_dict_asr.get("cache", {})], a key never set), so it threads
    no state; a result list that is [None] or empty is modelled as the
    empty text, which the code treats the same way.  The streaming model
    threads the online cache. *)

From Stdlib Require Import ZArith Lia String.
From stdpp Require Import base list.
From S2P Require Import Prelude AudioBuffer ResourceGuard Recognizers Session HttpUpload.

Local Open Scope Z_scope.
Local Open Scope py_scope.

Module Unified.
Import ResourceGuard Recognizers Session UnifiedAudioBuffer.

(** The recognition collaborators the unified handler calls. *)
Record umodels (Cache : Type) := {
  u_empty_dict : Cache;
  (** [model_asr.generate(input=..., cache={}, is_final=..., hotword=...)]:
      the text of the first result *)
  u_asr_generate : bool -> pystr -> bytes -> raises pystr;
  (** [model_asr_streaming.generate(input=..., cache=..., is_final=...)] *)
  u_streaming_generate : Cache -> bool -> bytes -> raises (pystr * Cache);
  (** [torch.cuda.empty_cache()] *)
  u_empty_cache : gpu -> gpu
}.
Arguments u_empty_dict {Cache}. Arguments u_asr_generate {Cache}.
Arguments u_streaming_generate {Cache}. Arguments u_empty_cache {Cache}.

(** Outbound JSON messages of the unified server. *)
Inductive umsg :=
| UAsrMsg (text : pystr) (is_final : bool) (chunk : option (nat * nat))
    (** ["mode": "2pass"], with ["chunk_index"] and ["total_chunks"] for a chunk *)
| UOnlineMsg (text : pystr) (is_final : bool)   (** ["mode": "online"] *)
| UFinalMsg (text : pystr) (mode : pystr)       (** [send_final_result] *)
| UErrorMsg (text : pystr).                     (** ["mode": "error"] *)

(** [merge_stream_results] (lines 279-291): the texts joined, then stripped. *)
Definition u_merge_stream_results (stream_results : list pystr) : pystr :=
  py_strip (concat stream_results).

(** [split_audio_chunks] (lines 336-345): [audio_data[i:i + step]] for
    [i] in [range(0, len(audio_data), step)]. *)
Definition u_split_audio_chunks (audio_data : bytes) (chunk_size_mb : nat) : list bytes :=
  chunks_from (length audio_data) (chunk_size_mb * 1024 * 1024) audio_data.

Section Handler.
Context {Cache : Type} (M : umodels Cache).

(** The attributes [ws_serve] sets on the websocket (lines 442-453). *)
Record usession := {
  u_hotword : option pystr;            (** [status_dict_asr["hotword"]] *)
  u_online_cache : Cache;              (** [status_dict_asr_online["cache"]] *)
  u_online_is_final : bool;            (** [status_dict_asr_online["is_final"]] *)
  u_chunk_size : option (list Z);      (** [status_dict_asr_online["chunk_size"]] *)
  u_vad_cache : Cache;                 (** [status_dict_vad["cache"]] *)
  u_punc_cache : Cache;                (** [status_dict_punc["cache"]] *)
  u_chunk_interval : Z;
  u_sent_text_length : nat;
  u_buffer : UnifiedAudioBuffer.t;
  u_stream_results : list pystr;       (** the texts of the stored results *)
  u_wav_name : pystr;
  u_mode : pystr;
  u_is_file_upload : bool;
  u_is_speaking : option bool
}.

Record uworld := { uw_s : usession; uw_g : gpu; uw_sent : list umsg }.

(** Lines 442-453. *)
Definition u_initial_session : usession :=
  {| u_hotword := None; u_online_cache := u_empty_dict M; u_online_is_final := false;
     u_chunk_size := None; u_vad_cache := u_empty_dict M; u_punc_cache := u_empty_dict M;
     u_chunk_interval := 10; u_sent_text_length := 0; u_buffer := init 100;
     u_stream_results := []; u_wav_name := u"microphone"; u_mode := u"2pass";
     u_is_file_upload := false; u_is_speaking := None |}.

(** Field updates of the world and the session. *)
Definition with_session (w : uworld) (s : usession) : uworld :=
  {| uw_s := s; uw_g := uw_g w; uw_sent := uw_sent w |}.

Definition send (w : uworld) (ms : list umsg) : uworld :=
  {| uw_s := uw_s w; uw_g := uw_g w; uw_sent := uw_sent w ++ ms |}.

Definition set_stream_results (s : usession) (v : list pystr) : usession :=
  {| u_hotword := u_hotword s; u_online_cache := u_online_cache s;
     u_online_is_final := u_online_is_final s; u_chunk_size := u_chunk_size s;
     u_vad_cache := u_vad_cache s; u_punc_cache := u_punc_cache s;
     u_chunk_interval := u_chunk_interval s; u_sent_text_length := u_sent_text_length s;
     u_buffer := u_buffer s; u_stream_results := v; u_wav_name := u_wav_name s;
     u_mode := u_mode s; u_is_file_upload := u_is_file_upload s; u_is_speaking := u_is_speaking s |}.

Definition set_buffer (s : usession) (v : UnifiedAudioBuffer.t) : usession :=
  {| u_hotword := u_hotword s; u_online_cache := u_online_cache s;
     u_online_is_final := u_online_is_final s; u_chunk_size := u_chunk_size s;
     u_vad_cache := u_vad_cache s; u_punc_cache := u_punc_cache s;
     u_chunk_interval := u_chunk_interval s; u_sent_text_length := u_sent_text_length s;
     u_buffer := v; u_stream_results := u_stream_results s; u_wav_name := u_wav_name s;
     u_mode := u_mode s; u_is_file_upload := u_is_file_upload s; u_is_speaking := u_is_speaking s |}.

Definition set_online_cache (s : usession) (v : Cache) : usession :=
  {| u_hotword := u_hotword s; u_online_cache := v;
     u_online_is_final := u_online_is_final s; u_chunk_size := u_chunk_size s;
     u_vad_cache := u_vad_cache s; u_punc_cache := u_punc_cache s;
     u_chunk_interval := u_chunk_interval s; u_sent_text_length := u_sent_text_length s;
     u_buffer := u_buffer s; u_stream_results := u_stream_results s; u_wav_name := u_wav_name s;
     u_mode := u_mode s; u_is_file_upload := u_is_file_upload s; u_is_speaking := u_is_speaking s |}.

(** ** [async_asr] (lines 347-414) *)

(** Lines 358-384: chunk [i] of [n]; a chunk whose call raises is logged
    and skipped.  Returns the messages and the stored texts. *)
Fixpoint asr_chunk_loop (hotword : pystr) (n i : nat) (chunks : list bytes)
    (msgs : list umsg) (results : list pystr) : list umsg * list pystr :=
  match chunks with
  | [] => (msgs, results)
  | chunk :: rest =>
      let last := Nat.eqb i (n - 1) in
      match u_asr_generate M last hotword chunk with
      | Ret t =>
          if Nat.ltb 0 (length t)
          then asr_chunk_loop hotword n (S i) rest (msgs ++ [UAsrMsg t last (Some (i, n))])
                 (results ++ [t])
          else asr_chunk_loop hotword n (S i) rest msgs results
      | Exc _ => asr_chunk_loop hotword n (S i) rest msgs results
      end
  end.

Definition fifty_mib : Z := 50 * 1024 * 1024.

(** Lines 347-414.  A refusal of the memory guard returns without a
    message (line 353); an exception of the one-shot call is reported as
    an error message (lines 408-414). *)
Definition u_async_asr (w : uworld) (audio_in : bytes) : uworld :=
  let s := uw_s w in
  let hotword := default [] (u_hotword s) in
  let '(enough, g1) := unified_check_memory (u_empty_cache M) (uw_g w) (Z.of_nat (length audio_in)) in
  let w1 := {| uw_s := s; uw_g := g1; uw_sent := uw_sent w |} in
  if negb enough then w1
  else if fifty_mib <? Z.of_nat (length audio_in) then
    let chunks := u_split_audio_chunks audio_in 10 in
    let '(msgs, results) := asr_chunk_loop hotword (length chunks) 0 chunks [] [] in
    send (with_session w1 (set_stream_results s (u_stream_results s ++ results))) msgs
  else
    match u_asr_generate M true hotword audio_in with
    | Ret t =>
        if Nat.ltb 0 (length t)
        then send (with_session w1 (set_stream_results s (u_stream_results s ++ [t])))
                  [UAsrMsg t true None]
        else w1
    | Exc e => send w1 [UErrorMsg (HttpUpload.recognition_failed_text e)]
    end.

(** ** [async_asr_online] (lines 416-436): the whole recognised text is
    sent; an exception is logged. *)
Definition u_async_asr_online (w : uworld) (audio_in : bytes) : uworld :=
  let s := uw_s w in
  match u_streaming_generate M (u_online_cache s) (u_online_is_final s) audio_in with
  | Ret (t, c') =>
      let w1 := with_session w (set_online_cache s c') in
      if Nat.ltb 0 (length t) then send w1 [UOnlineMsg t (u_online_is_final s)] else w1
  | Exc _ => w
  end.

(** ** [async_vad] (lines 326-335), which no handler calls

    The unified collaborators have no VAD model, so the call
    [model_vad.generate(input=..., cache=status_dict_vad["cache"])] is an
    argument: it returns the result list ([None] for Python's [None],
    each element the ["value"] of its dict) and the cache it updated in
    place, or raises.  Every exception, the [IndexError] of an empty
    result list included, gives [[]]. *)
Definition u_async_vad (vad_generate : Cache -> bytes -> raises (option (list (list (Z * Z))) * Cache))
    (s : usession) (audio_in : bytes) : list (Z * Z) * usession :=
  match vad_generate (u_vad_cache s) audio_in with
  | Exc _ => ([], s)
  | Ret (vad_res, cache') =>
      let s' := {| u_hotword := u_hotword s; u_online_cache := u_online_cache s;
                   u_online_is_final := u_online_is_final s; u_chunk_size := u_chunk_size s;
                   u_vad_cache := cache'; u_punc_cache := u_punc_cache s;
                   u_chunk_interval := u_chunk_interval s; u_sent_text_length := u_sent_text_length s;
                   u_buffer := u_buffer s; u_stream_results := u_stream_results s;
                   u_wav_name := u_wav_name s; u_mode := u_mode s;
                   u_is_file_upload := u_is_file_upload s; u_is_speaking := u_is_speaking s |} in
      match vad_res with
      | Some (value :: _) => if Nat.ltb 0 (length value) then (value, s') else ([], s')
      | _ => ([], s')
      end
  end.

(** ** Control frames (lines 459-501) *)

(** The keys read before ["chunk_size"]: [is_speaking] (which also sets
    the online [is_final] and, when true, resets [sent_text_length]),
    [chunk_interval] and [wav_name]. *)
Definition control_prefix (c : control) (s : usession) : usession :=
  {| u_hotword := u_hotword s; u_online_cache := u_online_cache s;
     u_online_is_final := match c_is_speaking c with Some v => negb v | None => u_online_is_final s end;
     u_chunk_size := u_chunk_size s; u_vad_cache := u_vad_cache s; u_punc_cache := u_punc_cache s;
     u_chunk_interval := default (u_chunk_interval s) (c_chunk_interval c);
     u_sent_text_length := match c_is_speaking c with Some true => 0%nat | _ => u_sent_text_length s end;
     u_buffer := u_buffer s; u_stream_results := u_stream_results s;
     u_wav_name := default (u_wav_name s) (c_wav_name c);
     u_mode := u_mode s; u_is_file_upload := u_is_file_upload s;
     u_is_speaking := match c_is_speaking c with Some v => Some v | None => u_is_speaking s end |}.

(** The keys read after it: the parsed ["chunk_size"], [hotwords],
    [mode] and [is_file_upload]. *)
Definition control_suffix (c : control) (chunk_size : option (list Z)) (s : usession) : usession :=
  {| u_hotword := match c_hotwords c with Some h => Some h | None => u_hotword s end;
     u_online_cache := u_online_cache s; u_online_is_final := u_online_is_final s;
     u_chunk_size := match chunk_size with Some l => Some l | None => u_chunk_size s end;
     u_vad_cache := u_vad_cache s; u_punc_cache := u_punc_cache s;
     u_chunk_interval := u_chunk_interval s; u_sent_text_length := u_sent_text_length s;
     u_buffer := u_buffer s; u_stream_results := u_stream_results s; u_wav_name := u_wav_name s;
     u_mode := default (u_mode s) (c_mode c);
     u_is_file_upload := default (u_is_file_upload s) (c_is_file_upload c);
     u_is_speaking := u_is_speaking s |}.

(** [send_final_result] (lines 293-304): one ["is_final"] message with
    a timestamp; a failed send is logged and swallowed, and the socket of
    the model never fails. *)
Definition u_send_final_result (w : uworld) (text mode : pystr) : uworld :=
  send w [UFinalMsg text mode].

(** Lines 490-501: in upload mode, recognise the unprocessed bytes and
    send the merged stored texts; nothing is cleared. *)
Definition u_upload_complete (w : uworld) : uworld :=
  let s := uw_s w in
  if u_is_file_upload s then
    let remaining_data := uni_get_unprocessed_data (u_buffer s) in
    let w1 := if bool_decide (remaining_data = []) then w else u_async_asr w remaining_data in
    let s1 := uw_s w1 in
    if bool_decide (u_stream_results s1 = []) then w1
    else
      let final_text := u_merge_stream_results (u_stream_results s1) in
      if bool_decide (final_text = []) then w1 else u_send_final_result w1 final_text (u"final")
  else w.

(** Lines 459-501.  Parsing ["chunk_size"] raises on a part that is not
    an integer. *)
Definition u_handle_control (c : control) (w : uworld) : raises unit * uworld :=
  let w1 := with_session w (control_prefix c (uw_s w)) in
  let parsed := match c_chunk_size c with
                | Some v => raises_bind (chunk_size_ints v) (fun l => Ret (Some l))
                | None => Ret None
                end in
  match parsed with
  | Exc e => (Exc e, w1)
  | Ret cs =>
      let w2 := with_session w1 (control_suffix c cs (uw_s w1)) in
      (Ret tt, if c_upload_complete c then u_upload_complete w2 else w2)
  end.

(** ** Audio frames (lines 503-519) *)

Definition five_mib : Z := 5 * 1024 * 1024.

(** Lines 505-513: buffer the frame; past 5 MiB, recognise the
    unprocessed bytes and mark them processed. *)
Definition u_buffer_upload (message : bytes) (w : uworld) : uworld :=
  let s := uw_s w in
  let w1 := with_session w (set_buffer s (uni_add_chunk (u_buffer s) message)) in
  let b1 := u_buffer (uw_s w1) in
  if five_mib <? Z.of_nat (uni_get_buffer_size b1) then
    let unprocessed_data := uni_get_unprocessed_data b1 in
    if bool_decide (unprocessed_data = []) then w1
    else
      let w2 := u_async_asr w1 unprocessed_data in
      with_session w2 (set_buffer (uw_s w2)
                         (uni_mark_processed (u_buffer (uw_s w2)) (length unprocessed_data)))
  else w1.

Definition u_handle_binary (message : bytes) (w : uworld) : uworld :=
  if u_is_file_upload (uw_s w) then u_buffer_upload message w
  else if bool_decide (u_mode (uw_s w) = u"2pass") then u_async_asr w message
  else u_async_asr_online w message.

(** ** The connection *)

(** [ws_reset] (lines 306-319): fresh status dicts (so no chunk size and
    no hotword), the cursor reset, the buffer and the results cleared. *)
Definition u_ws_reset (s : usession) : usession :=
  {| u_hotword := None; u_online_cache := u_empty_dict M; u_online_is_final := false;
     u_chunk_size := None; u_vad_cache := u_empty_dict M; u_punc_cache := u_empty_dict M;
     u_chunk_interval := u_chunk_interval s; u_sent_text_length := 0;
     u_buffer := uni_clear (u_buffer s); u_stream_results := [];
     u_wav_name := u_wav_name s; u_mode := u_mode s; u_is_file_upload := u_is_file_upload s;
     u_is_speaking := u_is_speaking s |}.

(** The [finally] clause (lines 526-528); the registry is not modelled. *)
Definition u_finally (w : uworld) : uworld := with_session w (u_ws_reset (uw_s w)).

Inductive ustatus := UServing (w : uworld) | UEnded (w : uworld) (e : pystr).

(** One iteration of [async for message in websocket]; an exception goes
    to [except Exception] and then [finally]. *)
Definition u_step (w : uworld) (f : frame) : ustatus :=
  match f with
  | Text None => UEnded (u_finally w) (u"JSONDecodeError")
  | Text (Some c) =>
      match u_handle_control c w with
      | (Ret _, w') => UServing w'
      | (Exc e, w') => UEnded (u_finally w') e
      end
  | Binary message => UServing (u_handle_binary message w)
  end.

(** The frames of a connection, in order, until one ends it. *)
Fixpoint u_run (w : uworld) (fs : list frame) : ustatus :=
  match fs with
  | [] => UServing w
  | f :: fs' => match u_step w f with
                | UServing w' => u_run w' fs'
                | st => st
                end
  end.

(** [ConnectionClosed]: only the [finally] clause runs; nothing is sent. *)
Definition u_close (w : uworld) : uworld := u_finally w.

End Handler.

(** A control frame whose only key is ["upload_complete"]. *)
Definition upload_done : control :=
  {| c_is_speaking := None; c_chunk_interval := None; c_wav_name := None;
     c_chunk_size := None; c_encoder_chunk_look_back := None; c_decoder_chunk_look_back := None;
     c_hotwords := None; c_mode := None; c_is_file_upload := None; c_upload_complete := true |}.

(** ** Lemmas *)

Section Lemmas.
Context {Cache : Type} (M : umodels Cache).

(** The texts the streaming model returns for the frames [bs] when it is
    called with [is_final] [fin], threading its cache from [c]; a call
    that raises returns nothing and keeps the cache. *)
Fixpoint streaming_texts (c : Cache) (fin : bool) (bs : list bytes) : list pystr :=
  match bs with
  | [] => []
  | b :: bs' =>
      match u_streaming_generate M c fin b with
      | Ret (t, c') => t :: streaming_texts c' fin bs'
      | Exc _ => streaming_texts c fin bs'
      end
  end.

Lemma u_run_app w fs1 fs2 :
  u_run M w (fs1 ++ fs2) = match u_run M w fs1 with UServing w' => u_run M w' fs2 | st => st end.
Proof.
  revert w. induction fs1 as [|f fs1 IH]; intros w; [done|]. simpl.
  destruct (u_step M w f); [apply IH | done].
Qed.

(** A control frame with no key but [upload_complete] changes nothing
    before the flush. *)
Lemma control_prefix_none c (s : usession (Cache := Cache)) :
  c_is_speaking c = None -> c_chunk_interval c = None -> c_wav_name c = None ->
  control_prefix c s = s.
Proof. intros H1 H2 H3. unfold control_prefix. rewrite H1, H2, H3. by destruct s. Qed.

Lemma control_suffix_none c (s : usession (Cache := Cache)) :
  c_hotwords c = None -> c_mode c = None -> c_is_file_upload c = None ->
  control_suffix c None s = s.
Proof. intros H1 H2 H3. unfold control_suffix. rewrite H1, H2, H3. by destruct s. Qed.

(** An upload buffer of at most 5 MiB under the 100 MiB capacity. *)
Definition small_upload (b : UnifiedAudioBuffer.t) (acc : bytes) : Prop :=
  b = {| buffer := acc; max_buffer_size := 100 * 1024 * 1024; processed_size := 0 |}.

(** Below 5 MiB, an upload frame is appended to the buffer and nothing
    else happens. *)
Lemma u_handle_binary_small w acc m :
  u_is_file_upload (uw_s w) = true -> small_upload (u_buffer (uw_s w)) acc ->
  Z.of_nat (length acc + length m) <= five_mib ->
  u_handle_binary M m w =
  with_session w (set_buffer (uw_s w)
    {| buffer := acc ++ m; max_buffer_size := 100 * 1024 * 1024; processed_size := 0 |}).
Proof.
  unfold u_handle_binary, u_buffer_upload, small_upload, five_mib. intros Hu Hb Hl.
  rewrite Hu. destruct w as [s g sent]; simpl in *. rewrite Hb.
  unfold uni_add_chunk, uni_get_buffer_size. simpl.
  destruct (Z.ltb_spec (100 * 1024 * 1024) (Z.of_nat (length acc + length m))); [lia|]. simpl.
  rewrite length_app.
  destruct (Z.ltb_spec (5 * 1024 * 1024) (Z.of_nat (length acc + length m))); [lia | done].
Qed.

Lemma u_run_upload_small w acc fs :
  u_is_file_upload (uw_s w) = true -> small_upload (u_buffer (uw_s w)) acc ->
  Z.of_nat (length acc + length (concat fs)) <= five_mib ->
  u_run M w (map Binary fs) =
  UServing (with_session w (set_buffer (uw_s w)
              {| buffer := acc ++ concat fs; max_buffer_size := 100 * 1024 * 1024;
                 processed_size := 0 |})).
Proof.
  revert w acc. induction fs as [|m fs IH]; intros w acc Hu Hb Hl.
  - rewrite app_nil_r. unfold small_upload in Hb. destruct w as [[] g sent]. simpl in *. by subst.
  - simpl in *. rewrite length_app in Hl.
    rewrite (u_handle_binary_small w acc m Hu Hb) by lia.
    rewrite (IH _ (acc ++ m)); [| exact Hu | reflexivity | rewrite length_app; lia].
    by rewrite <- app_assoc.
Qed.


(** [async_asr] touches neither the buffer nor the earlier stored texts. *)
Lemma u_async_asr_buffer w a :
  u_buffer (uw_s (u_async_asr M w a)) = u_buffer (uw_s w) /\
  (u_stream_results (uw_s w) `prefix_of` u_stream_results (uw_s (u_async_asr M w a))).
Proof.
  unfold u_async_asr. destruct (unified_check_memory _ _ _) as [[] g1]; simpl; [|done].
  case_if; [destruct (asr_chunk_loop _ _ _ _ _ _ _); simpl; split; [done | by eexists]|].
  destruct (u_asr_generate M true _ a); simpl; [|done].
  case_if; simpl; [split; [done | by eexists] | done].
Qed.

End Lemmas.

(** ** Properties *)

Section Props.
Context {Cache : Type} (M : umodels Cache).

(** C37: a file upload of at most 5 MiB is lossless: the frames are
    buffered in order with nothing recognised on the way, and the
    [upload_complete] frame flushes a buffer whose unprocessed bytes are
    exactly the uploaded audio. *)
Theorem u_upload_lossless w fs :
  u_is_file_upload (uw_s w) = true -> small_upload (u_buffer (uw_s w)) [] ->
  Z.of_nat (length (concat fs)) <= five_mib ->
  u_run M w (map Binary fs ++ [Text (Some upload_done)]) =
  UServing (u_upload_complete M
              (with_session w (set_buffer (uw_s w)
                 {| buffer := concat fs; max_buffer_size := 100 * 1024 * 1024;
                    processed_size := 0 |}))).
Proof.
  intros Hu Hb Hl. rewrite u_run_app, (u_run_upload_small M w []); [|done|done|done]. simpl.
  unfold u_handle_control. rewrite control_prefix_none, control_suffix_none by done. done.
Qed.

(** C38: [upload_complete] clears neither the buffer nor the stored
    results (spec scenario D says it clears both): a second
    [upload_complete] recognises the same bytes again and sends the
    results again, extended. *)
Theorem u_upload_complete_not_cleared w :
  u_buffer (uw_s (u_upload_complete M w)) = u_buffer (uw_s w) /\
  (u_stream_results (uw_s w) `prefix_of` u_stream_results (uw_s (u_upload_complete M w))).
Proof.
  unfold u_upload_complete. destruct (u_is_file_upload (uw_s w)); [|done].
  match goal with |- context [if _ then _ else ?w2] =>
    match w2 with context [@u_async_asr _ _ ?w0 ?a] => destruct (u_async_asr_buffer M w0 a) as [Hb Hp] end end.
  repeat case_if; simpl; try done; split; try done; by etrans; [|eexists].
Qed.

(** C39: when the memory guard refuses the audio, [async_asr] returns
    without sending anything (line 353): the audio is dropped silently,
    where spec 4.6 requires the refusal to be signalled. *)
Theorem u_async_asr_refused_silent w a :
  fst (unified_check_memory (u_empty_cache M) (uw_g w) (Z.of_nat (length a))) = false ->
  uw_sent (u_async_asr M w a) = uw_sent w /\ uw_s (u_async_asr M w a) = uw_s w.
Proof.
  intros H. unfold u_async_asr.
  destruct (unified_check_memory _ _ _) as [b g1]. simpl in H. by subst.
Qed.

(** C40: in every mode but ["2pass"] and outside an upload, each audio
    frame sends the whole text the streaming model returns, when it is not
    empty: the messages of a run of frames are the model's cumulative
    texts themselves, never the new suffixes that spec 4.4 and scenario B
    require; [sent_text_length] is never read. *)
Theorem u_online_whole_texts w bs :
  u_is_file_upload (uw_s w) = false -> u_mode (uw_s w) <> u"2pass" ->
  exists w', u_run M w (map Binary bs) = UServing w' /\
    uw_sent w' = uw_sent w ++ map (fun t => UOnlineMsg t (u_online_is_final (uw_s w)))
                   (filter (fun t => t <> []) (streaming_texts M (u_online_cache (uw_s w))
                                                  (u_online_is_final (uw_s w)) bs)).
Proof.
  revert w. induction bs as [|b bs IH]; intros w Hu Hm; simpl.
  { exists w. by rewrite app_nil_r. }
  unfold u_handle_binary, u_async_asr_online. rewrite Hu, bool_decide_eq_false_2 by done.
  destruct (u_streaming_generate M _ _ b) as [[t c']|e]; [|by apply IH].
  destruct (IH (if Nat.ltb 0 (length t)
                then send (with_session w (set_online_cache (uw_s w) c'))
                       [UOnlineMsg t (u_online_is_final (uw_s w))]
                else with_session w (set_online_cache (uw_s w) c')))
    as (w' & Hr & Hs); [by case_match|by case_match|].
  exists w'. split; [done|]. rewrite Hs.
  destruct t as [|x t]; simpl; [done|]. by rewrite <- app_assoc.
Qed.

End Props.

(** A streaming model whose cumulative text grows 你, 你好, 你好呀; its
    cache counts the calls. *)
Definition scenario_B_models : umodels nat :=
  {| u_empty_dict := 0%nat; u_asr_generate := fun _ _ _ => Ret [];
     u_streaming_generate := fun c _ _ =>
       Ret (nth c [[20320]; [20320; 22909]; [20320; 22909; 21568]] [], S c);
     u_empty_cache := fun g => g |}.

(** A control frame that selects the online mode. *)
Definition mode_online : control :=
  {| c_is_speaking := None; c_chunk_interval := None; c_wav_name := None;
     c_chunk_size := None; c_encoder_chunk_look_back := None; c_decoder_chunk_look_back := None;
     c_hotwords := None; c_mode := Some (u"online"); c_is_file_upload := None;
     c_upload_complete := false |}.

(** Scenario B on the unified server: in online mode each audio frame
    sends the whole cumulative text, 你, 你好, 你好呀, not the deltas 你,
    好, 呀 the specification requires (4.4); [sent_text_length] is kept but
    never read. *)
Example u_online_scenario_B :
  match u_run scenario_B_models
          {| uw_s := u_initial_session scenario_B_models; uw_g := no_gpu; uw_sent := [] |}
          [Text (Some mode_online); Binary [Byte.x00]; Binary [Byte.x00]; Binary [Byte.x00]] with
  | UServing w => uw_sent w = [UOnlineMsg [20320] false; UOnlineMsg [20320; 22909] false;
                               UOnlineMsg [20320; 22909; 21568] false]
  | UEnded _ _ => False
  end.
Proof. vm_compute. reflexivity. Qed.

(** The connection of scenario B once it has selected the online mode. *)
Definition scenario_B_world : uworld (Cache := nat) :=
  match u_step scenario_B_models
          {| uw_s := u_initial_session scenario_B_models; uw_g := no_gpu; uw_sent := [] |}
          (Text (Some mode_online)) with
  | UServing w | UEnded w _ => w
  end.

Lemma u_online_whole_texts_witness :
  exists w', u_run scenario_B_models scenario_B_world (map Binary [[Byte.x00]; [Byte.x00]; [Byte.x00]])
               = UServing w' /\
    uw_sent w' = uw_sent scenario_B_world ++
      map (fun t => UOnlineMsg t (u_online_is_final (uw_s scenario_B_world)))
        (filter (fun t => t <> [])
           (streaming_texts scenario_B_models (u_online_cache (uw_s scenario_B_world))
              (u_online_is_final (uw_s scenario_B_world)) [[Byte.x00]; [Byte.x00]; [Byte.x00]])).
Proof. apply u_online_whole_texts; [reflexivity | decide_closed]. Defined.

(** Models that recognise every audio as "a". *)
Definition const_umodels : umodels unit :=
  {| u_empty_dict := tt; u_asr_generate := fun _ _ _ => Ret [97];
     u_streaming_generate := fun c _ _ => Ret ([97], c); u_empty_cache := fun g => g |}.

(** A control frame that switches upload mode on. *)
Definition upload_on : control :=
  {| c_is_speaking := None; c_chunk_interval := None; c_wav_name := None;
     c_chunk_size := None; c_encoder_chunk_look_back := None; c_decoder_chunk_look_back := None;
     c_hotwords := None; c_mode := None; c_is_file_upload := Some true;
     c_upload_complete := false |}.

(** The world after a fresh connection receives [upload_on]. *)
Definition upload_uworld : uworld (Cache := unit) :=
  match u_step const_umodels
          {| uw_s := u_initial_session const_umodels; uw_g := no_gpu; uw_sent := [] |}
          (Text (Some upload_on)) with
  | UServing w => w
  | UEnded w _ => w
  end.

Lemma u_upload_lossless_witness :
  u_run const_umodels upload_uworld (map Binary [[Byte.x01]; [Byte.x02]] ++ [Text (Some upload_done)]) =
  UServing (u_upload_complete const_umodels
              (with_session upload_uworld (set_buffer (uw_s upload_uworld)
                 {| buffer := concat [[Byte.x01]; [Byte.x02]]; max_buffer_size := 100 * 1024 * 1024;
                    processed_size := 0 |}))).
Proof. apply u_upload_lossless; [reflexivity | reflexivity | vm_compute; discriminate]. Defined.

(** A GPU with 1 byte free that emptying the cache does not improve. *)
Definition tight_gpu : gpu := {| cuda_available := true; total_memory := 8; memory_allocated := 0; memory_reserved := 7 |}.

Definition tight_uworld : uworld (Cache := unit) :=
  {| uw_s := uw_s upload_uworld; uw_g := tight_gpu; uw_sent := [] |}.

Lemma u_async_asr_refused_silent_witness :
  uw_sent (u_async_asr const_umodels tight_uworld [Byte.x00]) = uw_sent tight_uworld /\
  uw_s (u_async_asr const_umodels tight_uworld [Byte.x00]) = uw_s tight_uworld.
Proof. apply u_async_asr_refused_silent. vm_compute. reflexivity. Defined.

(** Two [upload_complete] frames after a one-byte upload: the byte is
    recognised twice and the second final message repeats the text. *)
Example u_upload_complete_twice :
  match u_run const_umodels upload_uworld
          [Binary [Byte.x01]; Text (Some upload_done); Text (Some upload_done)] with
  | UServing w => uw_sent w = [UAsrMsg [97] true None; UFinalMsg [97] (u"final");
                               UAsrMsg [97] true None; UFinalMsg [97; 97] (u"final")]
  | UEnded _ _ => False
  end.
Proof. vm_compute. reflexivity. Qed.

End Unified.
