(* ===== verification/Server.v ===== *)
(** * ConnectionRegistry: the servers as sets of concurrent connections

    Each server runs one [ws_serve] task per connection.  The tasks share
    the module-level set [websocket_users], the GPU and the models; each
    task owns its websocket's attributes.  The tasks interleave at frame
    boundaries (one frame is handled to completion before the next one of
    that connection), so a run of a server is a sequence of [event]s:
    a connection opens ([ws_serve] starts), one of its frames arrives, or
    its socket closes.

    - [wss_event]: funasr_wss_server.py.  [ws_serve] adds the websocket
      to [websocket_users] (line 299), serves frames with
      [Session.ws_step], and removes it only in the [ConnectionClosed]
      handler (line 470); a frame that raises ends the handler through
      [except Exception] (lines 478-483), which does not.
    - [uni_event]: funasr_unified_server.py.  [ws_serve] adds the
      websocket (line 441), serves frames with [Unified.u_step], and its
      [finally] clause discards it on every exit (line 527).
    - [health_check] and [get_status] (unified lines 641-667) report the
      registry size, the GPU memory and which models are loaded.
    - [wss_clear_websocket] and [uni_clear_websocket] (wss 287-290,
      unified 321-324), never called by the servers.
    - Section [View]: [served_alone] says that a connection's sessions and
      messages in an interleaved run are those of its own handler
      ([wss_local], [uni_local]) run alone on its own events, for some GPU
      states; it follows for any server step from two hypotheses (own
      events act through the local handler, other events leave the
      connection alone), and [per_connection_view] discharges them for
      both servers.

    The state of a server is a [gmap] from connections to the sessions of
    the handlers still running, the registry as a [gset], the shared GPU
    and the messages sent, tagged with their connection. *)

From Stdlib Require Import ZArith Lia String.
From stdpp Require Import base list gmap sets.
From S2P Require Import Prelude ResourceGuard Recognizers Session Unified.

Local Open Scope Z_scope.
Local Open Scope py_scope.

Module Server.
Import ResourceGuard Recognizers Session Unified.

(** A connection: the identity of its websocket object. *)
Abbreviation conn := nat.

(** What a server sees of its connections. *)
Inductive event :=
| Connect (c : conn)               (** a client connects: [ws_serve] starts *)
| Recv (c : conn) (f : frame)      (** the next frame of [c] *)
| Disconnect (c : conn).           (** the socket of [c] closes *)

Definition event_conn (e : event) : conn :=
  match e with Connect c | Recv c _ | Disconnect c => c end.

(** ** The wss server *)

Section Wss.
Context {Cache : Type} (M : models Cache).

Record wss_server := {
  ws_sessions : gmap conn (session (Cache := Cache));  (** handlers still running *)
  websocket_users : gset conn;
  ws_gpu : gpu;
  ws_out : list (conn * out_msg)
}.

Definition wss_event (sv : wss_server) (e : event) : wss_server :=
  match e with
  | Connect c =>
      {| ws_sessions := <[c := initial_session M]> (ws_sessions sv);
         websocket_users := {[c]} ∪ websocket_users sv;
         ws_gpu := ws_gpu sv; ws_out := ws_out sv |}
  | Recv c f =>
      match ws_sessions sv !! c with
      | None => sv
      | Some s =>
          let '(st, g', out) := ws_step M s (ws_gpu sv) f in
          {| ws_sessions := match st with
                            | Serving s' => <[c := s']> (ws_sessions sv)
                            | Ended _ _ => delete c (ws_sessions sv)
                            end;
             websocket_users := websocket_users sv;
             ws_gpu := g'; ws_out := ws_out sv ++ map (pair c) out |}
      end
  | Disconnect c =>
      match ws_sessions sv !! c with
      | None => sv
      | Some s =>
          let '(_, out) := ws_close M s in
          {| ws_sessions := delete c (ws_sessions sv);
             websocket_users := websocket_users sv ∖ {[c]};
             ws_gpu := ws_gpu sv; ws_out := ws_out sv ++ map (pair c) out |}
      end
  end.

(** One connection's [ws_serve] alone, event by event: its session (while
    its handler runs), the GPU state it finds, and the messages it sends. *)
Definition wss_local (st : option (session (Cache := Cache))) (g : gpu) (e : event)
  : option (session (Cache := Cache)) * list out_msg :=
  match e with
  | Connect _ => (Some (initial_session M), [])
  | Recv _ f =>
      match st with
      | None => (None, [])
      | Some s =>
          let '(r, _, out) := ws_step M s g f in
          (match r with Serving s' => Some s' | Ended _ _ => None end, out)
      end
  | Disconnect _ =>
      match st with
      | None => (None, [])
      | Some s => (None, snd (ws_close M s))
      end
  end.

Definition wss_run (sv : wss_server) (es : list event) : wss_server := foldl wss_event sv es.

(** [clear_websocket] (lines 287-290), whose only call (line 298) is
    commented out: every registered websocket is reset by [ws_reset]
    (which also closes its socket, so its handler next sees
    [ConnectionClosed]) and the registry is emptied. *)
Definition wss_clear_websocket (sv : wss_server) : wss_server :=
  {| ws_sessions := map_imap (fun c s => Some (if bool_decide (c ∈ websocket_users sv)
                                               then ws_reset M s else s)) (ws_sessions sv);
     websocket_users := ∅; ws_gpu := ws_gpu sv; ws_out := ws_out sv |}.

(** The server at start-up: [websocket_users = set()] (line 68). *)
Definition wss_init (g : gpu) : wss_server :=
  {| ws_sessions := ∅; websocket_users := ∅; ws_gpu := g; ws_out := [] |}.

(** The frame ended its handler. *)
Definition ended (r : status (Cache := Cache) * gpu * list out_msg) : bool :=
  match r with (Ended _ _, _, _) => true | _ => false end.

End Wss.

(** ** The unified server *)

Section Uni.
Context {Cache : Type} (M : umodels Cache).

Record uni_server := {
  us_sessions : gmap conn (usession (Cache := Cache));
  us_users : gset conn;
  us_gpu : gpu;
  us_out : list (conn * umsg)
}.

(** The world a connection's frame is served in. *)
Definition conn_world (sv : uni_server) (s : usession (Cache := Cache)) : uworld (Cache := Cache) :=
  {| uw_s := s; uw_g := us_gpu sv; uw_sent := [] |}.

Definition uni_event (sv : uni_server) (e : event) : uni_server :=
  match e with
  | Connect c =>
      {| us_sessions := <[c := u_initial_session M]> (us_sessions sv);
         us_users := {[c]} ∪ us_users sv; us_gpu := us_gpu sv; us_out := us_out sv |}
  | Recv c f =>
      match us_sessions sv !! c with
      | None => sv
      | Some s =>
          match u_step M (conn_world sv s) f with
          | UServing w =>
              {| us_sessions := <[c := uw_s w]> (us_sessions sv); us_users := us_users sv;
                 us_gpu := uw_g w; us_out := us_out sv ++ map (pair c) (uw_sent w) |}
          | UEnded w _ =>
              {| us_sessions := delete c (us_sessions sv); us_users := us_users sv ∖ {[c]};
                 us_gpu := uw_g w; us_out := us_out sv ++ map (pair c) (uw_sent w) |}
          end
      end
  | Disconnect c =>
      match us_sessions sv !! c with
      | None => sv
      | Some s =>
          let w := u_close M (conn_world sv s) in
          {| us_sessions := delete c (us_sessions sv); us_users := us_users sv ∖ {[c]};
             us_gpu := uw_g w; us_out := us_out sv ++ map (pair c) (uw_sent w) |}
      end
  end.

(** One connection's unified [ws_serve] alone, event by event. *)
Definition uni_local (st : option (usession (Cache := Cache))) (g : gpu) (e : event)
  : option (usession (Cache := Cache)) * list umsg :=
  match e with
  | Connect _ => (Some (u_initial_session M), [])
  | Recv _ f =>
      match st with
      | None => (None, [])
      | Some s =>
          match u_step M {| uw_s := s; uw_g := g; uw_sent := [] |} f with
          | UServing w => (Some (uw_s w), uw_sent w)
          | UEnded w _ => (None, uw_sent w)
          end
      end
  | Disconnect _ =>
      match st with
      | None => (None, [])
      | Some s => (None, uw_sent (u_close M {| uw_s := s; uw_g := g; uw_sent := [] |}))
      end
  end.

Definition uni_run (sv : uni_server) (es : list event) : uni_server := foldl uni_event sv es.

(** [clear_websocket] (lines 321-324), never called: the registry is
    emptied and the handlers keep running. *)
Definition uni_clear_websocket (sv : uni_server) : uni_server :=
  {| us_sessions := us_sessions sv; us_users := ∅; us_gpu := us_gpu sv; us_out := us_out sv |}.

(** The server at start-up: [websocket_users = set()] (line 90). *)
Definition uni_init (g : gpu) : uni_server :=
  {| us_sessions := ∅; us_users := ∅; us_gpu := g; us_out := [] |}.

(** ** [/api/health] and [/api/status] *)

(** Which module-level models are not [None]. *)
Record presence := {
  asr_loaded : bool; asr_streaming_loaded : bool; vad_loaded : bool;
  punc_loaded : bool; file_loaded : bool
}.

Record health := {
  h_status : pystr;
  h_websocket_model_loaded : bool;
  h_file_model_loaded : bool;
  h_websocket_users : nat
}.

(** Lines 641-649. *)
Definition health_check (p : presence) (sv : uni_server) : health :=
  {| h_status := u"ok"; h_websocket_model_loaded := asr_loaded p && asr_streaming_loaded p;
     h_file_model_loaded := file_loaded p; h_websocket_users := size (us_users sv) |}.

Record status := {
  st_websocket_port : Z;
  st_api_port : Z;
  st_connected_users : nat;
  st_gpu_memory : option memory_info;
  st_models : presence
}.

(** Lines 651-667. *)
Definition get_status (ws_port api_port : Z) (p : presence) (sv : uni_server) : status :=
  {| st_websocket_port := ws_port; st_api_port := api_port;
     st_connected_users := size (us_users sv); st_gpu_memory := get_gpu_memory_info (us_gpu sv);
     st_models := p |}.

End Uni.

(** ** One connection's view of a run

    A server step on events, the session of each connection, the tagged
    messages sent, and [local], the connection served alone.  When every
    event acts on its own connection as [local] does, given the GPU state
    of the moment, and leaves the other connections alone, then in every
    run each connection sees exactly a run of [local] on its own events:
    the interleaving is visible to it only through the GPU states. *)
Section View.
Context {Sv St Msg : Type}.
Variable step : Sv -> event -> Sv.
Variable sess : Sv -> conn -> option St.
Variable out : Sv -> list (conn * Msg).
Variable local : option St -> gpu -> event -> option St * list Msg.

(** The messages of connection [c], in the order they were sent. *)
Definition msgs_of (c : conn) (l : list (conn * Msg)) : list Msg :=
  map snd (filter (fun p => fst p = c) l).

Definition own_events (c : conn) (es : list event) : list event :=
  filter (fun e => event_conn e = c) es.

(** [local] on a sequence of events, the [i]-th finding the [i]-th GPU state. *)
Fixpoint local_run (st : option St) (gs : list gpu) (es : list event) : option St * list Msg :=
  match es, gs with
  | e :: es', g :: gs' =>
      let '(st', ms) := local st g e in
      let '(st'', ms') := local_run st' gs' es' in (st'', ms ++ ms')
  | _, _ => (st, [])
  end.

(** After the run [es] from [sv], connection [c] is where [local] takes it
    on its own events, for some GPU states. *)
Definition served_alone (sv : Sv) (es : list event) (c : conn) : Prop :=
  exists gs, length gs = length (own_events c es) /\
    sess (foldl step sv es) c = fst (local_run (sess sv c) gs (own_events c es)) /\
    msgs_of c (out (foldl step sv es)) = msgs_of c (out sv) ++ snd (local_run (sess sv c) gs (own_events c es)).

Hypothesis step_own : forall sv e, exists g,
  sess (step sv e) (event_conn e) = fst (local (sess sv (event_conn e)) g e) /\
  out (step sv e) = out sv ++ map (pair (event_conn e)) (snd (local (sess sv (event_conn e)) g e)).

Hypothesis step_other : forall sv e c, c <> event_conn e -> sess (step sv e) c = sess sv c.

Lemma msgs_of_tagged c c' l ms :
  msgs_of c (l ++ map (pair c') ms) = msgs_of c l ++ (if decide (c' = c) then ms else []).
Proof.
  unfold msgs_of. rewrite filter_app, map_app. f_equal.
  destruct (decide (c' = c)) as [<-|Hne]; induction ms as [|m ms IH]; try done.
  - rewrite map_cons, filter_cons, decide_True by done.
    simpl. by rewrite IH.
  - rewrite map_cons, filter_cons, decide_False by done. done.
Qed.

Lemma served_alone_all sv es c : served_alone sv es c.
Proof.
  unfold served_alone. revert sv.
  induction es as [|e es IH]; intros sv; [exists []; simpl; by rewrite app_nil_r|].
  destruct (step_own sv e) as (g & Hs & Ho).
  destruct (IH (step sv e)) as (gs & Hlen & Hs' & Ho'). cbn [foldl].
  unfold own_events. rewrite filter_cons. case_decide as Hc.
  - subst c. exists (g :: gs). fold (own_events (event_conn e) es).
    rewrite Ho, msgs_of_tagged, decide_True in Ho' by done. rewrite Hs in Hs', Ho'.
    cbn [local_run length]. split; [by rewrite Hlen|].
    destruct (local (sess sv (event_conn e)) g e) as [st' ms]. simpl in *.
    destruct (local_run st' gs (own_events (event_conn e) es)) as [st'' ms']. simpl in *.
    rewrite <- app_assoc in Ho'. done.
  - exists gs. fold (own_events c es). rewrite step_other in Hs' by congruence.
    rewrite step_other, Ho, msgs_of_tagged, decide_False, app_nil_r in Ho' by congruence. done.
Qed.

End View.

(** ** Properties *)

Section WssProps.
Context {Cache : Type} (M : models Cache).

(** The registry of the wss server contains every running handler. *)
Lemma wss_event_registry sv e :
  dom (ws_sessions sv) ⊆ websocket_users sv ->
  dom (ws_sessions (wss_event M sv e)) ⊆ websocket_users (wss_event M sv e).
Proof.
  intros H. destruct e as [c|c f|c]; simpl.
  - rewrite dom_insert_L. set_solver.
  - destruct (ws_sessions sv !! c) eqn:E; [|done].
    destruct (ws_step M _ _ f) as [[[s'|s' e] g'] out]; simpl.
    + rewrite dom_insert_L. apply elem_of_dom_2 in E. set_solver.
    + rewrite dom_delete_L. set_solver.
  - destruct (ws_sessions sv !! c) as [s|] eqn:E; [|done].
    destruct (ws_close M s); simpl. rewrite dom_delete_L. set_solver.
Qed.

Lemma wss_run_registry sv es :
  dom (ws_sessions sv) ⊆ websocket_users sv ->
  dom (ws_sessions (wss_run M sv es)) ⊆ websocket_users (wss_run M sv es).
Proof.
  revert sv. induction es as [|e es IH]; intros sv H; [done|]. apply IH. by apply wss_event_registry.
Qed.

(** A connection registered without a running handler stays so, whatever
    the other connections do and whenever its socket closes. *)
Lemma wss_event_orphan sv e c :
  e <> Connect c -> c ∈ websocket_users sv -> ws_sessions sv !! c = None ->
  c ∈ websocket_users (wss_event M sv e) /\ ws_sessions (wss_event M sv e) !! c = None.
Proof.
  intros He Hc Hs. destruct e as [c'|c' f|c']; simpl.
  - assert (c' <> c) by congruence. rewrite lookup_insert_ne by done. set_solver.
  - destruct (decide (c' = c)) as [->|Hne]; [by rewrite Hs|].
    destruct (ws_sessions sv !! c'); [|done].
    destruct (ws_step M _ _ f) as [[[s'|s' e] g'] out]; simpl;
      [rewrite lookup_insert_ne | rewrite lookup_delete_ne]; done.
  - destruct (decide (c' = c)) as [->|Hne]; [by rewrite Hs|].
    destruct (ws_sessions sv !! c') as [s|]; [|done].
    destruct (ws_close M s); simpl. rewrite lookup_delete_ne by done. set_solver.
Qed.

(** C12: the wss registry leaks.  When a frame makes the handler of a
    connection raise (for instance a first frame without ["chunk_size"]),
    [except Exception] returns without [websocket_users.remove]: the
    connection stays registered with no handler running, and no later
    event but a new connection of the same websocket changes that; only
    the [ConnectionClosed] path deregisters, and it never runs for a
    handler that has returned. *)
Theorem wss_registry_leak g es1 c f s es2 :
  ws_sessions (wss_run M (wss_init g) es1) !! c = Some s ->
  ended (ws_step M s (ws_gpu (wss_run M (wss_init g) es1)) f) = true ->
  Forall (fun e => e <> Connect c) es2 ->
  c ∈ websocket_users (wss_run M (wss_event M (wss_run M (wss_init g) es1) (Recv c f)) es2) /\
  ws_sessions (wss_run M (wss_event M (wss_run M (wss_init g) es1) (Recv c f)) es2) !! c = None.
Proof.
  set (sv := wss_run M (wss_init g) es1). intros Hs He Hes.
  assert (Hreg : c ∈ websocket_users sv).
  { pose proof (wss_run_registry (wss_init g) es1 ltac:(simpl; set_solver)) as Hd.
    apply elem_of_dom_2 in Hs. set_solver. }
  assert (H0 : c ∈ websocket_users (wss_event M sv (Recv c f)) /\
               ws_sessions (wss_event M sv (Recv c f)) !! c = None).
  { simpl. rewrite Hs. destruct (ws_step M s (ws_gpu sv) f) as [[[s'|s' e] g'] out]; [done|].
    simpl. split; [done | apply lookup_delete_eq]. }
  clear Hs He. revert H0. generalize (wss_event M sv (Recv c f)).
  induction Hes as [|e es Hne _ IH]; intros sv' [H1 H2]; [done|].
  apply IH. by apply wss_event_orphan.
Qed.

End WssProps.

Section UniProps.
Context {Cache : Type} (M : umodels Cache).

Lemma uni_event_registry sv e :
  us_users sv = dom (us_sessions sv) -> us_users (uni_event M sv e) = dom (us_sessions (uni_event M sv e)).
Proof.
  intros H. destruct e as [c|c f|c]; simpl.
  - by rewrite dom_insert_L, H.
  - destruct (us_sessions sv !! c) eqn:E; [|done].
    destruct (u_step M _ f); simpl.
    + rewrite dom_insert_lookup_L; [done | by eexists].
    + by rewrite dom_delete_L, H.
  - destruct (us_sessions sv !! c) eqn:E; [|done]. simpl. by rewrite dom_delete_L, H.
Qed.

End UniProps.

(** C20: the unified registry is exact.  Whatever the interleaving of
    connections, frames and closes since start-up, [websocket_users] is
    exactly the set of connections whose handler is running (the
    [finally] clause discards on every exit), so [/api/health] and
    [/api/status] report the number of running handlers. *)
Theorem uni_status_counts_live {Cache} (M : umodels Cache) g es ws_port api_port p :
  us_users (uni_run M (uni_init g) es) = dom (us_sessions (uni_run M (uni_init g) es)) /\
  st_connected_users (get_status ws_port api_port p (uni_run M (uni_init g) es))
    = size (us_sessions (uni_run M (uni_init g) es)) /\
  h_websocket_users (health_check p (uni_run M (uni_init g) es))
    = size (us_sessions (uni_run M (uni_init g) es)).
Proof.
  assert (H : us_users (uni_run M (uni_init g) es) = dom (us_sessions (uni_run M (uni_init g) es))).
  { unfold uni_run.
    enough (forall sv, us_users sv = dom (us_sessions sv) ->
                       us_users (foldl (uni_event M) sv es) = dom (us_sessions (foldl (uni_event M) sv es)))
      as Hgen by (apply Hgen; cbn [us_users us_sessions uni_init]; by rewrite dom_empty_L).
    induction es as [|e es IH]; intros sv Hsv; [done|]. apply IH. by apply uni_event_registry. }
  split; [done|]. simpl. rewrite H, size_dom. done.
Qed.

(** Connections are isolated: an event of one connection leaves the
    session of every other connection unchanged, on both servers (only the
    GPU, the models and the registry are shared). *)
Theorem events_isolated {Cache Cache'} (M : models Cache) (M' : umodels Cache') e c :
  c <> event_conn e ->
  (forall sv, ws_sessions (wss_event M sv e) !! c = ws_sessions sv !! c) /\
  (forall sv, us_sessions (uni_event M' sv e) !! c = us_sessions sv !! c).
Proof.
  intros Hc. split; intros sv; destruct e as [c'|c' f|c']; simpl in *;
    repeat case_match; simpl; rewrite ?lookup_insert_ne, ?lookup_delete_ne; done.
Qed.

Lemma wss_event_own {Cache} (M : models Cache) sv e : exists g,
  ws_sessions (wss_event M sv e) !! event_conn e = fst (wss_local M (ws_sessions sv !! event_conn e) g e) /\
  ws_out (wss_event M sv e) =
    ws_out sv ++ map (pair (event_conn e)) (snd (wss_local M (ws_sessions sv !! event_conn e) g e)).
Proof.
  exists (ws_gpu sv). destruct e as [c|c f|c]; simpl.
  - by rewrite lookup_insert_eq, app_nil_r.
  - destruct (ws_sessions sv !! c) as [s|] eqn:E; simpl; [|by rewrite E, app_nil_r].
    destruct (ws_step M s (ws_gpu sv) f) as [[[s'|s' e] g'] out]; simpl;
      [rewrite lookup_insert_eq | rewrite lookup_delete_eq]; done.
  - destruct (ws_sessions sv !! c) as [s|] eqn:E; simpl; [|by rewrite E, app_nil_r].
    destruct (ws_close M s) as [s' out]. simpl. by rewrite lookup_delete_eq.
Qed.

Lemma uni_event_own {Cache} (M : umodels Cache) sv e : exists g,
  us_sessions (uni_event M sv e) !! event_conn e = fst (uni_local M (us_sessions sv !! event_conn e) g e) /\
  us_out (uni_event M sv e) =
    us_out sv ++ map (pair (event_conn e)) (snd (uni_local M (us_sessions sv !! event_conn e) g e)).
Proof.
  exists (us_gpu sv). destruct e as [c|c f|c]; simpl.
  - by rewrite lookup_insert_eq, app_nil_r.
  - destruct (us_sessions sv !! c) as [s|] eqn:E; simpl; [|by rewrite E, app_nil_r].
    unfold conn_world. destruct (u_step M _ f); simpl;
      [rewrite lookup_insert_eq | rewrite lookup_delete_eq]; done.
  - destruct (us_sessions sv !! c) as [s|] eqn:E; simpl; [|by rewrite E, app_nil_r].
    by rewrite lookup_delete_eq.
Qed.

(** C2: each connection sees the server as if it were served alone.  On
    both servers, after any interleaving of events of any connections,
    the session of a connection and the messages it was sent, in order,
    are those of its own [ws_serve] run on its own events alone (for the
    GPU states it found): the other connections are invisible to it but
    through the shared GPU, and its messages keep the order of its
    frames (the ordering guarantee of spec section 4.3). *)
Theorem per_connection_view {Cache Cache'} (M : models Cache) (M' : umodels Cache') sv sv' es c :
  served_alone (wss_event M) (fun sv c => ws_sessions sv !! c) ws_out (wss_local M) sv es c /\
  served_alone (uni_event M') (fun sv c => us_sessions sv !! c) us_out (uni_local M') sv' es c.
Proof.
  split; apply served_alone_all; [apply wss_event_own | | apply uni_event_own |];
    intros ? e ? Hc; by apply (events_isolated M M' e).
Qed.


(** A client whose first frame is audio (no ["chunk_size"] yet): the
    handler raises [KeyError] and connection 1 stays registered after its
    socket closes. *)
Lemma wss_registry_leak_witness :
  1%nat ∈ websocket_users (wss_run const_models
           (wss_event const_models (wss_run const_models (wss_init no_gpu) [Connect 1])
              (Recv 1 (Binary [Byte.x01]))) [Disconnect 1]) /\
  ws_sessions (wss_run const_models
           (wss_event const_models (wss_run const_models (wss_init no_gpu) [Connect 1])
              (Recv 1 (Binary [Byte.x01]))) [Disconnect 1]) !! 1%nat = None.
Proof.
  apply (wss_registry_leak const_models no_gpu [Connect 1] 1 (Binary [Byte.x01])
           (initial_session const_models)).
  - reflexivity.
  - vm_compute. reflexivity.
  - repeat constructor. discriminate.
Defined.

End Server.
