(* ===== verification/Bootstrap.v ===== *)
(** * Bootstrap: command lines, model loading and server start-up

    - [WssArgs] and [UnifiedArgs]: the [argparse] options of
      funasr_wss_server.py (lines 14-65) and funasr_unified_server.py
      (lines 28-87), with their defaults.
    - [wss_load_models]: the module-level model loading of the wss server
      (lines 73-127): four [AutoModel] calls, the punctuation model only
      when [--punc_model] is not empty, and no handler, so a failure ends
      the process.
    - [init_models]: the unified server's [init_models] (lines 109-198):
      the five globals are assigned one after the other, and an exception
      is re-raised with the globals assigned so far left set.
    - [start_server]: the TLS choice of [start_websocket_server] and
      [start_fastapi_server] (lines 669-714): TLS when [--certfile] is not
      empty; a certificate that does not load is logged and the server
      does not start.
    - [unified_main]: the [__main__] block (lines 716-741).
    - [api_init_model] and [api_main]: [init_model] of funasr_api_server.py
      (lines 31-51) and its [__main__] block (lines 170-183).

    [AutoModel(model=..., model_revision=..., ...)] is the parameter
    [load], a function of the model path and revision that loads the
    model or raises; the device options it is also given decide only
    where the model runs.  Loading a certificate is the parameter
    [load_cert].  Binding a port, the event loops and logging are not
    modelled. *)

From Stdlib Require Import ZArith Lia String.
From stdpp Require Import base list.
From S2P Require Import Prelude Server.

Local Open Scope Z_scope.
Local Open Scope py_scope.

Module WssArgs.
Record t := {
  host : pystr; port : Z;
  asr_model : pystr; asr_model_revision : pystr;
  asr_model_online : pystr; asr_model_online_revision : pystr;
  vad_model : pystr; vad_model_revision : pystr;
  punc_model : pystr; punc_model_revision : pystr;
  ngpu : Z; device : pystr; ncpu : Z;
  certfile : pystr; keyfile : pystr
}.

(** The defaults of lines 14-65. *)
Definition defaults : t :=
  {| host := u"0.0.0.0"; port := 10095;
     asr_model := u"/home/dell/mnt/ai-work/Meeting/models/speech_paraformer-large-vad-punc_asr_nat-zh-cn-16k-common-vocab8404-pytorch";
     asr_model_revision := u"v2.0.4";
     asr_model_online := u"/home/dell/mnt/ai-work/Meeting/models/speech_paraformer-large_asr_nat-zh-cn-16k-common-vocab8404-online";
     asr_model_online_revision := u"v2.0.4";
     vad_model := u"/home/dell/mnt/ai-work/Meeting/models/speech_fsmn_vad_zh-cn-16k-common-pytorch";
     vad_model_revision := u"v2.0.4";
     punc_model := u"/home/dell/mnt/ai-work/Meeting/models/punc_ct-transformer_zh-cn-common-vad_realtime-vocab272727";
     punc_model_revision := u"v2.0.4";
     ngpu := 1; device := u"cuda"; ncpu := 4;
     certfile := u"/home/dell/mnt/ai-work/Meeting/ssl_key/server.crt";
     keyfile := u"/home/dell/mnt/ai-work/Meeting/ssl_key/server.key" |}.
End WssArgs.

Module UnifiedArgs.
Record t := {
  host : pystr; ws_port : Z; api_port : Z;
  asr_model : pystr; asr_model_revision : pystr;
  asr_model_online : pystr; asr_model_online_revision : pystr;
  vad_model : pystr; vad_model_revision : pystr;
  punc_model : pystr; punc_model_revision : pystr;
  file_model : pystr; file_model_revision : pystr;
  ngpu : Z; device : pystr; ncpu : Z;
  certfile : pystr; keyfile : pystr
}.

(** The defaults of lines 28-87. *)
Definition defaults : t :=
  {| host := u"0.0.0.0"; ws_port := 10095; api_port := 10096;
     asr_model := u"/home/dell/mnt/ai-work/Meeting/models/speech_paraformer-large-vad-punc_asr_nat-zh-cn-16k-common-vocab8404-pytorch";
     asr_model_revision := u"v2.0.4";
     asr_model_online := u"/home/dell/mnt/ai-work/Meeting/models/speech_paraformer-large_asr_nat-zh-cn-16k-common-vocab8404-online";
     asr_model_online_revision := u"v2.0.4";
     vad_model := u"/home/dell/mnt/ai-work/Meeting/models/speech_fsmn_vad_zh-cn-16k-common-pytorch";
     vad_model_revision := u"v2.0.4";
     punc_model := u"/home/dell/mnt/ai-work/Meeting/models/punc_ct-transformer_zh-cn-common-vad_realtime-vocab272727";
     punc_model_revision := u"v2.0.4";
     file_model := u"/home/dell/mnt/ai-work/Meeting/models/speech_paraformer-large-vad-punc-spk_asr_nat-zh-cn";
     file_model_revision := u"v2.0.4";
     ngpu := 1; device := u"cuda"; ncpu := 4;
     certfile := u"/home/dell/mnt/ai-work/Meeting/ssl_key/server.crt";
     keyfile := u"/home/dell/mnt/ai-work/Meeting/ssl_key/server.key" |}.
End UnifiedArgs.

Module Bootstrap.
Import Server.

Section Loading.

(** [AutoModel(model=path, model_revision=revision, ...)] *)
Variable load : pystr -> pystr -> raises unit.

(** ** The wss server (lines 73-127) *)

(** The models loaded, or the exception that ends the process; there is
    no file model. *)
Definition wss_load_models (a : WssArgs.t) : raises presence :=
  _ <- load (WssArgs.asr_model a) (WssArgs.asr_model_revision a) ;;
  _ <- load (WssArgs.asr_model_online a) (WssArgs.asr_model_online_revision a) ;;
  _ <- load (WssArgs.vad_model a) (WssArgs.vad_model_revision a) ;;
  punc <- (if bool_decide (WssArgs.punc_model a <> [])
           then _ <- load (WssArgs.punc_model a) (WssArgs.punc_model_revision a) ;; Ret true
           else Ret false) ;;
  Ret {| asr_loaded := true; asr_streaming_loaded := true; vad_loaded := true;
         punc_loaded := punc; file_loaded := false |}.

(** ** The unified server (lines 109-198) *)

(** Each [global = AutoModel(...)] assigns the global once the model has
    loaded; an exception keeps the globals assigned before it. *)
Definition assign (name revision : pystr) (set : presence -> presence) (p : presence)
  : raises unit * presence :=
  match load name revision with
  | Ret _ => (Ret tt, set p)
  | Exc e => (Exc e, p)
  end.

Definition and_then (r : raises unit * presence) (k : presence -> raises unit * presence)
  : raises unit * presence :=
  match r with
  | (Ret _, p) => k p
  | (Exc e, p) => (Exc e, p)
  end.

Definition set_asr (p : presence) : presence :=
  {| asr_loaded := true; asr_streaming_loaded := asr_streaming_loaded p; vad_loaded := vad_loaded p;
     punc_loaded := punc_loaded p; file_loaded := file_loaded p |}.
Definition set_asr_streaming (p : presence) : presence :=
  {| asr_loaded := asr_loaded p; asr_streaming_loaded := true; vad_loaded := vad_loaded p;
     punc_loaded := punc_loaded p; file_loaded := file_loaded p |}.
Definition set_vad (p : presence) : presence :=
  {| asr_loaded := asr_loaded p; asr_streaming_loaded := asr_streaming_loaded p; vad_loaded := true;
     punc_loaded := punc_loaded p; file_loaded := file_loaded p |}.
Definition set_punc (b : bool) (p : presence) : presence :=
  {| asr_loaded := asr_loaded p; asr_streaming_loaded := asr_streaming_loaded p;
     vad_loaded := vad_loaded p; punc_loaded := b; file_loaded := file_loaded p |}.
Definition set_file (p : presence) : presence :=
  {| asr_loaded := asr_loaded p; asr_streaming_loaded := asr_streaming_loaded p;
     vad_loaded := vad_loaded p; punc_loaded := punc_loaded p; file_loaded := true |}.

(** The globals before [init_models]: all [None] (lines 90-94). *)
Definition no_models : presence :=
  {| asr_loaded := false; asr_streaming_loaded := false; vad_loaded := false;
     punc_loaded := false; file_loaded := false |}.

Definition init_models (a : UnifiedArgs.t) (p : presence) : raises unit * presence :=
  and_then (assign (UnifiedArgs.asr_model a) (UnifiedArgs.asr_model_revision a) set_asr p) (fun p =>
  and_then (assign (UnifiedArgs.asr_model_online a) (UnifiedArgs.asr_model_online_revision a)
              set_asr_streaming p) (fun p =>
  and_then (assign (UnifiedArgs.vad_model a) (UnifiedArgs.vad_model_revision a) set_vad p) (fun p =>
  and_then (if bool_decide (UnifiedArgs.punc_model a <> [])
            then assign (UnifiedArgs.punc_model a) (UnifiedArgs.punc_model_revision a) (set_punc true) p
            else (Ret tt, set_punc false p)) (fun p =>
  assign (UnifiedArgs.file_model a) (UnifiedArgs.file_model_revision a) set_file p)))).

(** [ssl_context.load_cert_chain(certfile, keyfile=keyfile)] *)
Variable load_cert : pystr -> pystr -> raises unit.

(** Lines 693-706 of the wss server: TLS when [--certfile] is not empty;
    nothing handles a certificate that does not load, and the process
    ends. *)
Definition wss_start_server (a : WssArgs.t) : raises bool :=
  if bool_decide (WssArgs.certfile a <> []) then
    _ <- load_cert (WssArgs.certfile a) (WssArgs.keyfile a) ;; Ret true
  else Ret false.

(** Lines 669-695 and 697-714: [Some tls] when the server starts, with
    TLS when [--certfile] is not empty; [None] when loading the
    certificate raises, which is logged. *)
Definition start_server (a : UnifiedArgs.t) : option bool :=
  if bool_decide (UnifiedArgs.certfile a <> []) then
    match load_cert (UnifiedArgs.certfile a) (UnifiedArgs.keyfile a) with
    | Ret _ => Some true
    | Exc _ => None
    end
  else Some false.

(** What the unified process ends up running. *)
Record launch := {
  ws_serving : option bool;
  api_serving : option bool;
  loaded : presence
}.

(** Lines 716-741: [init_models()], then the websocket server in a thread
    and the FastAPI server; an exception of [init_models] is logged and
    nothing is started. *)
Definition unified_main (a : UnifiedArgs.t) : option launch :=
  match init_models a no_models with
  | (Ret _, p) => Some {| ws_serving := start_server a; api_serving := start_server a; loaded := p |}
  | (Exc _, _) => None
  end.

(** ** The API server (lines 31-51) *)

(** [model = AutoModel(...)] with a fixed path: whether [model] is set. *)
Definition api_model_path : pystr :=
  u"/home/dell/mnt/ai-work/Meeting/models/speech_paraformer-large-vad-punc-spk_asr_nat-zh-cn".

Definition api_init_model : raises bool :=
  _ <- load api_model_path (u"v2.0.4") ;; Ret true.

(** The certificate and key passed to [uvicorn.run] (lines 178-179). *)
Definition api_certfile : pystr := u"/home/dell/mnt/ai-work/Meeting/ssl_key/server.crt".
Definition api_keyfile : pystr := u"/home/dell/mnt/ai-work/Meeting/ssl_key/server.key".

(** Lines 170-183: [init_model()], then the HTTPS server; an exception of
    either is logged and the process ends.  Whether the server runs. *)
Definition api_main : bool :=
  match api_init_model with
  | Exc _ => false
  | Ret _ => match load_cert api_certfile api_keyfile with Ret _ => true | Exc _ => false end
  end.

(** The models [init_models] has set once it returns. *)
Definition unified_loaded (a : UnifiedArgs.t) : presence :=
  {| asr_loaded := true; asr_streaming_loaded := true; vad_loaded := true;
     punc_loaded := bool_decide (UnifiedArgs.punc_model a <> []); file_loaded := true |}.

(** ** Properties *)

(** C24: the unified process starts its servers exactly when every model
    it loads has loaded: then the websocket models, the VAD and the file
    model are set, the punctuation model is set iff [--punc_model] is not
    empty, and [/api/health] reports both the websocket and the file
    models as loaded, whatever the connections; otherwise some
    [AutoModel] call raised and nothing is served. *)
Theorem unified_main_spec a :
  match unified_main a with
  | Some l => loaded l = unified_loaded a /\
      forall Cache (sv : uni_server (Cache := Cache)),
        h_websocket_model_loaded (health_check (loaded l) sv) = true /\
        h_file_model_loaded (health_check (loaded l) sv) = true
  | None => exists name rev e, load name rev = Exc e
  end.
Proof.
  unfold unified_main, init_models, and_then, assign.
  repeat (case_match; simplify_eq; try by eauto); simpl.
  all: (split; [unfold unified_loaded; f_equal; by case_bool_decide | done]).
Qed.

(** The API server runs exactly when its model and its certificate load. *)
Lemma api_main_spec :
  api_main = true <-> load api_model_path (u"v2.0.4") = Ret tt /\ load_cert api_certfile api_keyfile = Ret tt.
Proof.
  unfold api_main, api_init_model. simpl.
  destruct (load _ _) as [[]|]; destruct (load_cert _ _) as [[]|]; naive_solver.
Qed.

End Loading.

End Bootstrap.
