(* ===== verification/Tests.v ===== *)
(** * Tests: the scripts under src/test

    - [Module TestClient]: src/test/test.py, a websocket client of the
      streaming servers.  It sends [{"mode": "2pass", "is_speaking": True}]
      (line 18), the PCM file in [f.read(3200)] chunks (lines 21-25) and
      [{"is_speaking": False}] (line 28), then reads messages until it has
      one of mode ["2pass-online"] and one of mode ["2pass-offline"] or
      five seconds have passed (lines 31-56), and warns when no offline
      result came (lines 58-60).  The messages that arrive before the
      timeout are a list; wall-clock time is not modelled.  The frames are
      served by [Session.ws_step] (wss) and [Unified.u_run] (unified).
    - [Module Test02]: src/test/test02.py, which calls the file model once
      and prints the speaker turns with its own copy of the merging loop
      of [process_recognition_result], with the same float test.  Each
      line re-reads the start of the turn from the string [merged_time]
      with [split], [int()] and [float()] ([print_line]); [rel] relates
      its loop state to the servers' and C26 shows it prints the servers'
      line of every turn.
    - [Module Test4]: [format_speaker_diarization_result] of test4.py, and
      [Module Test3]: the lines test3.py prints, both with Python's float
      formatting ([PyFloat]); the pipelines they call are libraries.

    The theorems: the client sends the file losslessly in chunks of at
    most 3200 bytes; it never receives a result it recognises from either
    server; test02 prints the servers' line of each turn the server
    computes; test4 shows 60 seconds as the servers' [time_range] does. *)

From Stdlib Require Import ZArith Lia String.
From stdpp Require Import base list.
From S2P Require Import Prelude PyFloat Merger ResourceGuard Recognizers Session Unified.

Local Open Scope Z_scope.
Local Open Scope py_scope.

Module TestClient.
Import ResourceGuard Recognizers Session Unified.

(** Line 18: [{"mode": "2pass", "is_speaking": True}]. *)
Definition hello : control :=
  {| c_is_speaking := Some true; c_chunk_interval := None; c_wav_name := None;
     c_chunk_size := None; c_encoder_chunk_look_back := None; c_decoder_chunk_look_back := None;
     c_hotwords := None; c_mode := Some (u"2pass"); c_is_file_upload := None;
     c_upload_complete := false |}.

(** Line 28: [{"is_speaking": False}]. *)
Definition bye : control :=
  {| c_is_speaking := Some false; c_chunk_interval := None; c_wav_name := None;
     c_chunk_size := None; c_encoder_chunk_look_back := None; c_decoder_chunk_look_back := None;
     c_hotwords := None; c_mode := None; c_is_file_upload := None;
     c_upload_complete := false |}.

Definition read_size : nat := 3200.

(** Lines 21-25: [chunk = f.read(3200)], then [while chunk:] send it and
    read the next one.  [f.read(n)] returns the next [n] bytes, fewer at
    the end of the file and [b""] after it.  The fuel is the file length:
    every iteration consumes at least one byte. *)
Fixpoint read_loop (fuel : nat) (rest : bytes) : list bytes :=
  match fuel with
  | O => []
  | S fuel' =>
      match take read_size rest with
      | [] => []
      | chunk => chunk :: read_loop fuel' (drop read_size rest)
      end
  end.

(** Lines 18-28: the frames the client sends for the file [pcm]. *)
Definition client_frames (pcm : bytes) : list frame :=
  Text (Some hello) :: map Binary (read_loop (length pcm) pcm) ++ [Text (Some bye)].

(** The branches of lines 42-53, by [data.get("mode")]. *)
Inductive kind := KOnline | KOffline | KOther.

Definition classify (mode : option pystr) : kind :=
  if bool_decide (mode = Some (u"2pass-online")) then KOnline
  else if bool_decide (mode = Some (u"2pass-offline")) then KOffline
  else KOther.

(** Lines 36-56: [while ... and (online_result is None or offline_result
    is None)], one received message per iteration. *)
Fixpoint recv_loop {A} (mode_of : A -> option pystr) (msgs : list A)
    (online_result offline_result : option A) : option A * option A :=
  match msgs, online_result, offline_result with
  | [], _, _ => (online_result, offline_result)
  | _, Some _, Some _ => (online_result, offline_result)
  | m :: rest, _, _ =>
      match classify (mode_of m) with
      | KOnline => recv_loop mode_of rest (Some m) offline_result
      | KOffline => recv_loop mode_of rest online_result (Some m)
      | KOther => recv_loop mode_of rest online_result offline_result
      end
  end.

(** Lines 58-60: the warning printed when no offline result came. *)
Definition warns {A} (r : option A * option A) : bool :=
  match snd r with None => true | Some _ => false end.

(** The ["mode"] key of the messages of the unified server: [async_asr]
    (lines 376, 403, 411), [async_asr_online] (line 430) and
    [send_final_result] (line 297). *)
Definition umsg_mode (m : umsg) : option pystr :=
  match m with
  | UAsrMsg _ _ _ => Some (u"2pass")
  | UOnlineMsg _ _ => Some (u"online")
  | UFinalMsg _ mode => Some mode
  | UErrorMsg _ => Some (u"error")
  end.

(** A fresh connection of the unified server ([ws_serve], lines 440-452). *)
Definition u_world0 {Cache} (M : umodels Cache) (g : gpu) : uworld (Cache := Cache) :=
  {| uw_s := u_initial_session M; uw_g := g; uw_sent := [] |}.

(** ** Lemmas *)

(** The reading loop is the chunking loop of [split_audio_chunks] with a
    step of 3200 bytes. *)
Lemma read_loop_chunks_from n l : read_loop n l = chunks_from n read_size l.
Proof. revert l. induction n as [|n IH]; intros [|x l]; simpl; rewrite ?IH; done. Qed.

(** The client sends the whole file, in chunks of one to 3200 bytes. *)
Lemma read_loop_sends_file pcm :
  concat (read_loop (length pcm) pcm) = pcm /\
  Forall (fun c => (0 < length c <= 3200)%nat) (read_loop (length pcm) pcm).
Proof.
  rewrite read_loop_chunks_from. split.
  - apply chunks_from_concat; unfold read_size; lia.
  - apply chunks_from_bounds. unfold read_size; lia.
Qed.

(** Messages of modes the client does not recognise leave both results
    unset. *)
Lemma recv_loop_other {A} (mode_of : A -> option pystr) msgs :
  Forall (fun m => classify (mode_of m) = KOther) msgs ->
  recv_loop mode_of msgs None None = (None, None).
Proof. induction 1 as [|m msgs Hm _ IH]; [done|]. simpl. by rewrite Hm. Qed.

Section UnifiedClient.
Context {Cache : Type} (M : umodels Cache).

Definition unrecognised (ms : list umsg) : Prop :=
  Forall (fun m => classify (umsg_mode m) = KOther) ms.

(** What the unified connection keeps while it serves the client: live
    ["2pass"] mode, no upload, and no message the client recognises. *)
Definition client_state (w : uworld (Cache := Cache)) : Prop :=
  u_mode (uw_s w) = u"2pass" /\ u_is_file_upload (uw_s w) = false /\ unrecognised (uw_sent w).

Lemma unrecognised_app ms ms' : unrecognised ms -> unrecognised ms' -> unrecognised (ms ++ ms').
Proof. apply Forall_app_2. Qed.

Lemma asr_chunk_loop_unrecognised hw n i chunks msgs results :
  unrecognised msgs -> unrecognised (fst (asr_chunk_loop M hw n i chunks msgs results)).
Proof.
  revert i msgs results. induction chunks as [|c chunks IH]; intros i msgs results Hm; [done|].
  simpl. repeat case_match; apply IH; try done.
  apply unrecognised_app; [done|]. repeat constructor.
Qed.

Lemma u_async_asr_client w a : client_state w -> client_state (u_async_asr M w a).
Proof.
  intros (Hm & Hu & Hs). unfold u_async_asr.
  destruct (unified_check_memory _ _ _) as [[] g1]; simpl; [|done].
  case_match; [destruct (asr_chunk_loop _ _ _ _ _ _ _) as [msgs results] eqn:E|repeat case_match];
    unfold client_state; simpl; split_and!; try done; apply unrecognised_app; try done;
    try by repeat constructor.
  change msgs with (fst (msgs, results)). rewrite <- E. apply asr_chunk_loop_unrecognised. constructor.
Qed.

Lemma u_run_audio_client w bs :
  client_state w -> exists w', u_run M w (map Binary bs) = UServing w' /\ client_state w'.
Proof.
  revert w. induction bs as [|b bs IH]; intros w Hw; [by exists w|]. simpl.
  unfold u_handle_binary. destruct Hw as (Hm & Hu & Hs) eqn:Hw'.
  rewrite Hu, Hm, bool_decide_eq_true_2 by done. apply IH. by apply u_async_asr_client.
Qed.

Lemma u_step_hello g :
  exists w, u_step M (u_world0 M g) (Text (Some hello)) = UServing w /\ client_state w.
Proof. eexists. split; [reflexivity|]. unfold client_state. simpl. split_and!; [done..|constructor]. Qed.

Lemma u_step_bye w :
  client_state w -> exists w', u_step M w (Text (Some bye)) = UServing w' /\ client_state w'.
Proof. intros (Hm & Hu & Hs). eexists. split; [reflexivity|]. by unfold client_state. Qed.

End UnifiedClient.

(** C9: the client of src/test/test.py never receives a result it
    recognises, from either server.  Its first frame carries no
    ["chunk_size"], so the wss [ws_serve] ends on it and sends nothing.
    The unified server serves every frame, but in live ["2pass"] mode it
    labels its results ["2pass"], neither ["2pass-online"] nor
    ["2pass-offline"], so both results stay unset and the client waits
    for the whole timeout and warns. *)
Theorem test_client_gets_no_result {Cache Cache'} (Mw : models Cache) (Mu : umodels Cache') g pcm :
  (exists s' e, ws_step Mw (initial_session Mw) g (Text (Some hello)) = (Ended s' e, g, [])) /\
  exists w, u_run Mu (u_world0 Mu g) (client_frames pcm) = UServing w /\
    recv_loop umsg_mode (uw_sent w) None None = (None, None).
Proof.
  split; [eexists _, _; reflexivity|].
  destruct (u_step_hello Mu g) as (w1 & E1 & H1).
  destruct (u_run_audio_client Mu w1 (read_loop (length pcm) pcm) H1) as (w2 & E2 & H2).
  destruct (u_step_bye Mu w2 H2) as (w3 & E3 & H3).
  exists w3. split; [|apply recv_loop_other, H3].
  unfold client_frames. cbn [u_run]. rewrite E1, u_run_app, E2. cbn [u_run]. by rewrite E3.
Qed.

End TestClient.

Module Test02.
Import ResultMerger.

(** The loop variables of lines 20-23: [last_spk]; [last_end_time], the
    float [end_sec] of the running turn (the initial [0] is only read
    after [last_spk] is set); [merged_text]; [merged_time], the string of
    line 47; and [printed], the lines printed so far. *)
Record acc := {
  last_spk : option Z;
  last_end_time : PyFloat.float;
  merged_text : pystr;
  merged_time : pystr;
  printed : list pystr
}.

Definition acc0 : acc :=
  {| last_spk := None; last_end_time := PyFloat.mkfloat 0 0; merged_text := [];
     merged_time := []; printed := [] |}.

(** Lines 39-43 (and 52-56): the start is re-read from [merged_time]
    with [int()] and [float()], the end is [last_end_time]. *)
Definition print_line (a : acc) (spk : Z) : raises pystr :=
  h <- py_getitem (py_split 45 (merged_time a)) 0 ;;
  m <- py_getitem (py_split 58 h) 0 ;;
  start_min <- py_int_of_str m ;;
  h' <- py_getitem (py_split 45 (merged_time a)) 0 ;;
  sr <- py_getitem (py_split 58 h') 1 ;;
  start_sec_remain <- PyFloat.py_float sr ;;
  let end_min := PyFloat.floor_div (last_end_time a) 60 in
  let end_sec_remain := PyFloat.fmod_int (last_end_time a) 60 in
  Ret ([91] ++ PyFloat.str_int start_min ++ [58] ++ PyFloat.format_fixed 4 1 start_sec_remain
       ++ [45] ++ PyFloat.str_int end_min ++ [58] ++ PyFloat.format_fixed 4 1 end_sec_remain
       ++ [93; 32] ++ speaker_label spk ++ [58; 32] ++ merged_text a).

(** [if last_spk is not None: print(...)]: the lines printed so far. *)
Definition print_last (a : acc) : raises (list pystr) :=
  match last_spk a with
  | Some spk => l <- print_line a spk ;; Ret (printed a ++ [l])
  | None => Ret (printed a)
  end.

(** Lines 26-49: the body of [for sentence in result_dict['sentence_info']]
    on the floats [start / 1000] and [end / 1000]; line 47 formats both
    as the servers' [clock] does. *)
Definition step (a : acc) (s : sentence) : raises acc :=
  let start_sec := PyFloat.truediv (start_of s) 1000 in
  let end_sec := PyFloat.truediv (end_of s) 1000 in
  let spk := spk_of s in
  let t := text_of s in
  if match last_spk a with
     | Some l => (spk =? l) && PyFloat.le start_sec (PyFloat.add_int (last_end_time a) 1)
     | None => false
     end
  then Ret {| last_spk := last_spk a; last_end_time := end_sec; merged_text := merged_text a ++ t;
              merged_time := merged_time a; printed := printed a |}
  else p <- print_last a ;;
       Ret {| last_spk := Some spk; last_end_time := end_sec; merged_text := t;
              merged_time := clock (start_of s) ++ [45] ++ clock (end_of s); printed := p |}.

Fixpoint run (a : acc) (l : list sentence) : raises acc :=
  match l with
  | [] => Ret a
  | s :: l' => a' <- step a s ;; run a' l'
  end.

(** What the script prints after its header: ["无识别结果"] (line 58) or
    the lines of the turns.  An exception loses the lines printed before
    it. *)
Inductive output := NoResult | Printed (lines : list pystr).

(** Lines 16-58 on the result [res] of [model.generate]:
    [result_dict['sentence_info']] raises [KeyError] when the key is
    missing. *)
Definition main (res : list rec_result) : raises output :=
  match res with
  | [] => Ret NoResult
  | r :: _ =>
      match sentence_info r with
      | None => Exc (u"KeyError: 'sentence_info'")
      | Some l => a <- run acc0 l ;; ls <- print_last a ;; Ret (Printed ls)
      end
  end.

(** The line of a turn as the servers would show it: its [time_range],
    its speaker label and its text. *)
Definition server_line (t : turn) : pystr :=
  [91] ++ time_range t ++ [93; 32] ++ speaker_label (speaker t) ++ [58; 32] ++ text t.

(** ** Lemmas *)

(** [clock ms] has no ['-'], and splitting it at [':'] and reading back the
    two parts with [int()] and [float()] gives values that print as
    [clock ms] again. *)
Lemma clock_reparse ms : time_ok ms ->
  Forall (fun c => c <> 45) (clock ms) /\
  exists hm hs m x, py_split 58 (clock ms) = [hm; hs] /\ py_int_of_str hm = Ret m /\
    PyFloat.py_float hs = Ret x /\ PyFloat.str_int m ++ [58] ++ PyFloat.format_fixed 4 1 x = clock ms.
Proof.
  intros Hms. unfold clock. set (t := PyFloat.truediv ms 1000).
  assert (Ht : 0 <= PyFloat.num t) by (apply PyFloat.truediv_num_nonneg; unfold time_ok in Hms; lia).
  pose proof (PyFloat.floor_div_nonneg t 60 ltac:(lia) Ht) as Hm.
  destruct (PyFloat.fmod_60_fixed 4 t Ht) as (N & HN & ->).
  destruct (PyFloat.zero_pad_fixed_body_1 4 N ltac:(lia)) as (a & d & Hz & Hf). rewrite Hz.
  destruct (PyFloat.str_int_spec _ Hm) as (_ & Hd & _). pose proof Hf as (_ & Ha & Hdd & _).
  assert (Hr : forall k, (k < 48 \/ 57 < k) -> k <> 46 -> Forall (fun c => c <> k) (a ++ 46 :: [d])).
  { intros k Hk Hk'. apply Forall_app; split; [by apply PyFloat.all_digits_not|].
    constructor; [done|]. by apply PyFloat.all_digits_not. }
  split.
  - apply Forall_app; split; [by apply PyFloat.all_digits_not; [lia|]|].
    constructor; [done|]. apply Hr; lia.
  - exists (PyFloat.str_int (PyFloat.floor_div t 60)), (a ++ 46 :: [d]).
    exists (PyFloat.floor_div t 60), (PyFloat.of_ratio N 10). split_and!.
    + change ([58] ++ ?x) with (58 :: x). rewrite (py_split_app 58) by (apply PyFloat.all_digits_not; [lia | done]).
      by rewrite py_split_nosep by (apply Hr; lia).
    + by apply PyFloat.py_int_of_str_int.
    + by apply PyFloat.py_float_fixed1.
    + by rewrite PyFloat.format_fixed_of_ratio_10, Hz.
Qed.


(** The line printed for a turn whose [merged_time] was formatted from
    its start [st] (and some end [e]) and whose [last_end_time] is
    [en / 1000] is the servers' line for that turn. *)
Lemma print_line_turn a spk st e en :
  time_ok st -> time_ok e ->
  merged_time a = clock st ++ [45] ++ clock e -> last_end_time a = PyFloat.truediv en 1000 ->
  print_line a spk = Ret (server_line {| speaker := spk; start_time := st; end_time := en;
                                         text := merged_text a |}).
Proof.
  intros Hst He Hmt Hl. destruct (clock_reparse st Hst) as [Hn (hm & hs & m & x & Hs & Hi & Hf & Hc)].
  unfold print_line. rewrite Hmt. change ([45] ++ ?y) with (45 :: y).
  rewrite (py_split_app 45) by done. unfold py_getitem. cbn [lookup list_lookup raises_bind].
  rewrite Hs. cbn [lookup list_lookup raises_bind]. rewrite Hi. cbn [raises_bind]. rewrite Hf.
  cbn [raises_bind]. unfold server_line, time_range. cbn [start_time end_time speaker text].
  rewrite <- Hc, Hl. unfold clock. by rewrite <- !app_assoc.
Qed.

(** The script's loop state [a] stands for the servers' loop state [m]:
    the same speaker and text, the lines of the turns flushed, the end as
    the float [end / 1000], and [merged_time] formatted from the start. *)
Definition rel (a : acc) (m : ResultMerger.acc) : Prop :=
  last_spk a = ResultMerger.last_spk m /\ merged_text a = ResultMerger.merged_text m /\
  printed a = map server_line (results m) /\
  last_end_time a = PyFloat.truediv (ResultMerger.last_end_time m) 1000 /\
  time_ok (ResultMerger.last_end_time m) /\ time_ok (merged_start_time m) /\
  exists e, time_ok e /\
    (last_spk a <> None -> merged_time a = clock (merged_start_time m) ++ [45] ++ clock e).

Lemma rel_acc0 : rel acc0 ResultMerger.acc0.
Proof. split_and!; try done; try (unfold time_ok; cbn; lia). exists 0. split; [unfold time_ok; lia | done]. Qed.

Lemma print_last_rel a m : rel a m -> print_last a = Ret (map server_line (flush m)).
Proof.
  intros (Hs & Ht & Hp & Hl & Hle & Hms & e & He & Hmt). unfold print_last, flush. rewrite <- Hs.
  destruct (last_spk a) as [spk|]; [|by rewrite Hp].
  rewrite (print_line_turn a spk (merged_start_time m) e (ResultMerger.last_end_time m)) by auto.
  cbn [raises_bind]. by rewrite map_app, Hp, Ht.
Qed.

Lemma step_rel a m s : rel a m -> sentence_ok s ->
  exists a', step a s = Ret a' /\ rel a' (merge_step m s).
Proof.
  intros Hr [Hst Hen]. pose proof Hr as (Hs & Ht & Hp & Hl & Hle & Hms & e & He & Hmt).
  unfold step, merge_step. cbv zeta.
  assert (Hc : match last_spk a with
               | Some l => (spk_of s =? l) && PyFloat.le (PyFloat.truediv (start_of s) 1000)
                                                (PyFloat.add_int (last_end_time a) 1)
               | None => false
               end = continues m (spk_of s) (start_of s))
    by (unfold continues, within_one_second; by rewrite Hs, Hl).
  rewrite Hc. destruct (continues m (spk_of s) (start_of s)).
  - eexists; split; [done|]. split_and!; cbn; try done; [by rewrite Ht|]. eauto.
  - rewrite (print_last_rel a m Hr). cbn [raises_bind].
    eexists; split; [done|]. split_and!; cbn; try done. eauto.
Qed.

Lemma run_rel l a m : Forall sentence_ok l -> rel a m ->
  exists a', run a l = Ret a' /\ rel a' (fold_left merge_step l m).
Proof.
  intros Hl. revert a m. induction Hl as [|s l Hs _ IH]; intros a m Hr; [by exists a|].
  destruct (step_rel a m s Hr Hs) as (a' & Ha & Hr'). cbn [run]. rewrite Ha. cbn [raises_bind].
  by apply IH.
Qed.

(** ** Properties *)

(** C26: when every sentence has its times between 0 and 2^40 ms,
    src/test/test02.py prints, one for each turn the servers'
    [process_recognition_result] returns, the line of that turn with the
    servers' [time_range]: re-reading the start of its own [merged_time]
    with [int()] and [float()] loses nothing.  On an empty result it
    prints that there is none; without ["sentence_info"] it raises
    [KeyError] where the servers return no turn. *)
Theorem test02_matches_server res :
  Forall sentence_ok (sentences_of res) ->
  match main res with
  | Ret (Printed ls) => ls = map server_line (process_recognition_result res)
  | Ret NoResult => res = []
  | Exc msg => msg = u"KeyError: 'sentence_info'" /\ process_recognition_result res = [] /\
               exists r rest, res = r :: rest /\ sentence_info r = None
  end.
Proof.
  destruct res as [|r rest]; [done|]. unfold sentences_of, main, process_recognition_result.
  destruct (sentence_info r) as [l|] eqn:E; cbn [default]; intros Hl; [|split; [done | eauto]].
  destruct (run_rel l acc0 ResultMerger.acc0 Hl rel_acc0) as (a & -> & Hr). cbn [raises_bind].
  rewrite (print_last_rel a _ Hr). done.
Qed.

(** Scenario A of the specification, printed by the script. *)
Lemma test02_matches_server_witness :
  Forall sentence_ok (sentences_of [{| sentence_info := Some [sent 0 1000 0 "hi";
                          sent 1000 1800 0 "there"; sent 3000 4000 1 "hey"] |}]) /\
  main [{| sentence_info := Some [sent 0 1000 0 "hi"; sent 1000 1800 0 "there";
                                  sent 3000 4000 1 "hey"] |}]
  = Ret (Printed (map server_line (process_recognition_result
      [{| sentence_info := Some [sent 0 1000 0 "hi"; sent 1000 1800 0 "there";
                                 sent 3000 4000 1 "hey"] |}]))).
Proof.
  assert (H : Forall sentence_ok (sentences_of [{| sentence_info := Some [sent 0 1000 0 "hi";
                          sent 1000 1800 0 "there"; sent 3000 4000 1 "hey"] |}])).
  { cbn [sentences_of sentence_info default].
    do 3 (apply List.Forall_cons; [split; unfold time_ok, start_of, end_of, sent; simpl; lia|]).
    apply List.Forall_nil. }
  split; [exact H|]. pose proof (test02_matches_server _ H) as Hm.
  destruct (main _) as [[|ls]|]; [done | by rewrite Hm | by destruct Hm as (_ & _ & ? & ? & [= <- _] & ?)].
Defined.

(** A turn starting at 119.99 s: the script re-reads "1:60.0" from its
    own [merged_time] and prints it back. *)
Example test02_prints_sixty :
  main [{| sentence_info := Some [sent 119990 121000 0 "hi"] |}]
  = Ret (Printed [lit "[1:60.0-2:01.0] " ++ speaker_label 0 ++ lit ": hi"]).
Proof. vm_compute. reflexivity. Qed.

End Test02.

Module Test4.

(** One element of [result['text']]: [[start, end, speaker_id]], the
    times floats of seconds. *)
Record segment := { seg_start : PyFloat.float; seg_end : PyFloat.float; seg_speaker : Z }.

(** Lines 40-47: [f"{int(t // 60):02d}:{t % 60:05.2f}"]. *)
Definition time_str (t : PyFloat.float) : pystr :=
  PyFloat.format_int 2 (PyFloat.floor_div t 60) ++ [58] ++ PyFloat.format_fixed 5 2 (PyFloat.fmod_int t 60).

(** Line 50: [f"[{start_time_str}-{end_time_str}] 说话人{speaker_id}"]. *)
Definition format_segment (s : segment) : pystr :=
  [91] ++ time_str (seg_start s) ++ [45] ++ time_str (seg_end s) ++ [93; 32]
  ++ ResultMerger.speaker_label (seg_speaker s).

(** Lines 32-53: [result['text']] raises [KeyError] when the key is
    missing; the lines are joined with newlines. *)
Definition format_speaker_diarization_result (text : option (list segment)) : raises pystr :=
  match text with
  | None => Exc (u"KeyError: 'text'")
  | Some segs => Ret (py_join [10] (map format_segment segs))
  end.

(** The same rounding as the servers' [time_range]: a segment from 119.999 s
    to 125.5 s prints as [[01:60.00-02:05.50]]. *)
Example format_segment_sixty :
  format_segment {| seg_start := PyFloat.truediv 119999 1000; seg_end := PyFloat.truediv 1255 10;
                    seg_speaker := 1 |}
  = lit "[01:60.00-02:05.50] " ++ ResultMerger.speaker_label 1.
Proof. vm_compute. reflexivity. Qed.

End Test4.

Module Test3.

(** Line 15 for one track of [diarization.itertracks(yield_label=True)]:
    [f"start={turn.start:.1f}s stop={turn.end:.1f}s speaker_{speaker}"],
    the label a string. *)
Definition track_line (start stop : PyFloat.float) (speaker : pystr) : pystr :=
  u"start=" ++ PyFloat.format_fixed 0 1 start ++ u"s stop=" ++ PyFloat.format_fixed 0 1 stop
  ++ u"s speaker_" ++ speaker.

(** Lines 14-15: the lines printed, one per track. *)
Definition print_tracks (tracks : list (PyFloat.float * PyFloat.float * pystr)) : list pystr :=
  map (fun '(start, stop, speaker) => track_line start stop speaker) tracks.

End Test3.
